(** * AutoClean: a shallow embedding of the cleaning pipeline

    The development follows [AutoClean/AutoClean.py]: the class [AutoClean]
    (configuration, validation, orchestration) and the class [Modules] (the
    stages).  pandas, numpy and scikit-learn are modelled by the functions of
    the first part, each one documented with the library call it stands for.

    Numbers.  A float64 is modelled as an exact rational or NaN: rounding
    errors and infinities are outside the model.  An int64 is an unbounded
    integer. *)

From Stdlib Require Import String Ascii.
From Stdlib Require Import List ZArith QArith Qround Bool Lia.
From Stdlib Require Import Permutation Sorted Setoid OrdersEx Lqa.
Import ListNotations.

Set Implicit Arguments.
Set Warnings "-register-all".

(** ** Exceptions and results *)

Inductive exn : Set :=
| ValueError
| TypeError
| IndexError
| KeyError
| AttributeError
| UnboundLocalError.

Inductive result (A : Type) : Type :=
| Ok (a : A)
| Raise (e : exn).

Arguments Ok {A} a.
Arguments Raise {A} e.

Definition bind {A B : Type} (r : result A) (k : A -> result B) : result B :=
  match r with
  | Ok a => k a
  | Raise e => Raise e
  end.

Notation "x <- c ;; k" := (bind c (fun x => k))
  (at level 61, c at next level, right associativity).
Notation "c ;;; k" := (bind c (fun _ => k))
  (at level 61, right associativity).

(** ** Floating-point values *)

Inductive float : Set :=
| NaN
| Fin (q : Q).

Definition isnan (f : float) : bool :=
  match f with NaN => true | Fin _ => false end.

Definition fop2 (op : Q -> Q -> Q) (a b : float) : float :=
  match a, b with
  | Fin x, Fin y => Fin (op x y)
  | _, _ => NaN
  end.

Definition fadd : float -> float -> float := fop2 Qplus.
Definition fsub : float -> float -> float := fop2 Qminus.
Definition fmul : float -> float -> float := fop2 Qmult.

Definition Qlt_bool (x y : Q) : bool := negb (Qle_bool y x).

(** [a < b]: false as soon as one side is NaN. *)
Definition flt (a b : float) : bool :=
  match a, b with
  | Fin x, Fin y => Qlt_bool x y
  | _, _ => false
  end.

(** [a >= b] *)
Definition fge (a b : float) : bool :=
  match a, b with
  | Fin x, Fin y => Qle_bool y x
  | _, _ => false
  end.

(** Equality of the numbers denoted (NaN only equal to itself here: the
    relation compares results of the model, it is not Python's [==]). *)
Definition feq (a b : float) : Prop :=
  match a, b with
  | NaN, NaN => True
  | Fin x, Fin y => x == y
  | _, _ => False
  end.

Definition of_int (z : Z) : float := Fin (inject_Z z).

(** [x % 1 == 0] on a finite float *)
Definition Qintegral (q : Q) : bool :=
  (Z.rem (Qnum q) (Zpos (Qden q)) =? 0)%Z.

(** [int(x)]: truncation toward zero *)
Definition Qtrunc (q : Q) : Z := Z.quot (Qnum q) (Zpos (Qden q)).

(** ** Python's [sorted] on a list of floats

    An insertion sort that only uses [<], stable like Python's.  On a list
    with NaN the order Python produces is unspecified; the only consumer,
    [percentile], does not depend on it. *)

Fixpoint insert (x : float) (l : list float) : list float :=
  match l with
  | [] => [x]
  | h :: t => if flt h x then h :: insert x t else x :: l
  end.

Fixpoint sorted (l : list float) : list float :=
  match l with
  | [] => []
  | x :: t => insert x (sorted t)
  end.

(** ** [np.percentile] with the default (linear) method *)

(** numpy's [_lerp(a, b, t)] *)
Definition _lerp (a b t : float) : float :=
  let diff_b_a := fsub b a in
  if fge t (Fin (1 # 2))
  then fsub b (fmul diff_b_a (fsub (Fin 1) t))
  else fadd a (fmul diff_b_a t).

(** [np.percentile(a, q)]: raises [IndexError] on empty data; NaN when [a]
    holds a NaN; else the value at the virtual index [q/100 * (n-1)] of the
    sorted data, linearly interpolated between its two neighbours. *)
Definition percentile (a : list float) (q : Q) : result float :=
  match a with
  | [] => Raise IndexError
  | _ :: _ =>
      if existsb isnan a then Ok NaN
      else
        let arr := sorted a in
        let n := Z.of_nat (length a) in
        let virtual_index := (q / 100) * inject_Z (n - 1) in
        let previous := Qfloor virtual_index in
        let next := Z.min (previous + 1) (n - 1) in
        let gamma := virtual_index - inject_Z previous in
        Ok (_lerp (nth (Z.to_nat previous) arr NaN)
              (nth (Z.to_nat next) arr NaN) (Fin gamma))
  end.

(** ** Python values of the configuration *)

Inductive pyval : Type :=
| PNone
| PBool (b : bool)
| PInt (z : Z)
| PFloat (f : float)
| PStr (s : string)
| PList (l : list pyval).

(** The number a bool, int or float stands for in arithmetic. *)
Definition py_number (v : pyval) : option float :=
  match v with
  | PBool b => Some (of_int (if b then 1 else 0))
  | PInt z => Some (of_int z)
  | PFloat f => Some f
  | _ => None
  end.

(** ** Columns and data frames *)

Record datetime : Set := mkDatetime {
  dt_year : Z;
  dt_month : Z;
  dt_day : Z;
  dt_hour : Z;
  dt_minute : Z;
  dt_second : Z
}.

(** A cell of an object column: a string, or the missing marker. *)
Inductive obj : Set :=
| ONaN
| OStr (s : string).

(** The values of a column, by dtype: int64, float64, object, bool and
    datetime64 (where [None] is NaT). *)
Inductive coldata : Set :=
| IntCol (l : list Z)
| FloatCol (l : list float)
| ObjCol (l : list obj)
| BoolCol (l : list bool)
| DateCol (l : list (option datetime)).

Record Series : Set := mkSeries {
  col_name : string;
  col_data : coldata
}.

(** A data frame with the default index [0 .. n-1]: its columns in order. *)
Definition DataFrame : Set := list Series.

(** [df[col]] *)
Fixpoint getitem (df : DataFrame) (col : string) : option coldata :=
  match df with
  | [] => None
  | s :: rest =>
      if String.eqb (col_name s) col then Some (col_data s) else getitem rest col
  end.

(** [df[col] = d]: replaces the column in place, or appends a new one. *)
Fixpoint setitem (df : DataFrame) (col : string) (d : coldata) : DataFrame :=
  match df with
  | [] => [mkSeries col d]
  | s :: rest =>
      if String.eqb (col_name s) col then mkSeries col d :: rest
      else s :: setitem rest col d
  end.

(** dtype is a number: [select_dtypes(include=np.number)] keeps the column *)
Definition is_number (d : coldata) : bool :=
  match d with
  | IntCol _ | FloatCol _ => true
  | _ => false
  end.

(** The values of a numeric column as floats. *)
Definition float_values (d : coldata) : option (list float) :=
  match d with
  | IntCol l => Some (map of_int l)
  | FloatCol l => Some l
  | _ => None
  end.

(** The column names, and those that [select_dtypes(include=np.number)]
    keeps. *)
Definition columns (df : DataFrame) : list string := map col_name df.

Definition numeric_columns (df : DataFrame) : list string :=
  map col_name (filter (fun s => is_number (col_data s)) df).

Definition non_numeric_columns (df : DataFrame) : list string :=
  map col_name (filter (fun s => negb (is_number (col_data s))) df).

(** [df[col]] as an expression that raises [KeyError] on a missing name *)
Definition column (df : DataFrame) (col : string) : result coldata :=
  match getitem df col with
  | Some d => Ok d
  | None => Raise KeyError
  end.

(** *** Rows *)

Definition nrows_of (d : coldata) : nat :=
  match d with
  | IntCol l => length l
  | FloatCol l => length l
  | ObjCol l => length l
  | BoolCol l => length l
  | DateCol l => length l
  end.

Definition nrows (df : DataFrame) : nat :=
  match df with
  | [] => 0
  | s :: _ => nrows_of (col_data s)
  end.

(** [isna()] on one column *)
Definition isna (d : coldata) : list bool :=
  match d with
  | IntCol l => map (fun _ => false) l
  | FloatCol l => map isnan l
  | ObjCol l => map (fun o => match o with ONaN => true | OStr _ => false end) l
  | BoolCol l => map (fun _ => false) l
  | DateCol l => map (fun o => match o with None => true | Some _ => false end) l
  end.

Definition count_true (l : list bool) : nat := length (filter (fun b => b) l).

(** [df.isna().sum().sum()] *)
Definition count_missings (df : DataFrame) : nat :=
  fold_right (fun s acc => (count_true (isna (col_data s)) + acc)%nat) 0%nat df.

(** Keeps the elements whose flag is [true]. *)
Fixpoint select {A : Type} (mask : list bool) (l : list A) : list A :=
  match mask, l with
  | b :: mask', x :: l' => if b then x :: select mask' l' else select mask' l'
  | _, _ => []
  end.

Definition select_rows (mask : list bool) (d : coldata) : coldata :=
  match d with
  | IntCol l => IntCol (select mask l)
  | FloatCol l => FloatCol (select mask l)
  | ObjCol l => ObjCol (select mask l)
  | BoolCol l => BoolCol (select mask l)
  | DateCol l => DateCol (select mask l)
  end.

(** Row [i] holds a missing value in some column. *)
Definition row_has_na (df : DataFrame) (i : nat) : bool :=
  existsb (fun s => nth i (isna (col_data s)) false) df.

(** [df.dropna()] followed by [reset_index(drop=True)] *)
Definition dropna (df : DataFrame) : DataFrame :=
  let mask := map (fun i => negb (row_has_na df i)) (seq 0 (nrows df)) in
  map (fun s => mkSeries (col_name s) (select_rows mask (col_data s))) df.

(** [enumerate] *)
Definition enumerate {A : Type} (l : list A) : list (nat * A) :=
  combine (seq 0 (length l)) l.

(** Replaces position [i] of a list (nothing to do out of range). *)
Fixpoint update {A : Type} (i : nat) (v : A) (l : list A) : list A :=
  match l, i with
  | [], _ => []
  | _ :: t, O => v :: t
  | h :: t, S j => h :: update j v t
  end.

(** *** Numeric columns *)

Definition integral (x : float) : bool :=
  match x with
  | NaN => true (* fillna(-9999) *)
  | Fin q => Qintegral q
  end.

(** [(s.fillna(-9999) % 1 == 0).all()], for a numeric column [s] *)
Definition all_integral (d : coldata) : bool :=
  match d with
  | IntCol _ => true
  | FloatCol l => forallb integral l
  | _ => false
  end.

Definition trunc (x : float) : Z :=
  match x with
  | NaN => 0
  | Fin q => Qtrunc q
  end.

(** [s.astype(int)], for a numeric column: a NaN cannot be converted. *)
Definition astype_int (d : coldata) : result coldata :=
  match d with
  | IntCol l => Ok (IntCol l)
  | FloatCol l =>
      if existsb isnan l then Raise ValueError else Ok (IntCol (map trunc l))
  | BoolCol l => Ok (IntCol (map (fun b : bool => if b then 1 else 0)%Z l))
  | _ => Raise TypeError
  end.

(** [df.loc[i, col] = v] seen from the column, for a float [v]: an int64
    column stays int64 when [v] is a whole number and becomes float64
    otherwise. *)
Definition loc_set (d : coldata) (i : nat) (v : float) : coldata :=
  match d with
  | FloatCol l => FloatCol (update i v l)
  | IntCol l =>
      if integral v && negb (isnan v) then IntCol (update i (trunc v) l)
      else FloatCol (update i v (map of_int l))
  | _ => d
  end.

(** Rounding to the nearest integer, halves to the even one ([np.rint]). *)
Definition rint (q : Q) : Z :=
  let f := Qfloor q in
  match Qcompare (q - inject_Z f) (1 # 2) with
  | Lt => f
  | Gt => (f + 1)%Z
  | Eq => if Z.even f then f else (f + 1)%Z
  end.

(** [np.round(x, decimals)] *)
Definition round_float (decimals : nat) (x : float) : float :=
  match x with
  | NaN => NaN
  | Fin q =>
      let scale := (10 ^ Z.of_nat decimals)%Z in
      Fin (Qmake (rint (q * inject_Z scale)) (Z.to_pos scale))
  end.

(** [s.round(decimals=n)] *)
Definition round_column (decimals : nat) (d : coldata) : result coldata :=
  match d with
  | IntCol l => Ok (IntCol l)
  | FloatCol l => Ok (FloatCol (map (round_float decimals) l))
  | _ => Raise TypeError
  end.

(** ** Python values: truth, equality, membership *)

Definition feqb (a b : float) : bool :=
  match a, b with
  | Fin x, Fin y => Qeq_bool x y
  | _, _ => false
  end.

(** [bool(v)] *)
Definition py_truthy (v : pyval) : bool :=
  match v with
  | PNone => false
  | PBool b => b
  | PInt z => negb (z =? 0)%Z
  | PFloat f => negb (feqb f (of_int 0))
  | PStr s => negb (String.eqb s "")
  | PList l => match l with [] => false | _ :: _ => true end
  end.

(** [a == b]: numbers (bools included) by value, strings and lists by
    content, anything else unequal. *)
Fixpoint py_eq (a b : pyval) : bool :=
  match a, b with
  | PNone, PNone => true
  | PStr s, PStr t => String.eqb s t
  | PList l, PList m =>
      (fix eq_list (l m : list pyval) : bool :=
         match l, m with
         | [], [] => true
         | x :: l', y :: m' => py_eq x y && eq_list l' m'
         | _, _ => false
         end) l m
  | PBool _, _ | PInt _, _ | PFloat _, _ =>
      match py_number a, py_number b with
      | Some x, Some y => feqb x y
      | _, _ => false
      end
  | _, _ => false
  end.

(** [v == 'name'] and [v in ['a', 'b', ...]] *)
Definition is_str (v : pyval) (s : string) : bool := py_eq v (PStr s).

Definition py_in (v : pyval) (names : list string) : bool :=
  existsb (is_str v) names.

(** [str(v) in names], for names that are lower-case words: [str] of a
    bool, a number, a list or [None] is never one of them. *)
Definition str_in (v : pyval) (names : list string) : bool :=
  match v with
  | PStr s => existsb (String.eqb s) names
  | _ => false
  end.

(** [len(v)] *)
Definition py_len (v : pyval) : result nat :=
  match v with
  | PStr s => Ok (String.length s)
  | PList l => Ok (length l)
  | _ => Raise TypeError
  end.

(** [v[i]] *)
Definition py_item (v : pyval) (i : nat) : result pyval :=
  match v with
  | PList l =>
      match nth_error l i with
      | Some x => Ok x
      | None => Raise IndexError
      end
  | PStr s =>
      match String.get i s with
      | Some c => Ok (PStr (String c ""))
      | None => Raise IndexError
      end
  | _ => Raise TypeError
  end.

Definition is_list (v : pyval) : bool :=
  match v with PList _ => true | _ => false end.

(** [v.upper()], evaluated for a log message: only a string has it. *)
Definition upper (v : pyval) : result unit :=
  match v with
  | PStr _ => Ok tt
  | _ => Raise AttributeError
  end.

(** ** Statements

    A stage works on the frame bound to [df]: it updates it and may raise.
    The frame reached is kept when an exception is raised, which is what a
    [try]/[except] around a partly executed body observes. *)

Definition stmt : Type := DataFrame -> DataFrame * option exn.

Definition skip : stmt := fun df => (df, None).

Definition raise (e : exn) : stmt := fun df => (df, Some e).

Definition seq_ (a b : stmt) : stmt :=
  fun df =>
    match a df with
    | (df1, None) => b df1
    | (df1, Some e) => (df1, Some e)
    end.

Notation "a >> b" := (seq_ a b) (at level 62, right associativity).

(** Evaluates an expression on the current frame, then goes on. *)
Definition eval {A : Type} (e : DataFrame -> result A) (k : A -> stmt) : stmt :=
  fun df =>
    match e df with
    | Ok a => k a df
    | Raise x => (df, Some x)
    end.

(** [df = f(df)] *)
Definition rebind (f : DataFrame -> result DataFrame) : stmt :=
  fun df =>
    match f df with
    | Ok df1 => (df1, None)
    | Raise x => (df, Some x)
    end.

(** [df[col] = d] *)
Definition assign (col : string) (d : coldata) : stmt :=
  fun df => (setitem df col d, None).

(** [for x in l: body(x)] *)
Fixpoint for_each {A : Type} (l : list A) (body : A -> stmt) : stmt :=
  match l with
  | [] => skip
  | x :: t => body x >> for_each t body
  end.

(** [try: body  except: handler] with a handler that cannot fail
    (it logs, or passes). *)
Definition try_except (body : stmt) : stmt :=
  fun df => (fst (body df), None).

(** [try: body  except: handler] *)
Definition try_handle (body handler : stmt) : stmt :=
  fun df =>
    match body df with
    | (df1, None) => (df1, None)
    | (df1, Some _) => handler df1
    end.

(** The function a statement defines: takes [df], returns the frame. *)
Definition run (s : stmt) (df : DataFrame) : result DataFrame :=
  match s df with
  | (df1, None) => Ok df1
  | (_, Some e) => Raise e
  end.

(** ** Sorted distinct values ([np.unique], [sorted(set(...))]) *)

Section Unique.

Variable A : Type.
Variable cmp : A -> A -> comparison.

Fixpoint insert_unique (x : A) (l : list A) : list A :=
  match l with
  | [] => [x]
  | h :: t =>
      match cmp x h with
      | Lt => x :: l
      | Eq => l
      | Gt => h :: insert_unique x t
      end
  end.

Definition unique (l : list A) : list A := fold_right insert_unique [] l.

Fixpoint index_of (x : A) (l : list A) : option nat :=
  match l with
  | [] => None
  | h :: t =>
      match cmp x h with
      | Eq => Some O
      | _ => option_map S (index_of x t)
      end
  end.

Definition count_of (x : A) (l : list A) : nat :=
  length (filter (fun y => match cmp x y with Eq => true | _ => false end) l).

(** The most frequent value, the smallest one among equally frequent
    ones (scipy's [mode], and scikit-learn's tie-breaking on objects). *)
Definition most_frequent (l : list A) : option A :=
  match l with
  | [] => None
  | h :: t =>
      Some (fold_left
              (fun best x =>
                 let cx := count_of x l in
                 let cb := count_of best l in
                 if (cb <? cx)%nat then x
                 else if (cb =? cx)%nat then
                        match cmp x best with Lt => x | _ => best end
                      else best)
              t h)
  end.

End Unique.

(** ** Dates

    ISO 8601 strings: [YYYY-MM-DD], optionally followed by [T] or a space
    and [HH:MM:SS]. *)

Definition digit (c : ascii) : option Z :=
  let n := nat_of_ascii c in
  if ((48 <=? n) && (n <=? 57))%nat then Some (Z.of_nat (n - 48)) else None.

Fixpoint number (l : list ascii) (acc : Z) : option Z :=
  match l with
  | [] => Some acc
  | c :: t =>
      match digit c with
      | Some d => number t (10 * acc + d)%Z
      | None => None
      end
  end.

Definition leap_year (y : Z) : bool :=
  ((y mod 4 =? 0) && (negb (y mod 100 =? 0) || (y mod 400 =? 0)))%Z.

Definition days_in_month (y m : Z) : Z :=
  if (m =? 2)%Z then (if leap_year y then 29 else 28)%Z
  else if ((m =? 4) || (m =? 6) || (m =? 9) || (m =? 11))%Z then 30%Z
  else 31%Z.

Definition valid_datetime (d : datetime) : bool :=
  ((1 <=? dt_month d) && (dt_month d <=? 12) &&
   (1 <=? dt_day d) && (dt_day d <=? days_in_month (dt_year d) (dt_month d)) &&
   (dt_hour d <=? 23) && (dt_minute d <=? 59) && (dt_second d <=? 59))%Z.

Definition is_sep (c : ascii) : bool :=
  (Ascii.eqb c "T" || Ascii.eqb c " ")%char.

Definition parse_time (l : list ascii) : option (Z * Z * Z) :=
  match l with
  | [] => Some (0, 0, 0)%Z
  | [sep; h1; h2; c1; m1; m2; c2; s1; s2] =>
      if (is_sep sep && Ascii.eqb c1 ":" && Ascii.eqb c2 ":")%char then
        match number [h1; h2] 0, number [m1; m2] 0, number [s1; s2] 0 with
        | Some h, Some m, Some s => Some (h, m, s)
        | _, _, _ => None
        end
      else None
  | _ => None
  end.

Definition parse_iso (s : string) : option datetime :=
  match list_ascii_of_string s with
  | y1 :: y2 :: y3 :: y4 :: d1 :: m1 :: m2 :: d2 :: a1 :: a2 :: rest =>
      if (Ascii.eqb d1 "-" && Ascii.eqb d2 "-")%char then
        match number [y1; y2; y3; y4] 0, number [m1; m2] 0, number [a1; a2] 0,
              parse_time rest with
        | Some y, Some m, Some a, Some (h, mi, se) =>
            let d := mkDatetime y m a h mi se in
            if valid_datetime d then Some d else None
        | _, _, _, _ => None
        end
      else None
  | _ => None
  end.

(** [str(timestamp)]: [YYYY-MM-DD HH:MM:SS] *)
Fixpoint digits (n : nat) (z : Z) : string :=
  match n with
  | O => ""
  | S k =>
      digits k (z / 10) ++
      String (ascii_of_nat (48 + Z.to_nat (z mod 10))) ""
  end.

Definition str_datetime (d : datetime) : string :=
  digits 4 (dt_year d) ++ "-" ++ digits 2 (dt_month d) ++ "-" ++
  digits 2 (dt_day d) ++ " " ++ digits 2 (dt_hour d) ++ ":" ++
  digits 2 (dt_minute d) ++ ":" ++ digits 2 (dt_second d).

Definition datetime_compare (a b : datetime) : comparison :=
  let key (d : datetime) :=
    [dt_year d; dt_month d; dt_day d; dt_hour d; dt_minute d; dt_second d] in
  (fix lex (x y : list Z) : comparison :=
     match x, y with
     | u :: x', v :: y' =>
         match Z.compare u v with Eq => lex x' y' | c => c end
     | _, _ => Eq
     end) (key a) (key b).

(** ** What the libraries decide

    The parts of pandas and Python that the pipeline relies on and that the
    model leaves open: the order in which a [set] of column names is
    iterated, how [pd.to_datetime] reads a string that is not in ISO format
    or a number, and how a number is printed. *)

Class Pandas : Type := {
  set_iter : list string -> list string;
  parse_datetime : string -> option datetime;
  epoch_datetime : Q -> option datetime;
  str_number : float -> string
}.

(** What is assumed of them where a result depends on it. *)
Definition set_iter_ok (P : Pandas) : Prop :=
  forall l : list string, NoDup l -> Permutation (set_iter l) l.

Definition parse_iso_ok (P : Pandas) : Prop :=
  forall (s : string) (d : datetime),
    parse_iso s = Some d -> parse_datetime s = Some d.

(** A reference instance, for running the model on examples: a set is
    iterated in the order of the frame, only ISO strings are dates. *)
Definition reference_pandas : Pandas := {|
  set_iter := fun l => l;
  parse_datetime := parse_iso;
  epoch_datetime := fun _ => Some (mkDatetime 1970 1 1 0 0 0);
  str_number := fun _ => "0"%string
|}.

Section Library.

Context {P : Pandas}.

(** A traversal that fails as soon as one element does. *)
Fixpoint traverse {A B : Type} (f : A -> result B) (l : list A)
  : result (list B) :=
  match l with
  | [] => Ok []
  | x :: t => y <- f x ;; ys <- traverse f t ;; Ok (y :: ys)
  end.

(** [pd.to_datetime(s)] on a column: strings are parsed one by one and a
    string that is not a date raises; the missing marker becomes NaT. *)
Definition to_datetime (d : coldata) : result (list (option datetime)) :=
  match d with
  | DateCol l => Ok l
  | ObjCol l =>
      traverse (fun o =>
                  match o with
                  | ONaN => Ok None
                  | OStr s =>
                      match parse_datetime s with
                      | Some t => Ok (Some t)
                      | None => Raise ValueError
                      end
                  end) l
  | IntCol l =>
      traverse (fun z =>
                  match epoch_datetime (inject_Z z) with
                  | Some t => Ok (Some t)
                  | None => Raise ValueError
                  end) l
  | FloatCol l =>
      traverse (fun x =>
                  match x with
                  | NaN => Ok None
                  | Fin q =>
                      match epoch_datetime q with
                      | Some t => Ok (Some t)
                      | None => Raise ValueError
                      end
                  end) l
  | BoolCol _ => Raise TypeError
  end.

(** [s.dt.day] and the like: int64, or float64 with NaN when a NaT is
    present. *)
Definition dt_field (f : datetime -> Z) (l : list (option datetime)) : coldata :=
  if forallb (fun o => match o with Some _ => true | None => false end) l
  then IntCol (map (fun o => match o with Some t => f t | None => 0%Z end) l)
  else FloatCol (map (fun o => match o with
                                | Some t => of_int (f t)
                                | None => NaN
                                end) l).

(** [(df[name] == 0).all()] *)
Definition all_zero (df : DataFrame) (name : string) : result bool :=
  d <- column df name ;;
  Ok match d with
     | IntCol l => forallb (fun z => (z =? 0)%Z) l
     | FloatCol l => forallb (fun x => feqb x (of_int 0)) l
     | BoolCol l => forallb negb l
     | ObjCol l => match l with [] => true | _ :: _ => false end
     | DateCol l => match l with [] => true | _ :: _ => false end
     end.

(** [df.drop(name, inplace=True, axis=1)] *)
Definition drop_column (name : string) : stmt :=
  fun df =>
    match getitem df name with
    | None => (df, Some KeyError)
    | Some _ =>
        (filter (fun s => negb (String.eqb (col_name s) name)) df, None)
    end.

End Library.

(** ** scikit-learn's imputers

    [KNNImputer] and [SimpleImputer], as the pipeline uses them: fitted on
    one column and applied to the same column. *)

Inductive strategy : Set := mean | median | most_frequent_.

Inductive imputer : Set :=
| KNNImputer (n_neighbors : nat)
| SimpleImputer (s : strategy).

Definition finite_values (l : list float) : list Q :=
  flat_map (fun x => match x with Fin q => [q] | NaN => [] end) l.

Definition Qsum (l : list Q) : Q := fold_right Qplus 0 l.

(** The mean of the observed values. *)
Definition mean_of (obs : list Q) : Q :=
  Qsum obs / inject_Z (Z.of_nat (length obs)).

(** The median of the observed values. *)
Definition median_of (obs : list Q) : float :=
  let s := sorted (map Fin obs) in
  let n := length obs in
  if Nat.even n
  then fmul (Fin (1 # 2)) (fadd (nth (n / 2 - 1) s NaN) (nth (n / 2) s NaN))
  else nth (n / 2) s NaN.

Definition fillna (v : float) (l : list float) : list float :=
  map (fun x => match x with NaN => v | Fin _ => x end) l.

Definition strings_of (l : list obj) : list string :=
  flat_map (fun o => match o with OStr s => [s] | ONaN => [] end) l.

(** [pd.DataFrame(imputer.fit_transform(np.array(s).reshape(-1, 1)),
    columns=[col])], as the column obtained.

    A column without any observed value is dropped by the imputer, and the
    frame cannot be built from the empty array: [ValueError].  The same
    error is raised for a dtype the imputer does not support (bool,
    datetime64) and for strings under a numeric strategy.  With a single
    column [KNNImputer] finds no neighbour at a finite distance and falls
    back to the mean of the column. *)
Definition fit_transform (imp : imputer) (d : coldata) : result coldata :=
  match d with
  | BoolCol _ | DateCol _ => Raise ValueError
  | ObjCol l =>
      match imp with
      | SimpleImputer most_frequent_ =>
          match most_frequent String_as_OT.compare (strings_of l) with
          | None => Raise ValueError
          | Some m =>
              Ok (ObjCol (map (fun o => match o with
                                        | ONaN => OStr m
                                        | OStr _ => o
                                        end) l))
          end
      | _ => Raise ValueError
      end
  | IntCol l =>
      match l with
      | [] => Raise ValueError
      | _ :: _ =>
          match imp with
          | SimpleImputer most_frequent_ => Ok (IntCol l)
          | _ => Ok (FloatCol (map of_int l))
          end
      end
  | FloatCol l =>
      match finite_values l with
      | [] => Raise ValueError
      | obs =>
          match imp with
          | KNNImputer _ | SimpleImputer mean =>
              Ok (FloatCol (fillna (Fin (mean_of obs)) l))
          | SimpleImputer median =>
              Ok (FloatCol (fillna (median_of obs) l))
          | SimpleImputer most_frequent_ =>
              match most_frequent Qcompare obs with
              | None => Raise ValueError
              | Some m => Ok (FloatCol (fillna (Fin m) l))
              end
          end
      end
  end.

(** ** scikit-learn's [LabelEncoder] *)

(** A class of the encoder: a key of the [mapping] dict. *)
Inductive key : Set :=
| KNum (x : float)
| KStr (s : string)
| KBool (b : bool)
| KDate (d : option datetime).

(** [math.isnan(key)]: only defined on numbers *)
Definition math_isnan (k : key) : result bool :=
  match k with
  | KNum x => Ok (isnan x)
  | KBool _ => Ok false
  | KStr _ | KDate _ => Raise TypeError
  end.

Definition code_of {A : Type} (cmp : A -> A -> comparison) (classes : list A)
  (x : A) : Z :=
  match index_of cmp x classes with
  | Some i => Z.of_nat i
  | None => Z.of_nat (length classes)
  end.

(** [le.fit_transform(values)] with [le.classes_]: the classes are the
    distinct values in increasing order, a missing value coming last; the
    code of a value is its position among the classes. *)
Definition label_fit_transform (d : coldata) : list key * list Z :=
  match d with
  | ObjCol l =>
      let classes := unique String_as_OT.compare (strings_of l) in
      let missing := existsb (fun o => match o with ONaN => true | _ => false end) l in
      (map KStr classes ++ (if missing then [KNum NaN] else []),
       map (fun o => match o with
                     | OStr s => code_of String_as_OT.compare classes s
                     | ONaN => Z.of_nat (length classes)
                     end) l)
  | BoolCol l =>
      let classes := unique Bool.compare l in
      (map KBool classes, map (code_of Bool.compare classes) l)
  | IntCol l =>
      let classes := unique Z.compare l in
      (map (fun z => KNum (of_int z)) classes, map (code_of Z.compare classes) l)
  | FloatCol l =>
      let classes := unique Qcompare (finite_values l) in
      (map (fun q => KNum (Fin q)) classes ++
         (if existsb isnan l then [KNum NaN] else []),
       map (fun x => match x with
                     | Fin q => code_of Qcompare classes q
                     | NaN => Z.of_nat (length classes)
                     end) l)
  | DateCol l =>
      let present := flat_map (fun o => match o with Some t => [t] | None => [] end) l in
      let classes := unique datetime_compare present in
      let missing := existsb (fun o => match o with None => true | _ => false end) l in
      (map (fun t => KDate (Some t)) classes ++
         (if missing then [KDate None] else []),
       map (fun o => match o with
                     | Some t => code_of datetime_compare classes t
                     | None => Z.of_nat (length classes)
                     end) l)
  end.

(** [s.replace({code: nan}, inplace=True)] on a column of codes *)
Definition replace_by_nan (code : Z) (d : coldata) : coldata :=
  match d with
  | IntCol l =>
      if existsb (Z.eqb code) l
      then FloatCol (map (fun z => if Z.eqb z code then NaN else of_int z) l)
      else d
  | FloatCol l =>
      FloatCol (map (fun x => if feqb x (of_int code) then NaN else x) l)
  | _ => d
  end.

(** ** [pd.get_dummies(s, prefix=col)] *)

Definition indicator {A : Type} (name : A -> string) (same : A -> A -> bool)
  (prefix : string) (cats : list A) (l : list (option A)) : DataFrame :=
  map (fun c =>
         mkSeries (prefix ++ "_" ++ name c)
           (IntCol (map (fun o => match o with
                                  | Some x => if same c x then 1%Z else 0%Z
                                  | None => 0%Z
                                  end) l)))
      cats.

Definition is_eq (c : comparison) : bool :=
  match c with Eq => true | _ => false end.

Section Dummies.

Context {P : Pandas}.

Definition get_dummies (d : coldata) (prefix : string) : DataFrame :=
  match d with
  | ObjCol l =>
      indicator (fun s => s) String.eqb prefix
        (unique String_as_OT.compare (strings_of l))
        (map (fun o => match o with OStr s => Some s | ONaN => None end) l)
  | BoolCol l =>
      indicator (fun b : bool => if b then "True" else "False")%string
        Bool.eqb prefix (unique Bool.compare l) (map Some l)
  | DateCol l =>
      indicator str_datetime (fun a b => is_eq (datetime_compare a b)) prefix
        (unique datetime_compare
           (flat_map (fun o => match o with Some t => [t] | None => [] end) l))
        l
  | IntCol l =>
      indicator (fun z => str_number (of_int z)) Z.eqb prefix
        (unique Z.compare l) (map Some l)
  | FloatCol l =>
      indicator (fun q => str_number (Fin q)) Qeq_bool prefix
        (unique Qcompare (finite_values l))
        (map (fun x => match x with Fin q => Some q | NaN => None end) l)
  end.

End Dummies.

(** [df.join(other)]: the names must not overlap *)
Definition join (df other : DataFrame) : result DataFrame :=
  if existsb (fun s => existsb (String.eqb (col_name s)) (columns df)) other
  then Raise ValueError
  else Ok (df ++ other).

(** [s.nunique()]: the number of distinct values, missing ones left out *)
Definition nunique (d : coldata) : nat :=
  length (filter (fun k => match k with
                           | KNum NaN | KDate None => false
                           | _ => true
                           end) (fst (label_fit_transform d))).

(** ** Rows addressed by label

    Inside the deletion loop the frame keeps the labels it had when the loop
    started: [index] lists the labels of the rows still present. *)

Fixpoint position (label : nat) (index : list nat) : option nat :=
  match index with
  | [] => None
  | h :: t => if (h =? label)%nat then Some O else option_map S (position label t)
  end.

Fixpoint remove_nth {A : Type} (p : nat) (l : list A) : list A :=
  match l, p with
  | [], _ => []
  | _ :: t, O => t
  | h :: t, S q => h :: remove_nth q t
  end.

Definition remove_row (p : nat) (d : coldata) : coldata :=
  match d with
  | IntCol l => IntCol (remove_nth p l)
  | FloatCol l => FloatCol (remove_nth p l)
  | ObjCol l => ObjCol (remove_nth p l)
  | BoolCol l => BoolCol (remove_nth p l)
  | DateCol l => DateCol (remove_nth p l)
  end.

(** [df.drop(label)] *)
Definition drop (index : list nat) (df : DataFrame) (label : nat)
  : result (list nat * DataFrame) :=
  match position label index with
  | None => Raise KeyError
  | Some p =>
      Ok (remove_nth p index,
          map (fun s => mkSeries (col_name s) (remove_row p (col_data s))) df)
  end.

(** ** The configuration: the attributes of an [AutoClean] instance *)

Record AutoClean : Type := mkAutoClean {
  missings_num : pyval;
  missings_categ : pyval;
  encode_categ : pyval;
  extract_datetime : pyval;
  outliers : pyval;
  outlier_param : pyval
}.

(** The defaults of [__init__]. *)
Definition defaults : AutoClean := {|
  missings_num := PStr "knn";
  missings_categ := PStr "mode";
  encode_categ := PList [PStr "auto"];
  extract_datetime := PStr "s";
  outliers := PStr "winz";
  outlier_param := PFloat (Fin (3 # 2))
|}.

(** * The stages: class [Modules] *)

Module Modules.

Section Stages.

Context {P : Pandas}.

Variable self : AutoClean.

(** *** [_compute_bounds(self, df, col)] *)

Definition _compute_bounds (df : DataFrame) (col : string)
  : result (float * float) :=
  d <- column df col ;;
  match float_values d with
  | None => Raise TypeError
  | Some vals =>
      let colSorted := sorted vals in
      q1 <- percentile colSorted 25 ;;
      q3 <- percentile colSorted 75 ;;
      let iqr := fsub q3 q1 in
      match py_number (outlier_param self) with
      | None => Raise TypeError
      | Some k =>
          let lb := fsub q1 (fmul k iqr) in
          let ub := fadd q3 (fmul k iqr) in
          Ok (lb, ub)
      end
  end.

(** *** [_check_missings_num(self, df, _n_neighbors=3)] *)

(** The body of the [try] for one column. *)
Definition impute_num (imp : imputer) (col_name : string) : stmt :=
  eval (fun df => d <- column df col_name ;; fit_transform imp d)
    (fun imputed =>
       eval (fun df => column df col_name)
         (fun d =>
            if all_integral d then
              assign col_name imputed >>
              eval (fun df => d1 <- column df col_name ;; astype_int d1)
                (fun d2 => assign col_name d2)
            else
              assign col_name imputed)).

Definition _check_missings_num_stmt (_n_neighbors : nat) : stmt :=
  if py_truthy (missings_num self) then
    eval (fun _ => upper (missings_num self)) (fun _ =>
    eval (fun df => Ok (count_missings df)) (fun count =>
      if negb (count =? 0)%nat then
        let impute_all (imp : imputer) : stmt :=
          eval (fun df => Ok (numeric_columns df)) (fun cols =>
            for_each cols (fun col_name =>
              try_except (impute_num imp col_name))) in
        if is_str (missings_num self) "knn" then
          impute_all (KNNImputer _n_neighbors)
        else if is_str (missings_num self) "mean" then
          impute_all (SimpleImputer mean)
        else if is_str (missings_num self) "median" then
          impute_all (SimpleImputer median)
        else if is_str (missings_num self) "mode" then
          impute_all (SimpleImputer most_frequent_)
        else if is_str (missings_num self) "delete" then
          rebind (fun df => Ok (dropna df))
        else
          (* [imputer] was never bound *)
          raise UnboundLocalError
      else skip))
  else skip.

Definition _check_missings_num (df : DataFrame) : result DataFrame :=
  run (_check_missings_num_stmt 3) df.

(** *** [_round_values(self, df, _decimals=2)] *)

Definition round_one (_decimals : nat) (col_name : string) : stmt :=
  eval (fun df => column df col_name) (fun d =>
    if all_integral d then
      try_except
        (eval (fun _ => astype_int d) (fun d1 => assign col_name d1))
    else
      try_except
        (eval (fun _ => round_column _decimals d) (fun d1 => assign col_name d1))).

Definition _round_values_stmt (_decimals : nat) : stmt :=
  eval (fun df => Ok (numeric_columns df)) (fun cols =>
    for_each cols (round_one _decimals)).

Definition _round_values (df : DataFrame) : result DataFrame :=
  run (_round_values_stmt 2) df.

(** *** [_check_missings_categ(self, df)] *)

Definition impute_categ (col_name : string) : stmt :=
  eval (fun df => d <- column df col_name ;;
                  fit_transform (SimpleImputer most_frequent_) d)
    (fun imputed => assign col_name imputed).

Definition _check_missings_categ_stmt : stmt :=
  if py_truthy (missings_categ self) then
    eval (fun _ => upper (missings_categ self)) (fun _ =>
    eval (fun df => Ok (count_missings df)) (fun count =>
      if negb (count =? 0)%nat then
        if is_str (missings_categ self) "mode" then
          eval (fun df => Ok (set_iter (non_numeric_columns df))) (fun cols =>
            for_each cols impute_categ)
        else if is_str (missings_categ self) "delete" then
          rebind (fun df => Ok (dropna df))
        else skip
      else skip))
  else skip.

Definition _check_missings_categ (df : DataFrame) : result DataFrame :=
  run _check_missings_categ_stmt df.

(** *** [_check_outliers(self, df)] *)

(** [df.loc[row_index, col_name] = bound] *)
Definition loc_assign (col_name : string) (row_index : nat) (bound : float)
  : stmt :=
  eval (fun df => column df col_name) (fun d =>
    assign col_name (loc_set d row_index bound)).

(** The replacement of one outlier by a bound: both branches of the source
    (below the lower bound, above the upper bound) have this shape. *)
Definition replace_outlier (col_name : string) (row_index : nat)
  (bound : float) : stmt :=
  eval (fun df => column df col_name) (fun d =>
    if all_integral d then
      loc_assign col_name row_index bound >>
      eval (fun df => d1 <- column df col_name ;; astype_int d1)
        (fun d2 => assign col_name d2)
    else
      loc_assign col_name row_index bound).

(** [enumerate(df[col_name])]: the values the loop reads *)
Definition rows_of (df : DataFrame) (col_name : string)
  : result (list (nat * float)) :=
  d <- column df col_name ;;
  match float_values d with
  | Some vals => Ok (enumerate vals)
  | None => Raise TypeError
  end.

Definition winz (col_name : string) (lower_bound upper_bound : float) : stmt :=
  eval (fun df => rows_of df col_name) (fun rows =>
    for_each rows (fun '(row_index, row_val) =>
      if flt row_val lower_bound || flt upper_bound row_val then
        if flt row_val lower_bound then
          replace_outlier col_name row_index lower_bound
        else
          replace_outlier col_name row_index upper_bound
      else skip)).

(** The deletion loop, then [reset_index(drop=True)]. *)
Definition delete_outliers (col_name : string) (lower_bound upper_bound : float)
  : stmt :=
  eval (fun df => rows_of df col_name) (fun rows =>
    rebind (fun df =>
      r <- fold_left
             (fun acc '(row_index, row_val) =>
                st <- acc ;;
                if flt row_val lower_bound || flt upper_bound row_val
                then drop (fst st) (snd st) row_index
                else Ok st)
             rows (Ok (seq 0 (nrows df), df)) ;;
      Ok (snd r))).

(** The body of the loop over the numeric columns. *)
Definition outliers_of (col_name : string) : stmt :=
  eval (fun df => _compute_bounds df col_name) (fun '(lower_bound, upper_bound) =>
    if is_str (outliers self) "winz" then
      winz col_name lower_bound upper_bound
    else if is_str (outliers self) "delete" then
      delete_outliers col_name lower_bound upper_bound
    else skip).

Definition _check_outliers_stmt : stmt :=
  if py_truthy (outliers self) then
    eval (fun _ => upper (outliers self)) (fun _ =>
    eval (fun df => Ok (numeric_columns df)) (fun cols =>
      for_each cols outliers_of))
  else skip.

Definition _check_outliers (df : DataFrame) : result DataFrame :=
  run _check_outliers_stmt df.

(** *** [_convert_datetime(self, df)] *)

(** [df[target] = pd.to_datetime(df[col_name]).dt.<field>] *)
Definition extract (col_name target : string) (field : datetime -> Z) : stmt :=
  eval (fun df => d <- column df col_name ;; to_datetime d) (fun l =>
    assign target (dt_field field l)).

(** [a and b] *)
Definition and_then (a b : result bool) : result bool :=
  x <- a ;; if x then b else Ok false.

(** The check of the extracted columns (the inner [try]). *)
Definition cleanup : stmt :=
  eval (fun df =>
          and_then (all_zero df "Hour")
            (and_then (all_zero df "Minute") (all_zero df "Sec")))
    (fun no_time =>
       if no_time then
         drop_column "Hour" >> drop_column "Minute" >> drop_column "Sec"
       else
         eval (fun df =>
                 and_then (all_zero df "Day")
                   (and_then (all_zero df "Month") (all_zero df "Year")))
           (fun no_date =>
              if no_date then
                drop_column "Day" >> drop_column "Month" >> drop_column "Year"
              else skip)).

Definition convert_one (col_name : string) : stmt :=
  let g := extract_datetime self in
  try_except
    (eval (fun df => d <- column df col_name ;; to_datetime d)
          (fun l => assign col_name (DateCol l)) >>
     extract col_name "Day" dt_day >>
     (if py_in g ["M"; "Y"; "h"; "m"; "s"]%string then
        extract col_name "Month" dt_month >>
        (if py_in g ["Y"; "h"; "m"; "s"]%string then
           extract col_name "Year" dt_year >>
           (if py_in g ["h"; "m"; "s"]%string then
              extract col_name "Hour" dt_hour >>
              (if py_in g ["m"; "s"]%string then
                 extract col_name "Minute" dt_minute >>
                 (if py_in g ["s"]%string then
                    extract col_name "Sec" dt_second
                  else skip)
               else skip)
            else skip)
         else skip)
      else skip) >>
     try_except cleanup).

Definition _convert_datetime_stmt : stmt :=
  if py_truthy (extract_datetime self) then
    eval (fun df => Ok (set_iter (non_numeric_columns df))) (fun cols =>
      for_each cols convert_one)
  else skip.

Definition _convert_datetime (df : DataFrame) : result DataFrame :=
  run _convert_datetime_stmt df.

(** *** [_onehot_encode(self, df, col, limit=15)]

    The limit only triggers a warning. *)
Definition _onehot_encode (df : DataFrame) (col : string) : result DataFrame :=
  d <- column df col ;;
  let one_hot := get_dummies d col in
  join df one_hot.

(** *** [_label_encode(self, df, col)] *)

Definition _label_encode_stmt (col : string) : stmt :=
  eval (fun df => d <- column df col ;; Ok (label_fit_transform d))
    (fun le =>
       let classes_ := fst le in
       assign col (IntCol (snd le)) >>
       let mapping := combine classes_ (seq 0 (length classes_)) in
       for_each mapping (fun '(key, code) =>
         try_except
           (eval (fun _ => math_isnan key) (fun b =>
              if b then
                eval (fun df => column df col) (fun d =>
                  assign col (replace_by_nan (Z.of_nat code) d))
              else skip)))).

Definition _label_encode (df : DataFrame) (col : string) : result DataFrame :=
  run (_label_encode_stmt col) df.

(** *** [_encode_categ(self, df)] *)

(** [for i in v] *)
Definition py_iter (v : pyval) : result (list pyval) :=
  match v with
  | PList l => Ok l
  | PStr s => Ok (map (fun c => PStr (String c "")) (list_ascii_of_string s))
  | _ => Raise TypeError
  end.

(** [i in cols], for a set of names: [i] must be hashable. *)
Definition in_names (i : pyval) (cols : list string) : result (option string) :=
  match i with
  | PList _ => Raise TypeError
  | PStr s => Ok (if existsb (String.eqb s) cols then Some s else None)
  | _ => Ok None
  end.

(** A call [self._onehot_encode(...)] or [self._label_encode(...)]: the
    instance is an [AutoClean], which has no such method. *)
Definition missing_method : stmt := raise AttributeError.

Definition encode_with (method : pyval) (col_name : string) : stmt :=
  if is_str method "onehot" then
    rebind (fun df => _onehot_encode df col_name)
  else if is_str method "label" then
    rebind (fun df => _label_encode df col_name)
  else skip.

Definition encode_with_self (method : pyval) : stmt :=
  if is_str method "onehot" then missing_method
  else if is_str method "label" then missing_method
  else skip.

(** [pd.to_datetime(df[col_name])], for its exception only *)
Definition probe_datetime (col_name : string) : stmt :=
  eval (fun df => d <- column df col_name ;; to_datetime d) (fun _ => skip).

Definition _encode_categ_stmt : stmt :=
  eval (fun _ => py_item (encode_categ self) 0) (fun method =>
    if py_truthy method then
      eval (fun df => Ok (non_numeric_columns df)) (fun cols =>
        if is_str method "auto" then
          for_each (set_iter cols) (fun col_name =>
            try_handle (probe_datetime col_name)
              (eval (fun df => d <- column df col_name ;; Ok (nunique d))
                 (fun n =>
                    if (n <=? 10)%nat then
                      rebind (fun df => _onehot_encode df col_name)
                    else if (n <=? 20)%nat then
                      rebind (fun df => _label_encode df col_name)
                    else skip)))
        else
          eval (fun _ => py_len (encode_categ self)) (fun len =>
            if (len =? 2)%nat then
              eval (fun _ => t <- py_item (encode_categ self) 1 ;; py_iter t)
                (fun targets =>
                   for_each targets (fun i =>
                     eval (fun _ => in_names i cols) (fun found =>
                       match found with
                       | Some col_name =>
                           try_except (encode_with method col_name)
                       | None =>
                           try_except (encode_with_self method)
                       end)))
            else
              (* the log message reads [self.encode_categ[1]] *)
              eval (fun _ => py_item (encode_categ self) 1) (fun _ =>
                for_each (set_iter cols) (fun col_name =>
                  try_handle (probe_datetime col_name)
                    (try_except (encode_with_self method))))))
    else skip).

Definition _encode_categ (df : DataFrame) : result DataFrame :=
  run _encode_categ_stmt df.

End Stages.

End Modules.

(** * Validation and orchestration: class [AutoClean] *)

Module AutoClean.

Section Orchestrator.

Context {P : Pandas}.

Variable self : AutoClean.

(** [v != False] *)
Definition not_False (v : pyval) : bool := negb (py_eq v (PBool false)).

(** *** [_validate_params(self, df, verbose, logfile)]

    [df] is a data frame by its type here, so the first check of the source
    never fires. *)
Definition _validate_params : result unit :=
  (if not_False (missings_num self) &&
      negb (str_in (missings_num self)
              ["knn"; "mean"; "median"; "mode"; "delete"]%string)
   then Raise ValueError else Ok tt) ;;;
  (if not_False (missings_categ self) &&
      negb (str_in (missings_categ self) ["mode"; "delete"]%string)
   then Raise ValueError else Ok tt) ;;;
  (if not_False (outliers self) &&
      negb (str_in (outliers self) ["winz"; "delete"]%string)
   then Raise ValueError else Ok tt) ;;;
  len <- py_len (encode_categ self) ;;
  (if (2 <? len)%nat && negb (is_list (encode_categ self)) then
     first <- py_item (encode_categ self) 0 ;;
     if not_False first && negb (py_in first ["auto"; "onehot"; "label"]%string)
     then Raise ValueError else Ok tt
   else Ok tt) ;;;
  (if (len =? 2)%nat then
     second <- py_item (encode_categ self) 1 ;;
     if negb (is_list second) then Raise ValueError else Ok tt
   else Ok tt) ;;;
  (match outlier_param self with
   | PBool _ | PInt _ | PFloat _ => Ok tt
   | _ => Raise ValueError
   end) ;;;
  (if not_False (extract_datetime self) &&
      negb (py_in (extract_datetime self) ["D"; "M"; "Y"; "h"; "m"; "s"]%string)
   then Raise ValueError else Ok tt).

(** *** [_clean_data(self, df)] *)
Definition _clean_data (df : DataFrame) : result DataFrame :=
  df <- (if negb (is_str (missings_categ self) "delete") &&
            is_str (missings_num self) "delete"
         then
           df <- Modules._check_missings_categ self df ;;
           Modules._check_missings_num self df
         else
           df <- Modules._check_missings_num self df ;;
           Modules._check_missings_categ self df) ;;
  df <- Modules._check_outliers self df ;;
  df <- Modules._convert_datetime self df ;;
  df <- Modules._encode_categ self df ;;
  df <- Modules._round_values df ;;
  Ok df.

(** *** [__init__]: validation, then the pipeline on a copy of the input;
    the result is [self.output_data]. *)
Definition __init__ (input_data : DataFrame) : result DataFrame :=
  let output_data := input_data in
  _validate_params ;;;
  _clean_data output_data.

End Orchestrator.

End AutoClean.

(** * The specification's words

    Definitions written from the specification, to be compared with the
    ones the code yields. *)

(** ** Bounds (section 4.4): quartiles of the non-missing values, sorted,
    by linear interpolation *)

Fixpoint spec_insert (x : Q) (l : list Q) : list Q :=
  match l with
  | [] => [x]
  | h :: t => if Qle_bool x h then x :: l else h :: spec_insert x t
  end.

Definition spec_sort (l : list Q) : list Q := fold_right spec_insert [] l.

(** The quantile of order [p] of sorted data [xs]. *)
Definition spec_quantile (xs : list Q) (p : Q) : Q :=
  let n := Z.of_nat (length xs) in
  let h := p * inject_Z (n - 1) in
  let lo := Qfloor h in
  let hi := Z.min (lo + 1) (n - 1) in
  let x_lo := nth (Z.to_nat lo) xs 0 in
  let x_hi := nth (Z.to_nat hi) xs 0 in
  x_lo + (h - inject_Z lo) * (x_hi - x_lo).

Definition spec_bounds (k : Q) (values : list float) : Q * Q :=
  let xs := spec_sort (finite_values values) in
  let q1 := spec_quantile xs (25 / 100) in
  let q3 := spec_quantile xs (75 / 100) in
  let iqr := q3 - q1 in
  (q1 - k * iqr, q3 + k * iqr).


(** ** Winsorizing (sections 4.5 and 8), as the code does it

    [winsorized lb ub d d']: column [d'] is column [d] winsorized at the
    bounds.  A value within the bounds keeps its numeric value; a value
    below [lb] (above [ub]) becomes the bound or the bound truncated
    toward zero, and it is the truncated bound when [d] only holds whole
    numbers, in which case [d'] is an int64 column as soon as one value was
    replaced. *)
Definition winsorized (lb ub : float) (d d' : coldata) : Prop :=
  exists vals vals' : list float,
    float_values d = Some vals /\
    float_values d' = Some vals' /\
    length vals' = length vals /\
    (forall (i : nat) (v : float),
        nth_error vals i = Some v ->
        exists v' : float,
          nth_error vals' i = Some v' /\
          (flt v lb = false -> flt ub v = false -> feq v' v) /\
          (flt v lb = true ->
           (v' = lb \/ v' = of_int (trunc lb)) /\
           (all_integral d = true -> v' = of_int (trunc lb))) /\
          (flt v lb = false -> flt ub v = true ->
           (v' = ub \/ v' = of_int (trunc ub)) /\
           (all_integral d = true -> v' = of_int (trunc ub)))) /\
    (all_integral d = true ->
     existsb (fun v => flt v lb || flt ub v) vals = true ->
     exists l : list Z, d' = IntCol l).


(** ** Equal values (section 4.8)

    Two columns hold the same values: the same numbers, whatever the dtype
    (int64 or float64), or the same cells for a column that is not
    numeric. *)
Definition same_values (d d' : coldata) : Prop :=
  match float_values d, float_values d' with
  | Some l, Some l' => Forall2 feq l l'
  | None, None => d = d'
  | _, _ => False
  end.

(** What the type normalizer does to one numeric column. *)
Definition normalized (d : coldata) : coldata :=
  if all_integral d then
    match astype_int d with Ok d1 => d1 | Raise _ => d end
  else
    match round_column 2 d with Ok d1 => d1 | Raise _ => d end.


(** ** The ordering rule (section 4.3) *)

(** Categorical handling comes first: it is enabled, it is not [delete],
    and numeric handling is [delete]. *)
Definition categorical_first (self : AutoClean) : bool :=
  py_truthy (missings_categ self) &&
  negb (is_str (missings_categ self) "delete") &&
  is_str (missings_num self) "delete".

Section SpecOrder.

Context {P : Pandas}.

(** The two handlers in the order named. *)
Definition handle_missing (self : AutoClean) (categ_first : bool)
  (df : DataFrame) : result DataFrame :=
  if categ_first then
    df <- Modules._check_missings_categ self df ;;
    Modules._check_missings_num self df
  else
    df <- Modules._check_missings_num self df ;;
    Modules._check_missings_categ self df.

(** The stages that follow (section 4.9). *)
Definition later_stages (self : AutoClean) (df : DataFrame) : result DataFrame :=
  df <- Modules._check_outliers self df ;;
  df <- Modules._convert_datetime self df ;;
  df <- Modules._encode_categ self df ;;
  Modules._round_values df.

End SpecOrder.


(** ** Examples of the specification (sections 7 and 8) *)

(** The end-to-end example: mean imputation, then winsorizing. *)
Definition example_config : AutoClean := {|
  missings_num := PStr "mean";
  missings_categ := PStr "mode";
  encode_categ := PList [PStr "auto"];
  extract_datetime := PStr "s";
  outliers := PStr "winz";
  outlier_param := PFloat (Fin (3 # 2))
|}.

Definition example_frame : DataFrame :=
  [mkSeries "x" (FloatCol [Fin 1; NaN; Fin 3; Fin 100])].

(** A frame with a bool column and a missing category. *)
Definition flags_frame : DataFrame :=
  [mkSeries "flag" (BoolCol [true; false]);
   mkSeries "city" (ObjCol [OStr "a"; ONaN])].

(** A configuration with an encoding method that does not exist. *)
Definition bogus_encoding : AutoClean := {|
  missings_num := PStr "knn";
  missings_categ := PStr "mode";
  encode_categ := PList [PStr "bogus"; PList [PStr "city"]];
  extract_datetime := PStr "s";
  outliers := PStr "winz";
  outlier_param := PFloat (Fin (3 # 2))
|}.


(** ** Label encoding in order of first appearance (section 4.7), as the
    specification words it *)

Fixpoint first_seen (seen l : list string) : list Z :=
  match l with
  | [] => []
  | s :: t =>
      match index_of String_as_OT.compare s seen with
      | Some i => Z.of_nat i :: first_seen seen t
      | None => Z.of_nat (length seen) :: first_seen (seen ++ [s]) t
      end
  end.

Definition spec_label_codes (l : list string) : list Z := first_seen [] l.


(** ** Datetime extraction (section 4.6) *)

(** The names of the columns the extractor derives. *)
Definition derived_names : list string :=
  ["Day"; "Month"; "Year"; "Hour"; "Minute"; "Sec"]%string.

(** No row has a time of day. *)
Definition no_time (ts : list datetime) : bool :=
  forallb (fun t => (dt_hour t =? 0)%Z) ts &&
  forallb (fun t => (dt_minute t =? 0)%Z) ts &&
  forallb (fun t => (dt_second t =? 0)%Z) ts.


(** Two frames of one column of ISO strings: one with times of day, one
    at midnight throughout. *)
Definition stamps_frame : DataFrame :=
  [mkSeries "when"
     (ObjCol [OStr "2021-03-04T01:00:00"; OStr "2022-05-06T00:00:07"])].

Definition midnight_frame : DataFrame :=
  [mkSeries "when"
     (ObjCol [OStr "2021-03-04T00:00:00"; OStr "2022-05-06T00:00:00"])].


(** ** Auxiliary notions of the statements *)

(** The values of a numeric column, as floats. *)
Definition fv (d : coldata) : list float :=
  match float_values d with Some l => l | None => [] end.

(** The order of the labels: Python's order on strings. *)
Definition string_lt : string -> string -> Prop := String_as_OT.lt.

(** The column written by [_label_encode] for an object column. *)
Definition label_column (l : list obj) : coldata :=
  let classes := unique String_as_OT.compare (strings_of l) in
  let codes := map (fun o => match o with
                             | OStr s => code_of String_as_OT.compare classes s
                             | ONaN => Z.of_nat (length classes)
                             end) l in
  if existsb (fun o => match o with ONaN => true | _ => false end) l
  then FloatCol (map (fun z => if Z.eqb z (Z.of_nat (length classes))
                               then NaN else of_int z) codes)
  else IntCol codes.

(** ** Notions of the further properties *)

(** A target that is not the name of a column that is not numeric: a
    number, taken for a column index, or a name that [cols] does not
    hold. *)
Definition not_a_categorical_name (cols : list string) (target : pyval) : Prop :=
  match target with
  | PList _ => False
  | PStr s => ~ In s cols
  | _ => True
  end.


(** [imputed_from d d']: the numeric column [d'] is the column [d] with
    its missing values imputed.  Both have the same number of rows; an
    observed value of [d] is the same number in [d']; when [d] has an
    observed value, [d'] has no missing value; when it has none, [d'] is
    [d]. *)
Definition imputed_from (d d' : coldata) : Prop :=
  length (fv d') = length (fv d) /\
  (forall (i : nat) (q : Q),
      nth_error (fv d) i = Some (Fin q) ->
      exists q' : Q, nth_error (fv d') i = Some (Fin q') /\ q' == q) /\
  (finite_values (fv d) <> [] -> existsb isnan (fv d') = false) /\
  (finite_values (fv d) = [] -> d' = d).

(** [mode_filled l l']: the cells [l'] are the cells [l] of an object
    column with each missing one replaced by a most frequent string of
    [l]. *)
Definition mode_filled (l l' : list obj) : Prop :=
  exists m : string,
    In (OStr m) l /\
    (forall s : string,
        (count_occ string_dec (strings_of l) s
         <= count_occ string_dec (strings_of l) m)%nat) /\
    l' = map (fun o => match o with ONaN => OStr m | OStr _ => o end) l.

(** One step of the search for the most frequent value (the function
    folded by [most_frequent]). *)
Definition better {A : Type} (cmp : A -> A -> comparison) (l : list A)
  (best x : A) : A :=
  let cx := count_of cmp x l in
  let cb := count_of cmp best l in
  if (cb <? cx)%nat then x
  else if (cb =? cx)%nat then
         match cmp x best with Lt => x | _ => best end
       else best.

(** * Properties *)

Unset Implicit Arguments.

(** ** Frames: reading and writing columns *)

Lemma getitem_setitem_same (df : DataFrame) (c : string) (d : coldata) :
  getitem (setitem df c d) c = Some d.
Proof.
  induction df as [|s rest IH]; simpl.
  - now rewrite String.eqb_refl.
  - destruct (String.eqb (col_name s) c) eqn:E; simpl.
    + now rewrite String.eqb_refl.
    + now rewrite E.
Qed.

Lemma getitem_setitem_other (df : DataFrame) (c c' : string) (d : coldata) :
  c <> c' -> getitem (setitem df c d) c' = getitem df c'.
Proof.
  intros Hne. induction df as [|s rest IH]; simpl.
  - destruct (String.eqb c c') eqn:E; [apply String.eqb_eq in E; contradiction | reflexivity].
  - destruct (String.eqb (col_name s) c) eqn:E; simpl.
    + apply String.eqb_eq in E. rewrite E.
      destruct (String.eqb c c') eqn:E'; [apply String.eqb_eq in E'; contradiction | reflexivity].
    + destruct (String.eqb (col_name s) c'); [reflexivity | exact IH].
Qed.

Lemma setitem_setitem (df : DataFrame) (c : string) (d d' : coldata) :
  setitem (setitem df c d) c d' = setitem df c d'.
Proof.
  induction df as [|s rest IH]; simpl.
  - now rewrite String.eqb_refl.
  - destruct (String.eqb (col_name s) c) eqn:E; simpl.
    + now rewrite String.eqb_refl.
    + now rewrite E, IH.
Qed.

Lemma setitem_getitem (df : DataFrame) (c : string) (d : coldata) :
  getitem df c = Some d -> setitem df c d = df.
Proof.
  induction df as [|s rest IH]; simpl; [discriminate|].
  destruct (String.eqb (col_name s) c) eqn:E.
  - intros [= <-]. apply String.eqb_eq in E. subst c. now destruct s.
  - intros H. now rewrite IH.
Qed.

Lemma columns_setitem (df : DataFrame) (c : string) (d : coldata) :
  In c (columns df) -> columns (setitem df c d) = columns df.
Proof.
  induction df as [|s rest IH]; simpl; [tauto|].
  destruct (String.eqb (col_name s) c) eqn:E.
  - apply String.eqb_eq in E. now rewrite E.
  - intros [H|H]; [apply String.eqb_neq in E; contradiction|].
    simpl. now rewrite IH.
Qed.

Lemma getitem_In (df : DataFrame) (c : string) :
  In c (columns df) -> exists d, getitem df c = Some d.
Proof.
  induction df as [|s rest IH]; simpl; [tauto|].
  intros H. destruct (String.eqb (col_name s) c) eqn:E; [eauto|].
  destruct H as [H|H]; [apply String.eqb_neq in E; contradiction | auto].
Qed.

Lemma getitem_Some_In (df : DataFrame) (c : string) (d : coldata) :
  getitem df c = Some d -> In (mkSeries c d) df.
Proof.
  induction df as [|s rest IH]; simpl; [discriminate|].
  destruct (String.eqb (col_name s) c) eqn:E.
  - intros [= <-]. apply String.eqb_eq in E. subst c. left. now destruct s.
  - auto.
Qed.

(** ** Statements *)

Lemma for_each_app {A : Type} (l1 l2 : list A) (body : A -> stmt) (df : DataFrame) :
  for_each (l1 ++ l2) body df = (for_each l1 body >> for_each l2 body) df.
Proof.
  revert df. induction l1 as [|x t IH]; intros df; simpl.
  - reflexivity.
  - unfold seq_ in *. destruct (body x df) as [df1 [e|]]; [reflexivity|].
    apply IH.
Qed.

Lemma for_each_unchanged {A : Type} (l : list A) (body : A -> stmt) (df : DataFrame) :
  (forall x, In x l -> body x df = (df, None)) ->
  for_each l body df = (df, None).
Proof.
  induction l as [|x t IH]; intros H; simpl; [reflexivity|].
  unfold seq_. rewrite (H x) by now left.
  apply IH. intros y Hy. apply H. now right.
Qed.

(** ** Floats *)

Lemma flt_nan_r (x : float) : flt x NaN = false.
Proof. now destruct x. Qed.

Lemma fop2_nan_r (op : Q -> Q -> Q) (x : float) : fop2 op x NaN = NaN.
Proof. now destruct x. Qed.

Lemma Qlt_bool_iff (x y : Q) : Qlt_bool x y = true <-> x < y.
Proof.
  unfold Qlt_bool. rewrite negb_true_iff.
  split; intros H.
  - apply Qnot_le_lt. intros Hle. apply Qle_bool_iff in Hle. congruence.
  - destruct (Qle_bool y x) eqn:E; [|reflexivity].
    apply Qle_bool_iff in E. exfalso. exact (Qlt_not_le _ _ H E).
Qed.

Lemma feq_refl (x : float) : feq x x.
Proof. destruct x; simpl; [exact I | reflexivity]. Qed.

(** ** Sorting *)

Lemma In_insert (x y : float) (l : list float) :
  In y (insert x l) <-> y = x \/ In y l.
Proof.
  induction l as [|h t IH]; simpl.
  - intuition.
  - destruct (flt h x); simpl; rewrite ?IH; intuition.
Qed.

Lemma In_sorted (y : float) (l : list float) : In y (sorted l) <-> In y l.
Proof.
  induction l as [|h t IH]; simpl; [tauto|].
  rewrite In_insert, IH. intuition.
Qed.

Lemma length_insert (x : float) (l : list float) :
  length (insert x l) = S (length l).
Proof.
  induction l as [|h t IH]; simpl; [reflexivity|].
  destruct (flt h x); simpl; [now rewrite IH | reflexivity].
Qed.

Lemma length_sorted (l : list float) : length (sorted l) = length l.
Proof.
  induction l as [|h t IH]; simpl; [reflexivity|].
  now rewrite length_insert, IH.
Qed.

Lemma existsb_isnan_sorted (l : list float) :
  existsb isnan (sorted l) = existsb isnan l.
Proof.
  apply eq_true_iff_eq. rewrite !existsb_exists.
  split; intros [x [Hin Hx]]; exists x; split; auto; now apply In_sorted.
Qed.

Lemma percentile_nan (l : list float) (q : Q) :
  existsb isnan l = true -> percentile l q = Ok NaN.
Proof.
  intros H. destruct l as [|x l]; [discriminate|].
  unfold percentile. now rewrite H.
Qed.

(** On data with a row the percentile is defined; on a column without any
    row the bounds are not: [np.percentile] raises. *)
Lemma percentile_defined (l : list float) (q : Q) :
  l <> [] -> exists x, percentile l q = Ok x.
Proof.
  intros H. destruct l as [|y l]; [contradiction|].
  unfold percentile. destruct (existsb isnan (y :: l)); eauto.
Qed.

Lemma compute_bounds_empty (self : AutoClean) (df : DataFrame) (col : string)
  (d : coldata) :
  getitem df col = Some d ->
  float_values d = Some [] ->
  Modules._compute_bounds self df col = Raise IndexError.
Proof.
  intros Hd Hv. unfold Modules._compute_bounds, column.
  rewrite Hd. cbn [bind]. now rewrite Hv.
Qed.

(** ** The outlier stage on a column with a missing value *)

Lemma bounds_of_nan_column (self : AutoClean) (df : DataFrame) (col : string)
  (d : coldata) (vals : list float) (k : float) :
  getitem df col = Some d ->
  float_values d = Some vals ->
  existsb isnan vals = true ->
  py_number (outlier_param self) = Some k ->
  Modules._compute_bounds self df col = Ok (NaN, NaN).
Proof.
  intros Hd Hv Hnan Hk. unfold Modules._compute_bounds, column.
  rewrite Hd. cbn [bind]. rewrite Hv.
  rewrite !percentile_nan by now rewrite existsb_isnan_sorted.
  cbn [bind]. rewrite Hk. now destruct k.
Qed.

Lemma fold_left_fixed {A B : Type} (f : A -> B -> A) (l : list B) (a : A) :
  (forall b, In b l -> f a b = a) -> fold_left f l a = a.
Proof.
  induction l as [|b t IH]; intros H; simpl; [reflexivity|].
  rewrite (H b) by now left. apply IH. intros b' Hb'. apply H. now right.
Qed.

(** C10: when the column holds a missing value at the time the outlier
    stage reaches it, the bounds are NaN, each comparison of a value with
    them is false, and the iteration for that column leaves the frame as it
    is, under [winz] (no value replaced) as under [delete] (no row
    dropped). *)
Theorem outliers_missing_value_unchanged :
  forall (self : AutoClean) (df : DataFrame) (col_name : string)
         (d : coldata) (vals : list float) (k : float),
    getitem df col_name = Some d ->
    float_values d = Some vals ->
    In NaN vals ->
    py_number (outlier_param self) = Some k ->
    Modules._compute_bounds self df col_name = Ok (NaN, NaN) /\
    (forall v : float, flt v NaN || flt NaN v = false) /\
    Modules.winz col_name NaN NaN df = (df, None) /\
    Modules.delete_outliers col_name NaN NaN df = (df, None) /\
    Modules.outliers_of self col_name df = (df, None).
Proof.
  intros self df col_name d vals k Hd Hv Hin Hk.
  assert (Hnan : existsb isnan vals = true).
  { apply existsb_exists. exists NaN. now split. }
  assert (Hcmp : forall v : float, flt v NaN || flt NaN v = false).
  { intros v. now rewrite flt_nan_r. }
  assert (Hrows : Modules.rows_of df col_name = Ok (enumerate vals)).
  { unfold Modules.rows_of, column. rewrite Hd. simpl. now rewrite Hv. }
  assert (Hw : Modules.winz col_name NaN NaN df = (df, None)).
  { unfold Modules.winz, eval. rewrite Hrows.
    apply for_each_unchanged. intros [i v] _. now rewrite Hcmp. }
  assert (Hdel : Modules.delete_outliers col_name NaN NaN df = (df, None)).
  { unfold Modules.delete_outliers, eval. rewrite Hrows. unfold rebind.
    rewrite fold_left_fixed; [reflexivity|].
    intros [i v] _. simpl. now rewrite Hcmp. }
  assert (Hb := bounds_of_nan_column self df col_name d vals k Hd Hv Hnan Hk).
  repeat split; auto.
  unfold Modules.outliers_of, eval. rewrite Hb.
  destruct (is_str (outliers self) "winz"); [exact Hw|].
  destruct (is_str (outliers self) "delete"); [exact Hdel | reflexivity].
Qed.

Lemma outliers_missing_value_unchanged_witness :
  Modules.outliers_of defaults "x"
    [mkSeries "x" (FloatCol [Fin 1; NaN; Fin 3; Fin 100])]
  = ([mkSeries "x" (FloatCol [Fin 1; NaN; Fin 3; Fin 100])], None).
Proof.
  apply (outliers_missing_value_unchanged defaults
           [mkSeries "x" (FloatCol [Fin 1; NaN; Fin 3; Fin 100])] "x"
           (FloatCol [Fin 1; NaN; Fin 3; Fin 100])
           [Fin 1; NaN; Fin 3; Fin 100] (Fin (3 # 2)));
    [reflexivity | reflexivity | simpl; tauto | reflexivity].
Defined.

(** ** The bounds of a column *)

Lemma sorted_map_Fin (l : list Q) : sorted (map Fin l) = map Fin (spec_sort l).
Proof.
  induction l as [|x t IH]; simpl; [reflexivity|].
  rewrite IH. clear IH. generalize (spec_sort t). intros s.
  induction s as [|h s IH]; simpl; [reflexivity|].
  unfold Qlt_bool. destruct (Qle_bool x h); simpl; [reflexivity | now rewrite IH].
Qed.

Lemma map_Fin_finite_values (l : list float) :
  existsb isnan l = false -> map Fin (finite_values l) = l.
Proof.
  induction l as [|[|q] t IH]; simpl; intros H; [reflexivity | discriminate |].
  now rewrite IH.
Qed.

Lemma existsb_isnan_map_Fin (l : list Q) : existsb isnan (map Fin l) = false.
Proof. induction l; simpl; auto. Qed.

Lemma spec_insert_Sorted (x : Q) (l : list Q) :
  Sorted Qle l -> Sorted Qle (spec_insert x l).
Proof.
  induction l as [|h t IH]; simpl; intros Hs.
  - repeat constructor.
  - destruct (Qle_bool x h) eqn:E.
    + constructor; [exact Hs|]. constructor. now apply Qle_bool_iff.
    + apply Sorted_inv in Hs. destruct Hs as [Hs Hh].
      constructor; [now apply IH|].
      assert (Hhx : h <= x).
      { destruct (Qlt_le_dec h x) as [Hlt|Hle]; [now apply Qlt_le_weak|].
        apply Qle_bool_iff in Hle. congruence. }
      destruct t as [|h' t']; simpl.
      * now constructor.
      * destruct (Qle_bool x h'); constructor; auto. now inversion Hh.
Qed.

Lemma spec_sort_Sorted (l : list Q) : Sorted Qle (spec_sort l).
Proof.
  induction l as [|x t IH]; simpl; [constructor | now apply spec_insert_Sorted].
Qed.

Lemma spec_sort_fixed (l : list Q) : Sorted Qle l -> spec_sort l = l.
Proof.
  induction l as [|x t IH]; simpl; intros Hs; [reflexivity|].
  apply Sorted_inv in Hs. destruct Hs as [Hs Hh].
  rewrite IH by assumption.
  destruct t as [|h t']; simpl; [reflexivity|].
  inversion Hh as [|? ? Hle]; subst.
  apply Qle_bool_iff in Hle. now rewrite Hle.
Qed.

Lemma length_spec_insert (x : Q) (l : list Q) :
  length (spec_insert x l) = S (length l).
Proof.
  induction l as [|h t IH]; simpl; [reflexivity|].
  destruct (Qle_bool x h); simpl; [reflexivity | now rewrite IH].
Qed.

Lemma length_spec_sort (l : list Q) : length (spec_sort l) = length l.
Proof.
  induction l as [|x t IH]; simpl; [reflexivity|].
  now rewrite length_spec_insert, IH.
Qed.

Lemma virtual_index_range (q : Q) (m : Z) :
  0 <= q -> q <= 100 -> (0 <= m)%Z ->
  (0 <= Qfloor (q / 100 * inject_Z m) <= m)%Z.
Proof.
  intros Hq0 Hq1 Hm.
  assert (Hm' : 0 <= inject_Z m).
  { change 0 with (inject_Z 0). now rewrite <- Zle_Qle. }
  assert (Hp0 : 0 <= q / 100).
  { apply Qle_shift_div_l; [reflexivity|]. now rewrite Qmult_0_l. }
  assert (Hp1 : q / 100 <= 1).
  { apply Qle_shift_div_r; [reflexivity|]. now rewrite Qmult_1_l. }
  split.
  - rewrite <- (Qfloor_Z 0). apply Qfloor_resp_le.
    now apply Qmult_le_0_compat.
  - rewrite <- (Qfloor_Z m) at 2. apply Qfloor_resp_le.
    rewrite <- (Qmult_1_l (inject_Z m)) at 2.
    now apply Qmult_le_compat_r.
Qed.

Lemma nth_map_Fin (i : nat) (l : list Q) :
  (i < length l)%nat -> nth i (map Fin l) NaN = Fin (nth i l 0).
Proof.
  revert i. induction l as [|x t IH]; intros [|i] H; simpl in *; try lia.
  - reflexivity.
  - apply IH. lia.
Qed.

Lemma lerp_finite (a b t : Q) :
  exists r, _lerp (Fin a) (Fin b) (Fin t) = Fin r /\ r == a + t * (b - a).
Proof.
  unfold _lerp. simpl. destruct (Qle_bool (1 # 2) t).
  - eexists. split; [reflexivity|]. ring.
  - eexists. split; [reflexivity|]. ring.
Qed.

Lemma percentile_sorted_finite (s : list Q) (q : Q) :
  s <> [] -> Sorted Qle s -> 0 <= q -> q <= 100 ->
  exists r, percentile (map Fin s) q = Ok (Fin r) /\
            r == spec_quantile s (q / 100).
Proof.
  intros Hne Hs Hq0 Hq1. unfold percentile.
  destruct (map Fin s) as [|y ys] eqn:Em.
  { destruct s; [contradiction | discriminate]. }
  rewrite <- Em. clear y ys Em.
  rewrite existsb_isnan_map_Fin.
  rewrite sorted_map_Fin, spec_sort_fixed by assumption.
  rewrite length_map.
  assert (Hlen : (0 < length s)%nat) by (destruct s; simpl; [contradiction | lia]).
  set (n := Z.of_nat (length s)).
  assert (Hn : (0 <= n - 1)%Z) by (unfold n; lia).
  destruct (virtual_index_range q (n - 1) Hq0 Hq1 Hn) as [Hlo Hhi].
  set (lo := Qfloor (q / 100 * inject_Z (n - 1))) in *.
  rewrite !nth_map_Fin by (unfold n in *; lia).
  destruct (lerp_finite (nth (Z.to_nat lo) s 0)
              (nth (Z.to_nat (Z.min (lo + 1) (n - 1))) s 0)
              (q / 100 * inject_Z (n - 1) - inject_Z lo)) as [r [Hr Heq]].
  exists r. split; [now rewrite Hr|].
  rewrite Heq. unfold spec_quantile. fold n. fold lo. reflexivity.
Qed.

(** C2 (amended): for a numeric column without missing values, the bounds
    are [Q1 - k*IQR] and [Q3 + k*IQR], with [Q1] and [Q3] the 25th and 75th
    percentiles of the sorted values by linear interpolation, [IQR = Q3 - Q1]
    and [k] the configured multiplier (1.5 by default); missing values are
    not excluded: a column that holds one gets NaN for both bounds. *)
Theorem compute_bounds_quartiles :
  forall (self : AutoClean) (df : DataFrame) (col : string) (d : coldata)
         (vals : list float) (k : Q),
    getitem df col = Some d ->
    float_values d = Some vals ->
    vals <> [] ->
    py_number (outlier_param self) = Some (Fin k) ->
    py_number (outlier_param defaults) = Some (Fin (3 # 2)) /\
    (existsb isnan vals = false ->
     exists lb ub : Q,
       Modules._compute_bounds self df col = Ok (Fin lb, Fin ub) /\
       lb == fst (spec_bounds k vals) /\ ub == snd (spec_bounds k vals)) /\
    (existsb isnan vals = true ->
     Modules._compute_bounds self df col = Ok (NaN, NaN)).
Proof.
  intros self df col d vals k Hd Hv Hne Hk.
  split; [reflexivity|]. split.
  - intros Hfin. unfold Modules._compute_bounds, column.
    rewrite Hd. cbn [bind]. rewrite Hv.
    assert (Hs : sorted vals = map Fin (spec_sort (finite_values vals))).
    { rewrite <- sorted_map_Fin. now rewrite map_Fin_finite_values. }
    rewrite Hs.
    assert (Hne' : spec_sort (finite_values vals) <> []).
    { intros E. apply (f_equal (@length Q)) in E.
      rewrite length_spec_sort in E.
      rewrite <- (length_map Fin), map_Fin_finite_values in E by assumption.
      destruct vals; [contradiction | discriminate]. }
    destruct (percentile_sorted_finite _ 25 Hne'
                (spec_sort_Sorted _)) as [q1 [E1 H1]]; [discriminate | discriminate |].
    destruct (percentile_sorted_finite _ 75 Hne'
                (spec_sort_Sorted _)) as [q3 [E3 H3]]; [discriminate | discriminate |].
    rewrite E1, E3. cbn [bind]. rewrite Hk. cbv [fsub fadd fmul fop2].
    eexists. eexists. split; [reflexivity|].
    unfold spec_bounds. cbv [fst snd].
    split; rewrite H1, H3; reflexivity.
  - intros Hnan. now apply (bounds_of_nan_column self df col d vals (Fin k)).
Qed.

Lemma compute_bounds_quartiles_witness :
  exists lb ub : Q,
    Modules._compute_bounds defaults
      [mkSeries "x" (IntCol [1; 2; 3; 5; 100]%Z)] "x" = Ok (Fin lb, Fin ub) /\
    lb == fst (spec_bounds (3 # 2) (map of_int [1; 2; 3; 5; 100]%Z)) /\
    ub == snd (spec_bounds (3 # 2) (map of_int [1; 2; 3; 5; 100]%Z)).
Proof.
  apply (compute_bounds_quartiles defaults
           [mkSeries "x" (IntCol [1; 2; 3; 5; 100]%Z)] "x"
           (IntCol [1; 2; 3; 5; 100]%Z)
           (map of_int [1; 2; 3; 5; 100]%Z) (3 # 2));
    [reflexivity | reflexivity | discriminate | reflexivity | reflexivity].
Defined.

(** C2 as stated fails: on the column [1, NaN, 3, 100] the code does not
    return the bounds of the non-missing values [1, 3, 100]. *)
Lemma compute_bounds_excludes_missing_counterexample :
  ~ (exists lb ub : Q,
       Modules._compute_bounds defaults
         [mkSeries "x" (FloatCol [Fin 1; NaN; Fin 3; Fin 100])] "x"
       = Ok (Fin lb, Fin ub) /\
       lb == fst (spec_bounds (3 # 2) [Fin 1; NaN; Fin 3; Fin 100]) /\
       ub == snd (spec_bounds (3 # 2) [Fin 1; NaN; Fin 3; Fin 100])).
Proof.
  intros [lb [ub [H _]]]. vm_compute in H. discriminate.
Qed.

(** ** Winsorizing one column *)

Lemma length_update {A : Type} (i : nat) (v : A) (l : list A) :
  length (update i v l) = length l.
Proof.
  revert i. induction l as [|h t IH]; intros [|i]; simpl; auto.
Qed.

Lemma nth_update_same {A : Type} (i : nat) (v d : A) (l : list A) :
  (i < length l)%nat -> nth i (update i v l) d = v.
Proof.
  revert i. induction l as [|h t IH]; intros [|i] H; simpl in *; try lia.
  - reflexivity.
  - apply IH. lia.
Qed.

Lemma nth_update_other {A : Type} (i p : nat) (v d : A) (l : list A) :
  i <> p -> nth p (update i v l) d = nth p l d.
Proof.
  revert i p. induction l as [|h t IH]; intros [|i] [|p] H; simpl; try reflexivity.
  - contradiction.
  - apply IH. lia.
Qed.

Lemma map_update {A B : Type} (f : A -> B) (i : nat) (v : A) (l : list A) :
  map f (update i v l) = update i (f v) (map f l).
Proof.
  revert i. induction l as [|h t IH]; intros [|i]; simpl; auto.
  now rewrite IH.
Qed.

Lemma Qtrunc_inject_Z (z : Z) : Qtrunc (inject_Z z) = z.
Proof. unfold Qtrunc. simpl. apply Z.quot_1_r. Qed.

Lemma Qintegral_inject_Z (z : Z) : Qintegral (inject_Z z) = true.
Proof. unfold Qintegral. simpl. now rewrite Z.rem_1_r. Qed.

Lemma Qintegral_trunc (q : Q) : Qintegral q = true -> inject_Z (Qtrunc q) == q.
Proof.
  unfold Qintegral, Qtrunc. destruct q as [n d]. simpl. intros H.
  apply Z.eqb_eq in H. unfold Qeq. simpl.
  assert (Hd : Zpos d <> 0%Z) by discriminate.
  pose proof (Z.quot_rem' n (Zpos d)) as E. rewrite H in E. lia.
Qed.

Lemma integral_trunc (x : float) :
  isnan x = false -> integral x = true -> feq (of_int (trunc x)) x.
Proof.
  destruct x as [|q]; simpl; [discriminate|]. intros _. apply Qintegral_trunc.
Qed.

Lemma all_integral_fv (d : coldata) :
  is_number d = true -> all_integral d = forallb integral (fv d).
Proof.
  destruct d as [l|l|l|l|l]; simpl; try discriminate; intros _; [|reflexivity].
  symmetry. apply forallb_forall. intros x Hx.
  apply in_map_iff in Hx. destruct Hx as [z [<- _]]. apply Qintegral_inject_Z.
Qed.

Lemma existsb_isnan_update (i : nat) (q : Q) (l : list float) :
  existsb isnan l = false -> existsb isnan (update i (Fin q) l) = false.
Proof.
  revert i. induction l as [|h t IH]; intros [|i]; simpl; auto.
  - intros H. apply orb_false_iff in H. tauto.
  - intros H. apply orb_false_iff in H. destruct H as [H1 H2].
    rewrite H1. simpl. now apply IH.
Qed.

Lemma existsb_isnan_map_of_int (l : list Z) : existsb isnan (map of_int l) = false.
Proof. induction l; simpl; auto. Qed.

Lemma map_trunc_of_int (l : list Z) : map trunc (map of_int l) = l.
Proof.
  induction l as [|z t IH]; simpl; [reflexivity|].
  now rewrite Qtrunc_inject_Z, IH.
Qed.

Lemma fv_IntCol (l : list Z) : fv (IntCol l) = map of_int l.
Proof. reflexivity. Qed.

(** What [loc_set] does to the values: position [i] receives the bound, or
    the same whole number as an int. *)
Lemma fv_loc_set (d : coldata) (i : nat) (q : Q) :
  is_number d = true ->
  is_number (loc_set d i (Fin q)) = true /\
  exists b', (b' = Fin q \/ b' = of_int (Qtrunc q)) /\
             fv (loc_set d i (Fin q)) = update i b' (fv d).
Proof.
  destruct d as [l|l|l|l|l]; simpl; try discriminate; intros _.
  - destruct (Qintegral q); simpl.
    + split; [reflexivity|]. exists (of_int (Qtrunc q)). split; [now right|].
      unfold fv. simpl. apply map_update.
    + split; [reflexivity|]. exists (Fin q). split; [now left | reflexivity].
  - split; [reflexivity|]. exists (Fin q). split; [now left | reflexivity].
Qed.

Lemma astype_int_nonan (d : coldata) :
  is_number d = true -> existsb isnan (fv d) = false ->
  astype_int d = Ok (IntCol (map trunc (fv d))).
Proof.
  destruct d as [l|l|l|l|l]; simpl; try discriminate; intros _.
  - intros _. unfold fv. simpl. now rewrite map_trunc_of_int.
  - unfold fv. simpl. intros ->. reflexivity.
Qed.

Lemma loc_assign_eq (c : string) (i : nat) (b : float) (df : DataFrame) (d : coldata) :
  getitem df c = Some d ->
  Modules.loc_assign c i b df = (setitem df c (loc_set d i b), None).
Proof.
  intros H. unfold Modules.loc_assign, eval, column. now rewrite H.
Qed.

Lemma replace_outlier_eq (c : string) (i : nat) (q : Q) (df : DataFrame) (d : coldata) :
  getitem df c = Some d ->
  is_number d = true ->
  existsb isnan (fv d) = false ->
  Modules.replace_outlier c i (Fin q) df =
  (setitem df c (if all_integral d
                 then IntCol (map trunc (fv (loc_set d i (Fin q))))
                 else loc_set d i (Fin q)), None).
Proof.
  intros Hd Hnum Hnan. unfold Modules.replace_outlier, eval at 1, column.
  rewrite Hd. destruct (all_integral d).
  - unfold seq_. rewrite (loc_assign_eq c i (Fin q) df d Hd).
    unfold eval, column. rewrite getitem_setitem_same. simpl bind.
    destruct (fv_loc_set d i q Hnum) as [Hn [b' [Hb' Hfv]]].
    rewrite astype_int_nonan; [| exact Hn |].
    + unfold assign. now rewrite setitem_setitem.
    + rewrite Hfv. destruct Hb' as [-> | ->]; now apply existsb_isnan_update.
  - now apply loc_assign_eq.
Qed.

Lemma firstn_S_nth {A : Type} (j : nat) (l : list A) (d : A) :
  (j < length l)%nat -> firstn (S j) l = firstn j l ++ [nth j l d].
Proof.
  revert j. induction l as [|h t IH]; intros [|j] H; simpl in *; try lia.
  - reflexivity.
  - f_equal. apply IH. lia.
Qed.

Section WinzLoop.

Variable c : string.
Variables lb ub : float.
Variable vals : list float.
Variable d0 : coldata.

Hypothesis vals_nonan : existsb isnan vals = false.

(** The value lies outside the bounds, and the bound that replaces it. *)
Definition outside (v : float) : bool := flt v lb || flt ub v.

Definition bound_for (v : float) : float := if flt v lb then lb else ub.

(** The value at position [p] once the rows before [j] are processed. *)
Definition ok (j p : nat) (x : float) : Prop :=
  let v := nth p vals NaN in
  if (p <? j)%nat && outside v
  then (x = bound_for v \/ x = of_int (trunc (bound_for v))) /\
       (all_integral d0 = true -> x = of_int (trunc (bound_for v)))
  else x = v \/ (integral v = true /\ x = of_int (trunc v)).

Definition Inv (j : nat) (d : coldata) : Prop :=
  is_number d = true /\
  length (fv d) = length vals /\
  existsb isnan (fv d) = false /\
  (forall p, (p < length vals)%nat -> ok j p (nth p (fv d) NaN)) /\
  (all_integral d0 = true ->
   all_integral d = true /\
   (existsb outside (firstn j vals) = true -> exists l, d = IntCol l)).

Definition winz_body : nat * float -> stmt :=
  fun '(row_index, row_val) =>
    if flt row_val lb || flt ub row_val then
      if flt row_val lb then Modules.replace_outlier c row_index lb
      else Modules.replace_outlier c row_index ub
    else skip.

Lemma outside_bound_finite (v : float) :
  outside v = true -> exists q, bound_for v = Fin q.
Proof.
  unfold outside, bound_for. destruct (flt v lb) eqn:E1; simpl.
  - intros _. destruct v, lb; simpl in E1; try discriminate. eauto.
  - intros E2. destruct ub, v; simpl in E2; try discriminate. eauto.
Qed.

Lemma nth_vals_nonan (p : nat) : (p < length vals)%nat -> isnan (nth p vals NaN) = false.
Proof.
  intros Hp. destruct (isnan (nth p vals NaN)) eqn:E; [|reflexivity].
  assert (H : existsb isnan vals = true).
  { apply existsb_exists. exists (nth p vals NaN). split; [now apply nth_In | exact E]. }
  congruence.
Qed.

Lemma ok_cast (j p : nat) (y : float) :
  integral y = true -> ok j p y -> ok j p (of_int (trunc y)).
Proof.
  unfold ok. intros Hy. destruct ((p <? j)%nat && outside (nth p vals NaN)).
  - intros [[-> | ->] _].
    + split; [now right | reflexivity].
    + simpl. rewrite Qtrunc_inject_Z. split; [now right | reflexivity].
  - intros [-> | [Hv ->]].
    + right. now split.
    + right. split; [exact Hv|]. simpl. now rewrite Qtrunc_inject_Z.
Qed.

Lemma ok_next (j p : nat) (x : float) :
  p <> j -> ok j p x -> ok (S j) p x.
Proof.
  unfold ok. intros Hne.
  replace (p <? S j)%nat with (p <? j)%nat; [auto|].
  destruct (Nat.ltb_spec p j), (Nat.ltb_spec p (S j)); auto; lia.
Qed.

Lemma winz_step (j : nat) (v : float) (df : DataFrame) (d : coldata) :
  (j < length vals)%nat -> nth j vals NaN = v ->
  getitem df c = Some d -> Inv j d ->
  exists d1, winz_body (j, v) df = (setitem df c d1, None) /\ Inv (S j) d1.
Proof.
  intros Hj Hv Hd (Hnum & Hlen & Hnan & Hok & Hint).
  unfold winz_body. fold (outside v).
  assert (Hfirst : existsb outside (firstn (S j) vals)
                   = existsb outside (firstn j vals) || outside v).
  { rewrite (firstn_S_nth j vals NaN Hj), existsb_app, Hv. simpl.
    now rewrite orb_false_r. }
  destruct (outside v) eqn:Eo.
  - destruct (outside_bound_finite v Eo) as [q Hq].
    assert (Hbody : (if flt v lb then Modules.replace_outlier c j lb
                     else Modules.replace_outlier c j ub) df
                    = Modules.replace_outlier c j (Fin q) df).
    { unfold bound_for in Hq. destruct (flt v lb); now rewrite Hq. }
    rewrite Hbody, (replace_outlier_eq c j q df d Hd Hnum Hnan).
    destruct (fv_loc_set d j q Hnum) as [Hn1 [b' [Hb' Hfv]]].
    assert (Htr : trunc b' = Qtrunc q).
    { destruct Hb' as [-> | ->]; simpl; [reflexivity | apply Qtrunc_inject_Z]. }
    assert (Hjj : (j <? S j)%nat = true) by (apply Nat.ltb_lt; lia).
    destruct (all_integral d) eqn:Eint.
    + (* the column is cast to int *)
      assert (Hall : forallb integral (fv d) = true)
        by now rewrite <- all_integral_fv.
      eexists. split; [reflexivity|].
      rewrite Hfv. unfold Inv. rewrite fv_IntCol.
      split; [reflexivity|]. split; [now rewrite !length_map, length_update|].
      split; [apply existsb_isnan_map_of_int|]. split.
      * intros p Hp.
        rewrite map_map.
        rewrite (nth_indep _ NaN (of_int (trunc NaN)))
          by now rewrite length_map, length_update, Hlen.
        rewrite (map_nth (fun x => of_int (trunc x))).
        destruct (Nat.eq_dec p j) as [-> | Hne].
        -- rewrite nth_update_same by lia. rewrite Htr.
           unfold ok. rewrite Hv, Eo, Hjj. simpl andb. cbv iota.
           rewrite Hq. simpl trunc.
           split; [now right | reflexivity].
        -- rewrite nth_update_other by auto.
           apply ok_next; [exact Hne|]. apply ok_cast; [|now apply Hok].
           rewrite forallb_forall in Hall. apply Hall. apply nth_In. lia.
      * intros _. split; [reflexivity | eauto].
    + (* the column stays as it is *)
      eexists. split; [reflexivity|].
      unfold Inv. rewrite Hfv.
      split; [exact Hn1|]. split; [now rewrite length_update|].
      split; [destruct Hb' as [-> | ->]; now apply existsb_isnan_update|].
      split.
      * intros p Hp. destruct (Nat.eq_dec p j) as [-> | Hne].
        -- rewrite nth_update_same by lia.
           unfold ok. rewrite Hv, Eo, Hjj. simpl andb. cbv iota.
           rewrite Hq. simpl trunc.
           split.
           ++ destruct Hb' as [-> | ->]; [now left | now right].
           ++ intros H0. destruct (Hint H0) as [H1 _]. congruence.
        -- rewrite nth_update_other by auto. apply ok_next; auto.
      * intros H0. destruct (Hint H0) as [H1 _]. congruence.
  - exists d. split; [now rewrite setitem_getitem|].
    unfold Inv. split; [exact Hnum|]. split; [exact Hlen|].
    split; [exact Hnan|]. split.
    + intros p Hp. destruct (Nat.eq_dec p j) as [-> | Hne].
      * specialize (Hok j Hp). unfold ok in *. rewrite Hv, Eo in *.
        now rewrite andb_false_r in *.
      * apply ok_next; auto.
    + intros H0. destruct (Hint H0) as [H1 H2]. split; [exact H1|].
      intros Hex. rewrite Hfirst, orb_false_r in Hex. auto.
Qed.

Lemma winz_loop (tl hd : list float) (df : DataFrame) (d : coldata) :
  vals = hd ++ tl ->
  getitem df c = Some d -> Inv (length hd) d ->
  exists d1,
    for_each (combine (seq (length hd) (length tl)) tl) winz_body df
    = (setitem df c d1, None) /\ Inv (length vals) d1.
Proof.
  revert hd df d. induction tl as [|v tl IH]; intros hd df d Hvals Hd HI.
  - exists d. simpl. split; [unfold skip; now rewrite setitem_getitem|].
    rewrite Hvals, app_nil_r. exact HI.
  - cbn [length seq combine for_each].
    assert (Hj : (length hd < length vals)%nat).
    { rewrite Hvals, length_app. simpl. lia. }
    assert (Hv : nth (length hd) vals NaN = v).
    { rewrite Hvals, app_nth2, Nat.sub_diag by lia. reflexivity. }
    destruct (winz_step (length hd) v df d Hj Hv Hd HI) as [d1 [Hstep HI1]].
    unfold seq_. rewrite Hstep.
    destruct (IH (hd ++ [v]) (setitem df c d1) d1) as [d2 [Hrest HI2]].
    + now rewrite <- app_assoc.
    + apply getitem_setitem_same.
    + rewrite length_app. simpl. now rewrite Nat.add_1_r.
    + rewrite length_app in Hrest. simpl in Hrest. rewrite Nat.add_1_r in Hrest.
      rewrite Hrest, setitem_setitem. eauto.
Qed.

End WinzLoop.

Lemma float_values_fv (d : coldata) :
  is_number d = true -> float_values d = Some (fv d).
Proof. destruct d; simpl; try discriminate; reflexivity. Qed.

Lemma float_values_number (d : coldata) (vals : list float) :
  float_values d = Some vals -> is_number d = true /\ fv d = vals.
Proof.
  unfold fv. intros H. rewrite H. split; [|reflexivity].
  destruct d; simpl in *; try discriminate; reflexivity.
Qed.

Lemma winsorized_refl_nan (d : coldata) :
  is_number d = true -> winsorized NaN NaN d d.
Proof.
  intros Hnum. exists (fv d), (fv d).
  split; [now apply float_values_fv|]. split; [now apply float_values_fv|].
  split; [reflexivity|]. split.
  - intros i v Hv. exists v. split; [exact Hv|].
    rewrite flt_nan_r. simpl.
    split; [intros; apply feq_refl|]. split; discriminate.
  - intros _ H. exfalso. apply existsb_exists in H.
    destruct H as [v [_ H]]. rewrite flt_nan_r in H. discriminate.
Qed.

Lemma winz_eq (c : string) (lb ub : float) (df : DataFrame) (d : coldata) :
  getitem df c = Some d -> is_number d = true ->
  existsb isnan (fv d) = false ->
  exists d', Modules.winz c lb ub df = (setitem df c d', None) /\
             winsorized lb ub d d'.
Proof.
  intros Hd Hnum Hnan.
  assert (Hinv : Inv lb ub (fv d) d 0 d).
  { unfold Inv. split; [exact Hnum|]. split; [reflexivity|].
    split; [exact Hnan|]. split.
    - intros p Hp. unfold ok. simpl. now left.
    - intros H. split; [exact H|]. simpl. discriminate. }
  destruct (winz_loop c lb ub (fv d) d (fv d) [] df d eq_refl Hd Hinv)
    as [d1 [Hloop (Hnum1 & Hlen1 & Hnan1 & Hok1 & Hint1)]].
  exists d1. split.
  - unfold Modules.winz, eval, Modules.rows_of, column.
    rewrite Hd. simpl bind. rewrite (float_values_fv d Hnum).
    exact Hloop.
  - exists (fv d), (fv d1).
    split; [now apply float_values_fv|]. split; [now apply float_values_fv|].
    split; [exact Hlen1|]. split.
    + intros i v Hv.
      assert (Hi : (i < length (fv d))%nat)
        by (apply nth_error_Some; congruence).
      assert (Hnth : nth i (fv d) NaN = v) by now apply nth_error_nth.
      exists (nth i (fv d1) NaN).
      split; [apply nth_error_nth'; lia|].
      specialize (Hok1 i Hi). unfold ok in Hok1.
      rewrite Hnth in Hok1.
      replace (i <? length (fv d))%nat with true in Hok1
        by (symmetry; now apply Nat.ltb_lt).
      simpl andb in Hok1. unfold outside, bound_for in Hok1.
      destruct (flt v lb) eqn:E1; simpl in Hok1.
      * split; [discriminate|]. split; [intros _; exact Hok1 | discriminate].
      * destruct (flt ub v) eqn:E2.
        -- split; [discriminate|]. split; [discriminate|]. intros _ _. exact Hok1.
        -- split; [|split; discriminate]. intros _ _.
           destruct Hok1 as [-> | [Hv1 ->]]; [apply feq_refl|].
           apply integral_trunc; [|exact Hv1].
           rewrite <- Hnth. now apply nth_vals_nonan.
    + intros H0 Hex. apply Hint1; [exact H0|].
      now rewrite firstn_all.
Qed.

Lemma is_str_eq (v : pyval) (s : string) : is_str v s = true -> v = PStr s.
Proof.
  unfold is_str. destruct v as [| b | z | f | t | l]; simpl; intros H;
    try discriminate.
  apply String.eqb_eq in H. now subst.
Qed.

Lemma compute_bounds_local (self : AutoClean) (df : DataFrame) (c : string)
  (d : coldata) :
  getitem df c = Some d ->
  Modules._compute_bounds self df c
  = Modules._compute_bounds self [mkSeries c d] c.
Proof.
  intros H. unfold Modules._compute_bounds, column. rewrite H. simpl.
  now rewrite String.eqb_refl.
Qed.

(** The iteration of the outlier stage for one column, under [winz]. *)
Lemma outliers_of_winz (self : AutoClean) (k : float) (c : string)
  (df : DataFrame) (d : coldata) :
  is_str (outliers self) "winz" = true ->
  py_number (outlier_param self) = Some k ->
  getitem df c = Some d -> is_number d = true -> fv d <> [] ->
  exists d', Modules.outliers_of self c df = (setitem df c d', None) /\
    exists lb ub, Modules._compute_bounds self [mkSeries c d] c = Ok (lb, ub) /\
                  winsorized lb ub d d'.
Proof.
  intros Hw Hk Hd Hnum Hne.
  rewrite <- (compute_bounds_local self df c d Hd).
  destruct (existsb isnan (fv d)) eqn:Enan.
  - exists d.
    assert (Hb : Modules._compute_bounds self df c = Ok (NaN, NaN)).
    { exact (bounds_of_nan_column self df c d (fv d) k Hd
               (float_values_fv d Hnum) Enan Hk). }
    split.
    + rewrite (setitem_getitem df c d Hd).
      unfold Modules.outliers_of, eval. rewrite Hb, Hw.
      unfold Modules.winz, eval, Modules.rows_of, column. rewrite Hd.
      simpl bind. rewrite (float_values_fv d Hnum).
      apply for_each_unchanged. intros [i v] _. now rewrite flt_nan_r.
    + exists NaN, NaN. split; [exact Hb | now apply winsorized_refl_nan].
  - assert (Hs : sorted (fv d) <> []).
    { intros E. apply (f_equal (@length float)) in E.
      rewrite length_sorted in E. destruct (fv d); [contradiction | discriminate]. }
    destruct (percentile_defined (sorted (fv d)) 25 Hs) as [q1 E1].
    destruct (percentile_defined (sorted (fv d)) 75 Hs) as [q3 E3].
    unfold Modules.outliers_of, eval.
    unfold Modules._compute_bounds, column. rewrite Hd. cbn [bind].
    rewrite (float_values_fv d Hnum), E1, E3. cbn [bind]. rewrite Hk, Hw.
    match goal with
    | |- context [Ok (?a, ?b)] =>
        destruct (winz_eq c a b df d Hd Hnum Enan) as [d' [He Hwz]];
        exists d'; split; [exact He | exists a, b; split; [reflexivity | exact Hwz]]
    end.
Qed.

(** ** A loop over columns, each iteration rewriting its own column *)

Lemma getitem_columns (df : DataFrame) (c : string) (d : coldata) :
  getitem df c = Some d -> In c (columns df).
Proof.
  induction df as [|s rest IH]; simpl; [discriminate|].
  destruct (String.eqb (col_name s) c) eqn:E.
  - apply String.eqb_eq in E. now left.
  - intros H. right. now apply IH.
Qed.

Lemma getitem_NoDup (df : DataFrame) (s : Series) :
  NoDup (columns df) -> In s df -> getitem df (col_name s) = Some (col_data s).
Proof.
  induction df as [|s0 rest IH]; simpl; [tauto|].
  intros Hnd [-> | Hin].
  - now rewrite String.eqb_refl.
  - inversion Hnd as [|? ? Hnotin Hnd']; subst.
    destruct (String.eqb (col_name s0) (col_name s)) eqn:E.
    + apply String.eqb_eq in E. exfalso. apply Hnotin. rewrite E.
      now apply in_map.
    + now apply IH.
Qed.

Lemma NoDup_selected (keep : Series -> bool) (df : DataFrame) :
  NoDup (columns df) -> NoDup (map col_name (filter keep df)).
Proof.
  unfold columns. induction df as [|s rest IH]; simpl; intros Hnd.
  - constructor.
  - inversion Hnd as [|? ? Hfresh Hrest]; subst.
    destruct (keep s); simpl; [|now apply IH].
    constructor; [|now apply IH].
    intros Hin. apply Hfresh. apply in_map_iff in Hin.
    destruct Hin as [s' [Hname Hs']]. apply filter_In in Hs'.
    rewrite <- Hname. apply in_map. tauto.
Qed.

Lemma for_each_columns (body : string -> stmt) (Pre : coldata -> Prop)
  (R : string -> coldata -> coldata -> Prop) :
  (forall c df d, getitem df c = Some d -> Pre d ->
                  exists d', body c df = (setitem df c d', None) /\ R c d d') ->
  forall cols df,
    NoDup cols ->
    (forall c, In c cols -> exists d, getitem df c = Some d /\ Pre d) ->
    exists df',
      for_each cols body df = (df', None) /\
      columns df' = columns df /\
      (forall c d, In c cols -> getitem df c = Some d ->
                   exists d', getitem df' c = Some d' /\ R c d d') /\
      (forall c, ~ In c cols -> getitem df' c = getitem df c).
Proof.
  intros Hbody cols. induction cols as [|c t IH]; intros df Hnd Hpre.
  - exists df. simpl. repeat split; auto. intros c d [].
  - inversion Hnd as [|? ? Hnotin Hnd']; subst.
    destruct (Hpre c (or_introl eq_refl)) as [d [Hd HP]].
    destruct (Hbody c df d Hd HP) as [d' [Hb HR]].
    destruct (IH (setitem df c d') Hnd') as [df' (Hrun & Hcols & Hin & Hout)].
    { intros c2 Hc2. destruct (Hpre c2 (or_intror Hc2)) as [d2 [Hd2 HP2]].
      exists d2. split; [|exact HP2].
      rewrite getitem_setitem_other; [exact Hd2|]. intros ->. contradiction. }
    exists df'. simpl. unfold seq_. rewrite Hb. split; [exact Hrun|].
    split.
    { rewrite Hcols. apply columns_setitem. now apply getitem_columns with d. }
    split.
    + intros c2 d2 [<- | Hc2] Hd2.
      * exists d'. rewrite Hout by assumption.
        rewrite getitem_setitem_same. split; [reflexivity|].
        rewrite Hd in Hd2. now injection Hd2 as <-.
      * apply Hin; [exact Hc2|].
        rewrite getitem_setitem_other; [exact Hd2|]. intros ->. contradiction.
    + intros c2 Hc2. rewrite Hout by (intros H; apply Hc2; now right).
      apply getitem_setitem_other. intros ->. apply Hc2. now left.
Qed.

Lemma numeric_columns_spec (df : DataFrame) (c : string) :
  NoDup (columns df) ->
  (In c (numeric_columns df) <->
   exists d, getitem df c = Some d /\ is_number d = true).
Proof.
  intros Hnd. unfold numeric_columns. rewrite in_map_iff. split.
  - intros [s [<- Hs]]. apply filter_In in Hs. destruct Hs as [Hin Hnum].
    exists (col_data s). split; [now apply getitem_NoDup | exact Hnum].
  - intros [d [Hd Hnum]]. exists (mkSeries c d). split; [reflexivity|].
    apply filter_In. split; [now apply getitem_Some_In | exact Hnum].
Qed.



(** Without a row the bounds cannot be computed, and nothing in the stage
    catches the error of [np.percentile]. *)
Lemma outliers_raise_without_rows :
  Modules._check_outliers defaults [mkSeries "x" (FloatCol [])]
  = Raise IndexError.
Proof. vm_compute. reflexivity. Qed.


(** ** The type normalizer *)

Lemma round_one_eq (c : string) (df : DataFrame) (d : coldata) :
  getitem df c = Some d ->
  Modules.round_one 2 c df = (setitem df c (normalized d), None).
Proof.
  intros Hd. unfold Modules.round_one, normalized, eval at 1, column.
  rewrite Hd. destruct (all_integral d).
  - unfold try_except, eval. destruct (astype_int d); simpl; [reflexivity|].
    now rewrite setitem_getitem.
  - unfold try_except, eval. destruct (round_column 2 d); simpl; [reflexivity|].
    now rewrite setitem_getitem.
Qed.

Lemma normalized_number (d : coldata) :
  is_number d = true -> is_number (normalized d) = true.
Proof.
  destruct d as [l|l|l|l|l]; simpl; try discriminate; intros _; unfold normalized; simpl.
  - reflexivity.
  - destruct (forallb integral l); simpl; [|reflexivity].
    destruct (existsb isnan l); reflexivity.
Qed.

Lemma rint_whole (q : Q) (k : Z) : q == inject_Z k -> rint q = k.
Proof.
  intros H. unfold rint.
  assert (Hf : Qfloor q = k) by (rewrite H; apply Qfloor_Z).
  rewrite Hf.
  assert (Hlt : q - inject_Z k < 1 # 2).
  { rewrite H. setoid_replace (inject_Z k - inject_Z k) with 0 by ring.
    reflexivity. }
  assert (Hc : Qcompare (q - inject_Z k) (1 # 2) = Lt)
    by (apply Qlt_alt; exact Hlt).
  now rewrite Hc.
Qed.

Lemma round_float_idempotent (x : float) :
  round_float 2 (round_float 2 x) = round_float 2 x.
Proof.
  destruct x as [|q]; [reflexivity|].
  unfold round_float. f_equal. f_equal.
  apply rint_whole. unfold Qeq. simpl. lia.
Qed.

Lemma map_round_idempotent (l : list float) :
  map (round_float 2) (map (round_float 2) l) = map (round_float 2) l.
Proof.
  rewrite map_map. apply map_ext. intros x. apply round_float_idempotent.
Qed.

Lemma Forall2_feq_refl (l : list float) : Forall2 feq l l.
Proof. induction l; constructor; auto using feq_refl. Qed.

Lemma Forall2_feq_sym (a b : list float) :
  Forall2 feq a b -> Forall2 feq b a.
Proof.
  induction 1 as [|x y t t' Hxy F IH]; constructor; [|exact IH].
  destruct x as [|p], y as [|q]; simpl in *; try contradiction; [exact I|].
  apply Qeq_sym. exact Hxy.
Qed.

Lemma Forall2_trunc (l : list float) :
  existsb isnan l = false -> forallb integral l = true ->
  Forall2 feq (map of_int (map trunc l)) l.
Proof.
  induction l as [|x t IH]; simpl; intros Hn Hi; [constructor|].
  apply orb_false_iff in Hn. apply andb_true_iff in Hi.
  constructor; [now apply integral_trunc | now apply IH].
Qed.

Lemma normalized_IntCol (l : list Z) : normalized (IntCol l) = IntCol l.
Proof. reflexivity. Qed.

Lemma normalized_FloatCol (l : list float) :
  normalized (FloatCol l)
  = if forallb integral l
    then if existsb isnan l then FloatCol l else IntCol (map trunc l)
    else FloatCol (map (round_float 2) l).
Proof.
  unfold normalized. simpl. destruct (forallb integral l); [|reflexivity].
  now destruct (existsb isnan l).
Qed.

(** One pass either reaches a column that a further pass leaves as it is,
    or rounds a float column; the pass after that reaches such a column. *)
Lemma normalized_fixed_or_rounded (d : coldata) :
  is_number d = true ->
  normalized (normalized d) = normalized d \/
  exists l, d = FloatCol l /\ normalized d = FloatCol (map (round_float 2) l) /\
            existsb isnan (map (round_float 2) l) = false /\
            forallb integral (map (round_float 2) l) = true /\
            normalized (normalized d)
            = IntCol (map trunc (map (round_float 2) l)).
Proof.
  destruct d as [l|l|l|l|l]; simpl; try discriminate; intros _.
  - left. reflexivity.
  - rewrite (normalized_FloatCol l).
    destruct (forallb integral l) eqn:Ei.
    + left. destruct (existsb isnan l) eqn:En.
      * rewrite normalized_FloatCol. now rewrite Ei, En.
      * reflexivity.
    + rewrite normalized_FloatCol.
      destruct (forallb integral (map (round_float 2) l)) eqn:Ei2.
      * destruct (existsb isnan (map (round_float 2) l)) eqn:En2.
        -- left. reflexivity.
        -- right. exists l. repeat split; auto.
      * left. now rewrite map_round_idempotent.
Qed.

Lemma normalized_stable (d : coldata) :
  is_number d = true ->
  normalized (normalized (normalized d)) = normalized (normalized d).
Proof.
  intros Hnum. destruct (normalized_fixed_or_rounded d Hnum) as [H | [l (_ & _ & _ & _ & H)]].
  - now rewrite !H.
  - rewrite H. reflexivity.
Qed.

Lemma normalized_same_values (d : coldata) :
  is_number d = true -> same_values (normalized d) (normalized (normalized d)).
Proof.
  intros Hnum. unfold same_values.
  destruct (normalized_fixed_or_rounded d Hnum) as [H | [l (_ & H1 & Hn & Hi & H2)]].
  - rewrite H. rewrite (float_values_fv _ (normalized_number d Hnum)).
    apply Forall2_feq_refl.
  - rewrite H2, H1. simpl.
    assert (F := Forall2_trunc _ Hn Hi).
    now apply Forall2_feq_sym.
Qed.

Lemma same_values_refl (d : coldata) : same_values d d.
Proof.
  unfold same_values. destruct (float_values d); [apply Forall2_feq_refl | reflexivity].
Qed.

Lemma frame_ext (a b : DataFrame) :
  NoDup (columns a) -> columns a = columns b ->
  (forall c, getitem a c = getitem b c) -> a = b.
Proof.
  revert b. induction a as [|s a IH]; intros [|s' b] Hnd Hc Hg; simpl in *;
    try discriminate; [reflexivity|].
  injection Hc as Hname Hrest.
  inversion Hnd as [|? ? Hnotin Hnd']; subst.
  assert (Hs : s = s').
  { pose proof (Hg (col_name s)) as Hs0. rewrite <- Hname in Hs0.
    rewrite !String.eqb_refl in Hs0. injection Hs0 as Hdata.
    destruct s, s'; simpl in *; congruence. }
  subst s'. f_equal. apply IH; auto.
  intros c. specialize (Hg c).
  destruct (String.eqb (col_name s) c) eqn:E; [|exact Hg].
  apply String.eqb_eq in E. subst c.
  destruct (getitem a (col_name s)) eqn:Ea.
  { exfalso. apply Hnotin. now apply getitem_columns with c. }
  destruct (getitem b (col_name s)) eqn:Eb; [|reflexivity].
  exfalso. apply Hnotin. rewrite Hrest. now apply getitem_columns with c.
Qed.

Lemma getitem_None (df : DataFrame) (c : string) :
  ~ In c (columns df) -> getitem df c = None.
Proof.
  intros H. destruct (getitem df c) eqn:E; [|reflexivity].
  exfalso. apply H. now apply getitem_columns with c0.
Qed.

(** One pass of the normalizer, column by column. *)
Lemma round_values_columns (df : DataFrame) :
  NoDup (columns df) ->
  exists out,
    Modules._round_values df = Ok out /\
    columns out = columns df /\
    (forall c d, getitem df c = Some d ->
                 getitem out c = Some (if is_number d then normalized d else d)).
Proof.
  intros Hnd.
  destruct (for_each_columns (Modules.round_one 2) (fun _ => True)
              (fun _ d d' => d' = normalized d)
              (fun c df0 d Hd _ =>
                 ex_intro _ (normalized d) (conj (round_one_eq c df0 d Hd) eq_refl))
              (numeric_columns df) df)
    as [out (Hrun & Hcols & Hin & Hout)].
  { unfold numeric_columns. apply NoDup_selected. exact Hnd. }
  { intros c Hc. apply numeric_columns_spec in Hc; [|exact Hnd].
    destruct Hc as [d [Hd _]]. eauto. }
  exists out. split.
  - unfold Modules._round_values, run, Modules._round_values_stmt, eval.
    now rewrite Hrun.
  - split; [exact Hcols|]. intros c d Hd.
    destruct (is_number d) eqn:En.
    + destruct (Hin c d) as [d' [Hd' ->]]; auto.
      apply numeric_columns_spec; eauto.
    + rewrite Hout; [exact Hd|].
      intros Hc. apply numeric_columns_spec in Hc; [|exact Hnd].
      destruct Hc as [d2 [Hd2 Hn2]]. congruence.
Qed.




(** ** The orchestrator *)

Lemma bind_Ok {A : Type} (r : result A) : (x <- r ;; Ok x) = r.
Proof. now destruct r. Qed.

Lemma bind_assoc {A B C : Type} (r : result A) (f : A -> result B)
  (g : B -> result C) :
  (y <- (x <- r ;; f x) ;; g y) = (x <- r ;; y <- f x ;; g y).
Proof. now destruct r. Qed.

Lemma missings_categ_disabled {P : Pandas} (self : AutoClean) (df : DataFrame) :
  py_truthy (missings_categ self) = false ->
  Modules._check_missings_categ self df = Ok df.
Proof.
  intros H. unfold Modules._check_missings_categ, run,
    Modules._check_missings_categ_stmt. now rewrite H.
Qed.

Lemma reference_pandas_ok :
  set_iter_ok reference_pandas /\ parse_iso_ok reference_pandas.
Proof.
  split.
  - intros l _. apply Permutation_refl.
  - intros s d H. exact H.
Qed.

(** ** Runs of the pipeline *)

Lemma set_iter_nil (P : Pandas) : set_iter_ok P -> set_iter [] = [].
Proof.
  intros H. apply Permutation_nil. apply Permutation_sym. apply H. constructor.
Qed.

Lemma set_iter_pair (P : Pandas) (a b : string) :
  set_iter_ok P -> a <> b ->
  set_iter [a; b] = [a; b] \/ set_iter [a; b] = [b; a].
Proof.
  intros H Hab. apply Permutation_length_2_inv. apply Permutation_sym.
  apply H. constructor; [simpl; intros [E|[]]; congruence|].
  constructor; [simpl; tauto | constructor].
Qed.

(** The datetime and encoding stages on a frame without non-numeric
    columns, for the default granularity and encoding. *)
Lemma convert_datetime_numeric (P : Pandas) (self : AutoClean) (df : DataFrame) :
  set_iter_ok P -> non_numeric_columns df = [] ->
  Modules._convert_datetime self df = Ok df.
Proof.
  intros H Hn. unfold Modules._convert_datetime, run, Modules._convert_datetime_stmt.
  destruct (py_truthy (extract_datetime self)); [|reflexivity].
  unfold eval. now rewrite Hn, (set_iter_nil P H).
Qed.

(** C4 (amended): on the single numeric column [1, NaN, 3, 100] with mean
    imputation, winsorizing and the multiplier 1.5, the missing value is
    imputed by the mean 104/3 of the column truncated to the integer 34
    (the observed values are whole numbers, so the column is cast to
    integer); the bounds of the column after imputation are -69.5 and
    122.5; 100 lies within them and is kept: the pipeline returns
    [1, 34, 3, 100]. *)
Theorem mean_then_winz_example :
  forall P : Pandas,
    set_iter_ok P ->
    mean_of [1; 3; 100] == 104 # 3 /\
    Qtrunc (mean_of [1; 3; 100]) = 34%Z /\
    Modules._check_missings_num example_config example_frame
    = Ok [mkSeries "x" (IntCol [1; 34; 3; 100]%Z)] /\
    (exists lb ub : Q,
        Modules._compute_bounds example_config
          [mkSeries "x" (IntCol [1; 34; 3; 100]%Z)] "x" = Ok (Fin lb, Fin ub) /\
        lb == - (139 # 2) /\ ub == 245 # 2 /\ lb <= 100 /\ 100 <= ub) /\
    AutoClean.__init__ example_config example_frame
    = Ok [mkSeries "x" (IntCol [1; 34; 3; 100]%Z)].
Proof.
  intros P H.
  split; [reflexivity|]. split; [reflexivity|].
  split; [vm_compute; reflexivity|].
  split.
  - eexists. eexists. split; [vm_compute; reflexivity|].
    repeat split; try reflexivity; discriminate.
  - unfold AutoClean.__init__.
    replace (AutoClean._validate_params example_config) with (Ok tt)
      by (vm_compute; reflexivity).
    simpl bind. unfold AutoClean._clean_data.
    replace (is_str (missings_categ example_config) "delete") with false
      by reflexivity.
    simpl andb. cbv iota.
    replace (Modules._check_missings_num example_config example_frame)
      with (Ok [mkSeries "x" (IntCol [1; 34; 3; 100]%Z)])
      by (vm_compute; reflexivity).
    simpl bind.
    replace (Modules._check_missings_categ example_config
               [mkSeries "x" (IntCol [1; 34; 3; 100]%Z)])
      with (Ok [mkSeries "x" (IntCol [1; 34; 3; 100]%Z)])
      by (vm_compute; reflexivity).
    simpl bind.
    replace (Modules._check_outliers example_config
               [mkSeries "x" (IntCol [1; 34; 3; 100]%Z)])
      with (Ok [mkSeries "x" (IntCol [1; 34; 3; 100]%Z)])
      by (vm_compute; reflexivity).
    simpl bind.
    rewrite (convert_datetime_numeric P example_config
               [mkSeries "x" (IntCol [1; 34; 3; 100]%Z)] H eq_refl).
    simpl bind.
    replace (Modules._encode_categ example_config
               [mkSeries "x" (IntCol [1; 34; 3; 100]%Z)])
      with (Ok [mkSeries "x" (IntCol [1; 34; 3; 100]%Z)]).
    + reflexivity.
    + unfold Modules._encode_categ, run, Modules._encode_categ_stmt, eval.
      simpl.
      change (non_numeric_columns [mkSeries "x" (IntCol [1; 34; 3; 100]%Z)])
        with (@nil string).
      now rewrite (set_iter_nil P H).
Qed.

Lemma mean_then_winz_example_witness :
  AutoClean.__init__ (P := reference_pandas) example_config example_frame
  = Ok [mkSeries "x" (IntCol [1; 34; 3; 100]%Z)].
Proof.
  apply (mean_then_winz_example reference_pandas).
  intros l _. apply Permutation_refl.
Defined.

(** C4 as stated fails: the value imputed is not the mean 104/3 and 100 is
    not replaced by the upper bound of the column after imputation. *)
Lemma mean_then_winz_counterexample :
  exists (out : DataFrame) (vals : list float) (lb ub : Q),
    AutoClean.__init__ (P := reference_pandas) example_config example_frame
    = Ok out /\
    option_map fv (getitem out "x") = Some vals /\
    ~ feq (nth 1 vals NaN) (Fin (104 # 3)) /\
    (df <- Modules._check_missings_num example_config example_frame ;;
     Modules._compute_bounds example_config df "x") = Ok (Fin lb, Fin ub) /\
    ~ feq (nth 3 vals NaN) (Fin ub).
Proof.
  eexists. eexists. eexists. eexists.
  split; [vm_compute; reflexivity|].
  split; [vm_compute; reflexivity|].
  split; [vm_compute; discriminate|].
  split; [vm_compute; reflexivity|].
  vm_compute. discriminate.
Qed.

(** C5 fails on the code for categorical imputation: the loop of
    [_check_missings_categ] has no [try], so the error the imputer raises
    for one column (here the bool column) aborts the run, after validation
    has passed; the numeric handler, on the contrary, leaves the column that
    cannot be imputed (no observed value) as it is and goes on. *)
Theorem categorical_imputation_failure_aborts :
  forall P : Pandas,
    set_iter_ok P ->
    AutoClean._validate_params defaults = Ok tt /\
    Modules._check_missings_categ defaults flags_frame = Raise ValueError /\
    AutoClean.__init__ defaults flags_frame = Raise ValueError /\
    Modules._check_missings_num defaults
      [mkSeries "x" (FloatCol [NaN; NaN]); mkSeries "y" (FloatCol [Fin 1; NaN])]
    = Ok [mkSeries "x" (FloatCol [NaN; NaN]); mkSeries "y" (IntCol [1; 1]%Z)].
Proof.
  intros P H.
  assert (Hc : Modules._check_missings_categ defaults flags_frame
               = Raise ValueError).
  { unfold Modules._check_missings_categ, run,
      Modules._check_missings_categ_stmt, eval.
    simpl.
    change (non_numeric_columns flags_frame) with ["flag"; "city"]%string.
    destruct (set_iter_pair P "flag" "city" H) as [-> | ->];
      [discriminate | reflexivity | reflexivity]. }
  split; [reflexivity|]. split; [exact Hc|]. split.
  - unfold AutoClean.__init__.
    replace (AutoClean._validate_params defaults) with (Ok tt) by reflexivity.
    simpl bind. unfold AutoClean._clean_data.
    replace (is_str (missings_num defaults) "delete") with false by reflexivity.
    rewrite andb_false_r.
    replace (Modules._check_missings_num defaults flags_frame)
      with (Ok flags_frame) by reflexivity.
    simpl bind. now rewrite Hc.
  - vm_compute. reflexivity.
Qed.

Lemma categorical_imputation_failure_aborts_witness :
  AutoClean.__init__ (P := reference_pandas) defaults flags_frame
  = Raise ValueError.
Proof.
  apply (categorical_imputation_failure_aborts reference_pandas).
  intros l _. apply Permutation_refl.
Defined.

(** C6 fails on the code for the encoding axis: the method [bogus] passes
    validation and the pipeline runs to its end, whereas an unknown name on
    another axis is rejected. *)
Theorem unknown_encoding_passes_validation :
  forall P : Pandas,
    set_iter_ok P ->
    AutoClean._validate_params bogus_encoding = Ok tt /\
    AutoClean.__init__ bogus_encoding [mkSeries "x" (IntCol [1; 2]%Z)]
    = Ok [mkSeries "x" (IntCol [1; 2]%Z)] /\
    AutoClean._validate_params
      {| missings_num := PStr "bogus";
         missings_categ := PStr "mode";
         encode_categ := PList [PStr "auto"];
         extract_datetime := PStr "s";
         outliers := PStr "winz";
         outlier_param := PFloat (Fin (3 # 2)) |}
    = Raise ValueError.
Proof.
  intros P H. split; [reflexivity|]. split; [|reflexivity].
  unfold AutoClean.__init__.
  replace (AutoClean._validate_params bogus_encoding) with (Ok tt) by reflexivity.
  simpl bind. unfold AutoClean._clean_data.
  replace (is_str (missings_num bogus_encoding) "delete") with false by reflexivity.
  rewrite andb_false_r.
  replace (Modules._check_missings_num bogus_encoding [mkSeries "x" (IntCol [1; 2]%Z)])
    with (Ok [mkSeries "x" (IntCol [1; 2]%Z)]) by reflexivity.
  simpl bind.
  replace (Modules._check_missings_categ bogus_encoding [mkSeries "x" (IntCol [1; 2]%Z)])
    with (Ok [mkSeries "x" (IntCol [1; 2]%Z)]) by reflexivity.
  simpl bind.
  replace (Modules._check_outliers bogus_encoding [mkSeries "x" (IntCol [1; 2]%Z)])
    with (Ok [mkSeries "x" (IntCol [1; 2]%Z)]) by (vm_compute; reflexivity).
  simpl bind.
  rewrite (convert_datetime_numeric P bogus_encoding
             [mkSeries "x" (IntCol [1; 2]%Z)] H eq_refl).
  simpl bind.
  reflexivity.
Qed.

Lemma unknown_encoding_passes_validation_witness :
  AutoClean._validate_params bogus_encoding = Ok tt.
Proof.
  apply (unknown_encoding_passes_validation reference_pandas).
  intros l _. apply Permutation_refl.
Defined.

(** ** Sorted distinct values and positions *)

Section SortedUnique.

Variable A : Type.
Variable cmp : A -> A -> comparison.
Variable lt : A -> A -> Prop.

Hypothesis lt_strict : StrictOrder lt.
Hypothesis cmp_spec :
  forall x y : A, CompareSpec (x = y) (lt x y) (lt y x) (cmp x y).

Lemma cmp_Eq (x y : A) : cmp x y = Eq <-> x = y.
Proof.
  destruct (cmp_spec x y) as [H|H|H]; split; intros E; try discriminate; auto;
    subst; exfalso; exact (irreflexivity H).
Qed.

Lemma cmp_Lt (x y : A) : cmp x y = Lt <-> lt x y.
Proof.
  destruct (cmp_spec x y) as [H|H|H]; split; intros E; try discriminate; auto.
  - subst. exfalso. exact (irreflexivity E).
  - exfalso. exact (irreflexivity (transitivity H E)).
Qed.

Lemma In_insert_unique (x y : A) (l : list A) :
  In y (insert_unique cmp x l) <-> y = x \/ In y l.
Proof.
  induction l as [|h t IH]; simpl; [intuition|].
  destruct (cmp x h) eqn:E; simpl.
  - apply cmp_Eq in E. subst. intuition.
  - intuition.
  - rewrite IH. intuition.
Qed.

Lemma In_unique (y : A) (l : list A) : In y (unique cmp l) <-> In y l.
Proof.
  induction l as [|h t IH]; simpl; [tauto|].
  rewrite In_insert_unique, IH. intuition.
Qed.

Lemma insert_unique_sorted (x : A) (l : list A) :
  StronglySorted lt l -> StronglySorted lt (insert_unique cmp x l).
Proof.
  induction l as [|h t IH]; simpl; intros Hs.
  - repeat constructor.
  - apply StronglySorted_inv in Hs. destruct Hs as [Hs Hall].
    destruct (cmp_spec x h) as [E|E|E].
    + now constructor.
    + constructor; [now constructor|]. constructor; [exact E|].
      rewrite Forall_forall in *. intros z Hz.
      exact (transitivity E (Hall z Hz)).
    + constructor; [now apply IH|].
      rewrite Forall_forall in *. intros z Hz.
      apply In_insert_unique in Hz. destruct Hz as [-> | Hz]; auto.
Qed.

Lemma unique_sorted (l : list A) : StronglySorted lt (unique cmp l).
Proof.
  induction l as [|h t IH]; simpl; [constructor | now apply insert_unique_sorted].
Qed.

Lemma index_of_In (x : A) (l : list A) :
  In x l ->
  exists i, index_of cmp x l = Some i /\ nth_error l i = Some x /\
            (i < length l)%nat.
Proof.
  induction l as [|h t IH]; simpl; [tauto|]. intros Hin.
  destruct (cmp x h) eqn:E.
  - apply cmp_Eq in E. subst. exists O. repeat split. lia.
  - destruct Hin as [-> | Hin].
    + rewrite (proj2 (cmp_Eq x x) eq_refl) in E. discriminate.
    + destruct (IH Hin) as [i (Hi & Hn & Hl)]. exists (S i).
      rewrite Hi. repeat split; auto. lia.
  - destruct Hin as [-> | Hin].
    + rewrite (proj2 (cmp_Eq x x) eq_refl) in E. discriminate.
    + destruct (IH Hin) as [i (Hi & Hn & Hl)]. exists (S i).
      rewrite Hi. repeat split; auto. lia.
Qed.

Lemma sorted_positions (l : list A) (i j : nat) (x y : A) :
  StronglySorted lt l ->
  nth_error l i = Some x -> nth_error l j = Some y ->
  (i < j)%nat -> lt x y.
Proof.
  intros Hs. revert i j. induction Hs as [|h t Hs IH Hall]; intros i j Hi Hj Hij.
  - destruct i; discriminate.
  - destruct j as [|j]; [lia|]. simpl in Hj.
    destruct i as [|i]; simpl in Hi.
    + injection Hi as ->. rewrite Forall_forall in Hall. apply Hall.
      now apply nth_error_In with j.
    + apply (IH i j); auto. lia.
Qed.

Lemma sorted_positions_iff (l : list A) (i j : nat) (x y : A) :
  StronglySorted lt l ->
  nth_error l i = Some x -> nth_error l j = Some y ->
  ((i < j)%nat <-> lt x y).
Proof.
  intros Hs Hi Hj. split; [now apply sorted_positions with l|].
  intros Hxy. destruct (Nat.lt_trichotomy i j) as [H | [H | H]]; [exact H | |].
  - subst. rewrite Hi in Hj. injection Hj as ->.
    exfalso. exact (irreflexivity Hxy).
  - pose proof (sorted_positions l j i y x Hs Hj Hi H) as Hyx.
    exfalso. exact (irreflexivity (transitivity Hxy Hyx)).
Qed.

Lemma sorted_NoDup (l : list A) : StronglySorted lt l -> NoDup l.
Proof.
  induction 1 as [|h t Hs IH Hall]; constructor; [|exact IH].
  intros Hin. rewrite Forall_forall in Hall.
  exact (irreflexivity (Hall h Hin)).
Qed.

End SortedUnique.

(** ** Label encoding *)

Lemma string_cmp_spec (x y : string) :
  CompareSpec (x = y) (string_lt x y) (string_lt y x) (String_as_OT.compare x y).
Proof. exact (String_as_OT.compare_spec x y). Qed.

Lemma In_strings_of (s : string) (l : list obj) :
  In s (strings_of l) <-> In (OStr s) l.
Proof.
  unfold strings_of. rewrite in_flat_map. split.
  - intros [o [Ho Hs]]. destruct o as [|t]; simpl in Hs; [tauto|].
    destruct Hs as [-> | []]. exact Ho.
  - intros H. exists (OStr s). split; [exact H | now left].
Qed.

Lemma label_strings_pass (col : string) (cls : list string) (ns : list nat)
  (df : DataFrame) :
  for_each (combine (map KStr cls) ns)
    (fun '(key, code) =>
       try_except
         (eval (fun _ => math_isnan key) (fun b : bool =>
            if b then
              eval (fun df => column df col) (fun d =>
                assign col (replace_by_nan (Z.of_nat code) d))
            else skip))) df
  = (df, None).
Proof.
  apply for_each_unchanged. intros [key code] Hin.
  apply in_combine_l in Hin. apply in_map_iff in Hin.
  destruct Hin as [s [<- _]]. reflexivity.
Qed.

Lemma combine_snoc {A B : Type} (l : list A) (l' : list B) (x : A) (y : B) :
  length l = length l' ->
  combine (l ++ [x]) (l' ++ [y]) = combine l l' ++ [(x, y)].
Proof.
  revert l'. induction l as [|h t IH]; intros [|h' t'] H; simpl in *;
    try discriminate; [reflexivity|].
  f_equal. apply IH. lia.
Qed.

Lemma label_encode_run (df : DataFrame) (col : string) (l : list obj) :
  getitem df col = Some (ObjCol l) ->
  Modules._label_encode df col = Ok (setitem df col (label_column l)).
Proof.
  intros Hd.
  unfold Modules._label_encode, run, Modules._label_encode_stmt.
  unfold eval at 1. unfold column at 1.
  rewrite Hd. simpl bind. cbv beta.
  unfold label_column, label_fit_transform. cbv [fst snd].
  remember (unique String_as_OT.compare (strings_of l)) as classes eqn:Ecl.
  unfold seq_ at 1. unfold assign at 1.
  destruct (existsb (fun o => match o with ONaN => true | _ => false end) l)
    eqn:Em.
  - rewrite length_app, length_map. simpl length.
    rewrite Nat.add_1_r, seq_S, combine_snoc
      by now rewrite length_map, length_seq.
    rewrite for_each_app. unfold seq_ at 1.
    rewrite label_strings_pass. simpl for_each. unfold seq_, try_except, eval.
    simpl math_isnan. cbv iota. unfold column.
    rewrite getitem_setitem_same. unfold assign, skip. simpl fst.
    rewrite setitem_setitem. simpl replace_by_nan.
    match goal with
    | |- context [existsb (Z.eqb ?k) ?codes] =>
        assert (Hex : existsb (Z.eqb k) codes = true)
    end.
    { apply existsb_exists in Em.
      destruct Em as [o [Ho Hna]]. destruct o; [|discriminate].
      apply existsb_exists. eexists. split; [|apply Z.eqb_refl].
      apply in_map_iff. exists ONaN. now split. }
    rewrite Hex. reflexivity.
  - rewrite app_nil_r, length_map. rewrite label_strings_pass. reflexivity.
Qed.




(** ** Datetime extraction *)

Lemma seq_eq (a b : stmt) (df df1 : DataFrame) :
  a df = (df1, None) -> (a >> b) df = b df1.
Proof. intros H. unfold seq_. now rewrite H. Qed.

Lemma getitem_filter_other (df : DataFrame) (n c : string) :
  n <> c ->
  getitem (filter (fun s => negb (String.eqb (col_name s) n)) df) c
  = getitem df c.
Proof.
  intros Hne. induction df as [|s rest IH]; simpl; [reflexivity|].
  destruct (String.eqb (col_name s) n) eqn:E; simpl.
  - apply String.eqb_eq in E.
    destruct (String.eqb (col_name s) c) eqn:E'; [|exact IH].
    apply String.eqb_eq in E'. congruence.
  - now rewrite IH.
Qed.

Lemma getitem_filter_same (df : DataFrame) (n : string) :
  getitem (filter (fun s => negb (String.eqb (col_name s) n)) df) n = None.
Proof.
  induction df as [|s rest IH]; simpl; [reflexivity|].
  destruct (String.eqb (col_name s) n) eqn:E; simpl; [exact IH|].
  now rewrite E.
Qed.

Lemma drop_column_eq (n : string) (df : DataFrame) (d : coldata) :
  getitem df n = Some d ->
  drop_column n df
  = (filter (fun s => negb (String.eqb (col_name s) n)) df, None).
Proof. intros H. unfold drop_column. now rewrite H. Qed.

Lemma all_zero_IntCol (df : DataFrame) (n : string) (l : list Z) :
  getitem df n = Some (IntCol l) ->
  all_zero df n = Ok (forallb (fun z => (z =? 0)%Z) l).
Proof. intros H. unfold all_zero, column. now rewrite H. Qed.

Lemma dt_field_present (f : datetime -> Z) (ts : list datetime) :
  dt_field f (map Some ts) = IntCol (map f ts).
Proof.
  unfold dt_field.
  replace (forallb (fun o : option datetime =>
                      match o with Some _ => true | None => false end)
             (map Some ts)) with true.
  - now rewrite map_map.
  - symmetry. apply forallb_forall. intros o Ho.
    apply in_map_iff in Ho. now destruct Ho as [t [<- _]].
Qed.

Lemma forallb_map_field (f : datetime -> Z) (ts : list datetime) :
  forallb (fun z => (z =? 0)%Z) (map f ts)
  = forallb (fun t => (f t =? 0)%Z) ts.
Proof. induction ts as [|t ts IH]; simpl; [reflexivity | now rewrite IH]. Qed.

Lemma parse_iso_day (s : string) (t : datetime) :
  parse_iso s = Some t -> (dt_day t =? 0)%Z = false.
Proof.
  unfold parse_iso. intros H.
  assert (Hv : valid_datetime t = true).
  { repeat match type of H with
           | (if ?b then _ else _) = _ => destruct b eqn:?; try discriminate
           | match ?x with _ => _ end = _ => destruct x; try discriminate
           end.
    injection H as <-. assumption. }
  unfold valid_datetime in Hv. rewrite !andb_true_iff in Hv.
  apply Z.eqb_neq. destruct Hv as [[[[[[_ _] Hd] _] _] _] _].
  apply Z.leb_le in Hd. lia.
Qed.

Section Extraction.

Context {P : Pandas}.

Hypothesis parse_ok : parse_iso_ok P.

Lemma to_datetime_iso (strs : list string) (ts : list datetime) :
  Forall2 (fun s t => parse_iso s = Some t) strs ts ->
  to_datetime (ObjCol (map OStr strs)) = Ok (map Some ts).
Proof.
  unfold to_datetime. induction 1 as [|s t strs ts Hst _ IH]; simpl; [reflexivity|].
  rewrite (parse_ok s t Hst). simpl. now rewrite IH.
Qed.

Lemma extract_eq (c target : string) (f : datetime -> Z) (ts : list datetime)
  (df : DataFrame) :
  getitem df c = Some (DateCol (map Some ts)) ->
  Modules.extract c target f df = (setitem df target (IntCol (map f ts)), None).
Proof.
  intros H. unfold Modules.extract, eval, column. rewrite H. simpl.
  unfold assign. now rewrite dt_field_present.
Qed.

Lemma convert_one_fails (self : AutoClean) (c : string) (df : DataFrame)
  (d : coldata) (e : exn) :
  getitem df c = Some d -> to_datetime d = Raise e ->
  Modules.convert_one self c df = (df, None).
Proof.
  intros Hd He. unfold Modules.convert_one, try_except.
  unfold seq_ at 1. unfold eval at 1. unfold column. rewrite Hd. simpl bind.
  now rewrite He.
Qed.

End Extraction.

Ltac names_differ :=
  let E := fresh "E" in
  intros E;
  first
    [ discriminate E
    | match goal with
      | H : ~ In _ derived_names |- _ =>
          apply H; first [rewrite <- E | rewrite E]; simpl; tauto
      end
    | congruence ].

Ltac read_column :=
  repeat first
    [ rewrite getitem_setitem_same
    | rewrite getitem_setitem_other by names_differ
    | rewrite getitem_filter_same
    | rewrite getitem_filter_other by names_differ ];
  try reflexivity; try assumption.

Section ExtractionOfOneColumn.

Context {P : Pandas}.

Hypothesis parse_ok : parse_iso_ok P.

Variable self : AutoClean.
Variable c : string.
Variable strs : list string.
Variable ts : list datetime.
Variable df : DataFrame.

Hypothesis granularity : extract_datetime self = PStr "s".
Hypothesis source : getitem df c = Some (ObjCol (map OStr strs)).
Hypothesis parsed : Forall2 (fun s t => parse_iso s = Some t) strs ts.
Hypothesis fresh_name : ~ In c derived_names.

Lemma days_not_zero (field : datetime -> Z) :
  forallb (fun t => (field t =? 0)%Z) ts = false ->
  forallb (fun z => (z =? 0)%Z) (map dt_day ts) = false.
Proof.
  destruct parsed as [|s t strs' ts' Hst _]; [discriminate|].
  intros _. simpl. now rewrite (parse_iso_day s t Hst).
Qed.

Lemma convert_one_iso :
  exists out : DataFrame,
    Modules.convert_one self c df = (out, None) /\
    getitem out c = Some (DateCol (map Some ts)) /\
    getitem out "Day" = Some (IntCol (map dt_day ts)) /\
    getitem out "Month" = Some (IntCol (map dt_month ts)) /\
    getitem out "Year" = Some (IntCol (map dt_year ts)) /\
    (no_time ts = false ->
     getitem out "Hour" = Some (IntCol (map dt_hour ts)) /\
     getitem out "Minute" = Some (IntCol (map dt_minute ts)) /\
     getitem out "Sec" = Some (IntCol (map dt_second ts))) /\
    (no_time ts = true ->
     getitem out "Hour" = None /\ getitem out "Minute" = None /\
     getitem out "Sec" = None) /\
    (forall n : string,
        n <> c -> ~ In n derived_names -> getitem out n = getitem df n).
Proof.
  set (df1 := setitem df c (DateCol (map Some ts))).
  set (df2 := setitem df1 "Day" (IntCol (map dt_day ts))).
  set (df3 := setitem df2 "Month" (IntCol (map dt_month ts))).
  set (df4 := setitem df3 "Year" (IntCol (map dt_year ts))).
  set (df5 := setitem df4 "Hour" (IntCol (map dt_hour ts))).
  set (df6 := setitem df5 "Minute" (IntCol (map dt_minute ts))).
  set (df7 := setitem df6 "Sec" (IntCol (map dt_second ts))).
  assert (Hbody :
    exists out, Modules.convert_one self c df = (out, None) /\
      ((no_time ts = false /\ out = df7) \/
       (no_time ts = true /\
        out = filter (fun s => negb (String.eqb (col_name s) "Sec"))
                (filter (fun s => negb (String.eqb (col_name s) "Minute"))
                   (filter (fun s => negb (String.eqb (col_name s) "Hour")) df7))))).
  { unfold Modules.convert_one. rewrite granularity.
    replace (py_in (PStr "s") ["M"; "Y"; "h"; "m"; "s"]%string) with true by reflexivity.
    replace (py_in (PStr "s") ["Y"; "h"; "m"; "s"]%string) with true by reflexivity.
    replace (py_in (PStr "s") ["h"; "m"; "s"]%string) with true by reflexivity.
    replace (py_in (PStr "s") ["m"; "s"]%string) with true by reflexivity.
    replace (py_in (PStr "s") ["s"]%string) with true by reflexivity.
    cbv iota. unfold try_except at 1.
    erewrite seq_eq;
      [| unfold eval, column; rewrite source; cbv beta iota delta [bind];
         rewrite (to_datetime_iso parse_ok strs ts parsed); reflexivity].
    fold df1.
    erewrite seq_eq; [| apply (extract_eq c "Day" dt_day ts); unfold df1; read_column].
    fold df2.
    erewrite seq_eq;
      [| erewrite seq_eq;
         [| apply (extract_eq c "Month" dt_month ts); unfold df2, df1; read_column];
         fold df3;
         erewrite seq_eq;
         [| apply (extract_eq c "Year" dt_year ts); unfold df3, df2, df1; read_column];
         fold df4;
         erewrite seq_eq;
         [| apply (extract_eq c "Hour" dt_hour ts);
            unfold df4, df3, df2, df1; read_column];
         fold df5;
         erewrite seq_eq;
         [| apply (extract_eq c "Minute" dt_minute ts);
            unfold df5, df4, df3, df2, df1; read_column];
         fold df6;
         apply (extract_eq c "Sec" dt_second ts);
         unfold df6, df5, df4, df3, df2, df1; read_column].
    fold df7.
    unfold try_except, Modules.cleanup. unfold eval at 1.
    rewrite (all_zero_IntCol df7 "Hour" (map dt_hour ts))
      by (unfold df7, df6, df5; read_column).
    rewrite (all_zero_IntCol df7 "Minute" (map dt_minute ts))
      by (unfold df7, df6; read_column).
    rewrite (all_zero_IntCol df7 "Sec" (map dt_second ts))
      by (unfold df7; read_column).
    rewrite !forallb_map_field. unfold no_time.
    destruct (forallb (fun t => (dt_hour t =? 0)%Z) ts) eqn:Eh;
      [destruct (forallb (fun t => (dt_minute t =? 0)%Z) ts) eqn:Em;
       [destruct (forallb (fun t => (dt_second t =? 0)%Z) ts) eqn:Es|]|];
      simpl Modules.and_then; cbv iota.
    - (* no time of day: the three columns are dropped *)
      eexists. split; [|right; split; [reflexivity | reflexivity]].
      erewrite seq_eq;
        [| apply (drop_column_eq "Hour" df7 (IntCol (map dt_hour ts)));
           unfold df7, df6, df5; read_column].
      erewrite seq_eq;
        [| apply (drop_column_eq "Minute" _ (IntCol (map dt_minute ts)));
           unfold df7, df6; read_column].
      erewrite (drop_column_eq "Sec" _ (IntCol (map dt_second ts)));
        [reflexivity | unfold df7; read_column].
    - exists df7. split; [|left; split; reflexivity].
      unfold eval.
      rewrite (all_zero_IntCol df7 "Day" (map dt_day ts))
        by (unfold df7, df6, df5, df4, df3, df2; read_column).
      rewrite (days_not_zero dt_second Es). reflexivity.
    - exists df7. split; [|left; split; reflexivity].
      unfold eval.
      rewrite (all_zero_IntCol df7 "Day" (map dt_day ts))
        by (unfold df7, df6, df5, df4, df3, df2; read_column).
      rewrite (days_not_zero dt_minute Em). reflexivity.
    - exists df7. split; [|left; split; reflexivity].
      unfold eval.
      rewrite (all_zero_IntCol df7 "Day" (map dt_day ts))
        by (unfold df7, df6, df5, df4, df3, df2; read_column).
      rewrite (days_not_zero dt_hour Eh). reflexivity. }
  destruct Hbody as [out [Hrun [[Hnt ->] | [Hnt ->]]]].
  - exists df7. split; [exact Hrun|].
    unfold df7, df6, df5, df4, df3, df2, df1.
    split; [read_column|]. split; [read_column|].
    split; [read_column|]. split; [read_column|].
    split; [intros _; split; [read_column | split; read_column]|].
    split; [intros H; congruence|].
    intros n Hn1 Hn2. read_column.
  - eexists. split; [exact Hrun|].
    unfold df7, df6, df5, df4, df3, df2, df1.
    split; [read_column|]. split; [read_column|].
    split; [read_column|]. split; [read_column|].
    split; [intros H; congruence|].
    split; [intros _; split; [read_column | split; read_column]|].
    intros n Hn1 Hn2. read_column.
Qed.

End ExtractionOfOneColumn.

Lemma non_numeric_columns_spec (df : DataFrame) (c : string) :
  NoDup (columns df) ->
  (In c (non_numeric_columns df) <->
   exists d, getitem df c = Some d /\ is_number d = false).
Proof.
  intros Hnd. unfold non_numeric_columns. rewrite in_map_iff. split.
  - intros [s [<- Hs]]. apply filter_In in Hs. destruct Hs as [Hin Hnum].
    exists (col_data s). split; [now apply getitem_NoDup|].
    now apply negb_true_iff.
  - intros [d [Hd Hnum]]. exists (mkSeries c d). split; [reflexivity|].
    apply filter_In. split; [now apply getitem_Some_In|].
    simpl. now rewrite Hnum.
Qed.



(** * Further properties of the stages *)

(** ** Encoding: the branches of [_encode_categ] *)

Lemma try_except_eq (body : stmt) (df out : DataFrame) (e : option exn) :
  body df = (out, e) -> try_except body df = (out, None).
Proof. intros H. unfold try_except. now rewrite H. Qed.

(** A call through [self] is caught by the handler around it: the frame is
    the one before the call. *)
Lemma encode_with_self_caught (method : pyval) (df : DataFrame) :
  try_except (Modules.encode_with_self method) df = (df, None).
Proof.
  unfold try_except, Modules.encode_with_self, Modules.missing_method, raise, skip.
  destruct (is_str method "onehot"); [reflexivity|].
  destruct (is_str method "label"); reflexivity.
Qed.

Lemma blanket_body_unchanged {P : Pandas} (method : pyval) (c : string)
  (df : DataFrame) :
  try_handle (Modules.probe_datetime c)
    (try_except (Modules.encode_with_self method)) df = (df, None).
Proof.
  unfold try_handle, Modules.probe_datetime, eval, skip.
  destruct (d <- column df c ;; to_datetime d) as [l|e]; [reflexivity|].
  apply encode_with_self_caught.
Qed.

(** X1: The blanket methods never encode anything.  With a method other than
    ["auto"] and a list that does not have two elements, [_encode_categ]
    raises [IndexError] for the one-element list (the documented
    [['onehot']] and [['label']]: the log message reads the second
    element), and returns the frame unchanged for a longer list (the
    encoders are called through [self], which does not have them). *)
Theorem blanket_encoding_never_encodes :
  forall (P : Pandas) (self : AutoClean) (method : pyval) (more : list pyval)
         (df : DataFrame),
    encode_categ self = PList (method :: more) ->
    py_truthy method = true ->
    is_str method "auto" = false ->
    length more <> 1%nat ->
    Modules._encode_categ self df
    = match more with
      | [] => Raise IndexError
      | _ :: _ => Ok df
      end.
Proof.
  intros P self method more df Hcfg Htruthy Hauto Hlen.
  unfold Modules._encode_categ, run, Modules._encode_categ_stmt.
  unfold eval at 1. rewrite Hcfg. cbn [py_item nth_error].
  rewrite Htruthy. unfold eval at 1. rewrite Hauto.
  unfold eval at 1. cbn [py_len].
  destruct more as [|second more]; [reflexivity|].
  destruct more as [|third more]; [now elim Hlen|].
  cbn [length Nat.eqb]. unfold eval at 1. cbn [py_item nth_error].
  rewrite for_each_unchanged; [reflexivity|].
  intros c _. apply blanket_body_unchanged.
Qed.

Lemma blanket_encoding_never_encodes_witness :
  Modules._encode_categ (P := reference_pandas)
    {| missings_num := PStr "knn"; missings_categ := PStr "mode";
       encode_categ := PList [PStr "onehot"];
       extract_datetime := PStr "s"; outliers := PStr "winz";
       outlier_param := PFloat (Fin (3 # 2)) |}
    [mkSeries "city" (ObjCol [OStr "a"; OStr "b"])]
  = Raise IndexError.
Proof.
  apply (blanket_encoding_never_encodes reference_pandas _ (PStr "onehot") []);
    [reflexivity | reflexivity | reflexivity | simpl; lia].
Defined.

Lemma in_names_None (cols : list string) (target : pyval) :
  not_a_categorical_name cols target -> Modules.in_names target cols = Ok None.
Proof.
  destruct target as [| b | z | f | s | l]; simpl; try reflexivity; [|tauto].
  intros H. destruct (existsb (String.eqb s) cols) eqn:E; [|reflexivity].
  exfalso. apply H. apply existsb_exists in E. destruct E as [x [Hx Hs]].
  apply String.eqb_eq in Hs. now subst x.
Qed.

(** X2: Targets given by column index, and names of numeric columns, are not
    encoded: with [[method, targets]] where no target is the name of a
    column that is not numeric, [_encode_categ] returns the frame
    unchanged, whatever the method. *)
Theorem index_targets_not_encoded :
  forall (P : Pandas) (self : AutoClean) (method : pyval) (targets : list pyval)
         (df : DataFrame),
    encode_categ self = PList [method; PList targets] ->
    is_str method "auto" = false ->
    Forall (not_a_categorical_name (non_numeric_columns df)) targets ->
    Modules._encode_categ self df = Ok df.
Proof.
  intros P self method targets df Hcfg Hauto Htargets.
  unfold Modules._encode_categ, run, Modules._encode_categ_stmt.
  unfold eval at 1. rewrite Hcfg. cbn [py_item nth_error].
  destruct (py_truthy method); [|reflexivity].
  unfold eval at 1. rewrite Hauto.
  unfold eval at 1. cbn [py_len length Nat.eqb].
  unfold eval at 1. cbn [py_item nth_error bind Modules.py_iter].
  rewrite for_each_unchanged; [reflexivity|].
  intros t Ht. unfold eval.
  rewrite (in_names_None _ t (proj1 (Forall_forall _ _) Htargets t Ht)).
  apply encode_with_self_caught.
Qed.

Lemma index_targets_not_encoded_witness :
  Modules._encode_categ (P := reference_pandas)
    {| missings_num := PStr "knn"; missings_categ := PStr "mode";
       encode_categ := PList [PStr "onehot"; PList [PInt 0; PStr "n"]];
       extract_datetime := PStr "s"; outliers := PStr "winz";
       outlier_param := PFloat (Fin (3 # 2)) |}
    [mkSeries "city" (ObjCol [OStr "a"; OStr "b"]); mkSeries "n" (IntCol [1; 2]%Z)]
  = Ok [mkSeries "city" (ObjCol [OStr "a"; OStr "b"]);
        mkSeries "n" (IntCol [1; 2]%Z)].
Proof.
  apply (index_targets_not_encoded reference_pandas _ (PStr "onehot")
           [PInt 0; PStr "n"]); [reflexivity | reflexivity |].
  constructor; [exact I|]. constructor; [|constructor].
  simpl. intros [H | H]; [discriminate H | exact H].
Defined.

(** X3: A named target: with [[method, [c]]] and [c] a column that is not
    numeric, [_encode_categ] returns what the encoder of the method returns
    on [c], and the frame unchanged when the encoder raises (the failure is
    only logged). *)
Theorem named_target_encoded :
  forall (P : Pandas) (self : AutoClean) (method c : string) (df : DataFrame),
    encode_categ self = PList [PStr method; PList [PStr c]] ->
    String.eqb method "auto" = false ->
    In c (non_numeric_columns df) ->
    Modules._encode_categ self df
    = Ok (if String.eqb method "onehot" then
            match Modules._onehot_encode df c with Ok out => out | Raise _ => df end
          else if String.eqb method "label" then
            match Modules._label_encode df c with Ok out => out | Raise _ => df end
          else df).
Proof.
  intros P self method c df Hcfg Hauto Hc.
  unfold Modules._encode_categ, run, Modules._encode_categ_stmt.
  unfold eval at 1. rewrite Hcfg. cbn [py_item nth_error].
  destruct (py_truthy (PStr method)) eqn:Ht.
  2:{ simpl in Ht. apply negb_false_iff, String.eqb_eq in Ht. now subst method. }
  unfold eval at 1.
  change (is_str (PStr method) "auto") with (String.eqb method "auto").
  rewrite Hauto.
  unfold eval at 1. cbn [py_len length Nat.eqb].
  unfold eval at 1. cbn [py_item nth_error bind Modules.py_iter for_each].
  unfold seq_, eval at 1. cbn [Modules.in_names].
  assert (Hex : existsb (String.eqb c) (non_numeric_columns df) = true).
  { apply existsb_exists. exists c. split; [exact Hc | apply String.eqb_refl]. }
  rewrite Hex. unfold try_except, Modules.encode_with, skip.
  change (is_str (PStr method) "onehot") with (String.eqb method "onehot").
  change (is_str (PStr method) "label") with (String.eqb method "label").
  destruct (String.eqb method "onehot").
  - unfold rebind. now destruct (Modules._onehot_encode df c).
  - destruct (String.eqb method "label"); [|reflexivity].
    unfold rebind. now destruct (Modules._label_encode df c).
Qed.

Lemma named_target_encoded_witness :
  Modules._encode_categ (P := reference_pandas)
    {| missings_num := PStr "knn"; missings_categ := PStr "mode";
       encode_categ := PList [PStr "label"; PList [PStr "city"]];
       extract_datetime := PStr "s"; outliers := PStr "winz";
       outlier_param := PFloat (Fin (3 # 2)) |}
    [mkSeries "city" (ObjCol [OStr "b"; OStr "a"])]
  = Ok [mkSeries "city" (IntCol [1; 0]%Z)].
Proof.
  rewrite (named_target_encoded reference_pandas _ "label" "city");
    [reflexivity | reflexivity | reflexivity | now left].
Defined.

(** ** One-hot encoding *)

Lemma getitem_app_l (a b : DataFrame) (n : string) (d : coldata) :
  getitem a n = Some d -> getitem (a ++ b) n = Some d.
Proof.
  induction a as [|s a IH]; simpl; [discriminate|].
  destruct (String.eqb (col_name s) n); [trivial | exact IH].
Qed.

Lemma getitem_app_r (a b : DataFrame) (n : string) :
  ~ In n (columns a) -> getitem (a ++ b) n = getitem b n.
Proof.
  induction a as [|s a IH]; simpl; [reflexivity|].
  intros H. destruct (String.eqb (col_name s) n) eqn:E.
  - apply String.eqb_eq in E. exfalso. apply H. now left.
  - apply IH. intros Hin. apply H. now right.
Qed.

Lemma prefix_cancel (p x y : string) : (p ++ x = p ++ y)%string -> x = y.
Proof.
  induction p as [|a p IH]; simpl; [trivial|].
  intros H. injection H as H. now apply IH.
Qed.

(** The indicator column of the value [v] of an object column. *)
Lemma getitem_indicator (prefix v : string) (cats : list string)
  (l : list (option string)) :
  In v cats ->
  getitem (indicator (fun s => s) String.eqb prefix cats l)
    (prefix ++ "_" ++ v)
  = Some (IntCol (map (fun o => match o with
                                | Some x => if String.eqb v x then 1%Z else 0%Z
                                | None => 0%Z
                                end) l)).
Proof.
  unfold indicator. induction cats as [|h cats IH]; [intros []|].
  intros Hin. cbn [map getitem col_name col_data].
  destruct (String.eqb (prefix ++ "_" ++ h) (prefix ++ "_" ++ v)) eqn:E.
  - apply String.eqb_eq in E. apply prefix_cancel in E.
    apply (prefix_cancel "_") in E. now subst h.
  - destruct Hin as [-> | Hin]; [now rewrite String.eqb_refl in E | now apply IH].
Qed.

Lemma columns_indicator (prefix : string) (cats : list string)
  (l : list (option string)) :
  columns (indicator (fun s => s) String.eqb prefix cats l)
  = map (fun v => (prefix ++ "_" ++ v)%string) cats.
Proof. unfold columns, indicator. now rewrite map_map. Qed.

Lemma join_eq (df other : DataFrame) :
  (forall n, In n (columns other) -> ~ In n (columns df)) ->
  join df other = Ok (df ++ other).
Proof.
  intros H. unfold join.
  destruct (existsb _ other) eqn:E; [|reflexivity].
  apply existsb_exists in E. destruct E as [s [Hs Hex]].
  apply existsb_exists in Hex. destruct Hex as [n [Hn Heq]].
  apply String.eqb_eq in Heq. exfalso. apply (H n); [|exact Hn].
  rewrite <- Heq. unfold columns. now apply in_map.
Qed.

Lemma join_clash (df other : DataFrame) (n : string) :
  In n (columns other) -> In n (columns df) -> join df other = Raise ValueError.
Proof.
  intros Ho Hd. unfold join.
  replace (existsb _ other) with true; [reflexivity|].
  symmetry. apply existsb_exists. unfold columns in Ho.
  apply in_map_iff in Ho. destruct Ho as [s [Hs Hin]].
  exists s. split; [exact Hin|].
  apply existsb_exists. exists n. split; [exact Hd|].
  rewrite Hs. apply String.eqb_refl.
Qed.

(** X4: One-hot encoding of an object column [c]: when no name [c_v] of an
    indicator is a column of the frame, the result keeps every column of
    the frame (the encoded column included) and appends one indicator per
    distinct value [v], in increasing order of the values; the indicator
    [c_v] holds 1 in the rows whose value is [v] and 0 in the others, the
    rows with a missing value included (they have 0 in every indicator). *)
Theorem onehot_encode_indicators :
  forall (P : Pandas) (df : DataFrame) (c : string) (l : list obj),
    getitem df c = Some (ObjCol l) ->
    (forall v, In (OStr v) l -> ~ In (c ++ "_" ++ v)%string (columns df)) ->
    exists out : DataFrame,
      Modules._onehot_encode df c = Ok out /\
      columns out
      = columns df ++
        map (fun v => (c ++ "_" ++ v)%string)
            (unique String_as_OT.compare (strings_of l)) /\
      (forall c' d, getitem df c' = Some d -> getitem out c' = Some d) /\
      (forall v, In (OStr v) l ->
         getitem out (c ++ "_" ++ v)
         = Some (IntCol (map (fun o => match o with
                                       | OStr s => if String.eqb v s then 1%Z else 0%Z
                                       | ONaN => 0%Z
                                       end) l))).
Proof.
  intros P df c l Hc Hfree.
  unfold Modules._onehot_encode, column. rewrite Hc. cbn [bind get_dummies].
  set (cats := unique String_as_OT.compare (strings_of l)).
  set (cells := map (fun o => match o with OStr s => Some s | ONaN => None end) l).
  assert (Hcats : forall v, In v cats <-> In (OStr v) l).
  { intros v. unfold cats.
    rewrite (In_unique string String_as_OT.compare string_lt
               String_as_OT.lt_strorder string_cmp_spec).
    apply In_strings_of. }
  exists (df ++ indicator (fun s => s) String.eqb c cats cells).
  split; [|split; [|split]].
  - apply join_eq. intros n Hn. rewrite columns_indicator in Hn.
    apply in_map_iff in Hn. destruct Hn as [v [<- Hv]].
    apply Hfree. now apply Hcats.
  - unfold columns at 1. rewrite map_app. fold (columns df).
    fold (columns (indicator (fun s => s) String.eqb c cats cells)).
    now rewrite columns_indicator.
  - intros c' d Hd. now apply getitem_app_l.
  - intros v Hv. rewrite getitem_app_r by now apply Hfree.
    rewrite getitem_indicator by now apply Hcats.
    unfold cells. rewrite map_map. do 2 f_equal.
    apply map_ext. now intros [|s].
Qed.

Lemma onehot_encode_indicators_witness :
  exists out : DataFrame,
    Modules._onehot_encode (P := reference_pandas)
      [mkSeries "city" (ObjCol [OStr "b"; ONaN; OStr "a"; OStr "b"])] "city"
    = Ok out /\
    columns out = ["city"; "city_a"; "city_b"]%string /\
    getitem out "city" = Some (ObjCol [OStr "b"; ONaN; OStr "a"; OStr "b"]) /\
    getitem out "city_a" = Some (IntCol [0; 0; 1; 0]%Z) /\
    getitem out "city_b" = Some (IntCol [1; 0; 0; 1]%Z).
Proof.
  destruct (onehot_encode_indicators reference_pandas
              [mkSeries "city" (ObjCol [OStr "b"; ONaN; OStr "a"; OStr "b"])]
              "city" [OStr "b"; ONaN; OStr "a"; OStr "b"] eq_refl)
    as [out (Hrun & Hcols & Hkeep & Hind)].
  - intros v _ [H | []].
    simpl in H. discriminate H.
  - exists out. split; [exact Hrun|]. split; [exact Hcols|].
    split; [now apply Hkeep|].
    split; [apply (Hind "a"%string) | apply (Hind "b"%string)]; simpl; tauto.
Defined.

(** X5: One-hot encoding fails when an indicator would bear the name of a
    column of the frame: the join raises [ValueError].  A column is in
    particular encoded at most once. *)
Theorem onehot_encode_name_clash :
  forall (P : Pandas) (df : DataFrame) (c v : string) (l : list obj),
    getitem df c = Some (ObjCol l) ->
    In (OStr v) l ->
    In (c ++ "_" ++ v)%string (columns df) ->
    Modules._onehot_encode df c = Raise ValueError.
Proof.
  intros P df c v l Hc Hv Hclash.
  unfold Modules._onehot_encode, column. rewrite Hc. cbn [bind get_dummies].
  apply (join_clash _ _ (c ++ "_" ++ v)%string); [|exact Hclash].
  rewrite columns_indicator.
  apply (in_map (fun v0 => (c ++ "_" ++ v0)%string)).
  rewrite (In_unique string String_as_OT.compare string_lt
             String_as_OT.lt_strorder string_cmp_spec).
  now apply In_strings_of.
Qed.

Lemma onehot_encode_name_clash_witness :
  Modules._onehot_encode (P := reference_pandas)
    [mkSeries "city" (ObjCol [OStr "a"]); mkSeries "city_a" (IntCol [1]%Z)] "city"
  = Raise ValueError.
Proof.
  apply (onehot_encode_name_clash reference_pandas _ "city" "a" [OStr "a"]);
    [reflexivity | now left | simpl; tauto].
Defined.

(** ** Encoding: the method ["auto"] *)

Lemma set_iter_single (P : Pandas) (c : string) :
  set_iter_ok P -> set_iter [c] = [c].
Proof.
  intros H. apply Permutation_length_1_inv. apply Permutation_sym.
  apply H. constructor; [simpl; tauto | constructor].
Qed.

(** X6: The method ["auto"] on a frame with one column [c] that is not
    numeric: a column that reads as dates is skipped; otherwise the column
    is one-hot encoded when it has at most 10 distinct values, label
    encoded when it has 11 to 20, and left as it is beyond.  The encoders
    are not protected here: what they raise, [_encode_categ] raises. *)
Theorem auto_encoding_thresholds :
  forall (P : Pandas) (self : AutoClean) (more : list pyval) (df : DataFrame)
         (c : string) (d : coldata),
    set_iter_ok P ->
    encode_categ self = PList (PStr "auto" :: more) ->
    non_numeric_columns df = [c] ->
    getitem df c = Some d ->
    Modules._encode_categ self df
    = match to_datetime d with
      | Ok _ => Ok df
      | Raise _ =>
          if (nunique d <=? 10)%nat then Modules._onehot_encode df c
          else if (nunique d <=? 20)%nat then Modules._label_encode df c
          else Ok df
      end.
Proof.
  intros P self more df c d Hset Hcfg Hcols Hd.
  unfold Modules._encode_categ, run, Modules._encode_categ_stmt.
  unfold eval at 1. rewrite Hcfg. cbn [py_item nth_error].
  replace (py_truthy (PStr "auto")) with true by reflexivity.
  unfold eval at 1.
  replace (is_str (PStr "auto") "auto") with true by reflexivity.
  rewrite Hcols, (set_iter_single P c Hset). cbn [for_each].
  unfold seq_, try_handle, Modules.probe_datetime, eval, column, skip.
  rewrite Hd. cbn [bind].
  destruct (to_datetime d) as [l|e]; [reflexivity|].
  rewrite Hd. cbn [bind].
  destruct (nunique d <=? 10)%nat.
  - unfold rebind. now destruct (Modules._onehot_encode df c).
  - destruct (nunique d <=? 20)%nat; [|reflexivity].
    unfold rebind. now destruct (Modules._label_encode df c).
Qed.

Lemma auto_encoding_thresholds_witness :
  Modules._encode_categ (P := reference_pandas) defaults
    [mkSeries "n" (IntCol [1; 2]%Z); mkSeries "city" (ObjCol [OStr "b"; OStr "a"])]
  = Ok [mkSeries "n" (IntCol [1; 2]%Z);
        mkSeries "city" (ObjCol [OStr "b"; OStr "a"]);
        mkSeries "city_a" (IntCol [0; 1]%Z);
        mkSeries "city_b" (IntCol [1; 0]%Z)].
Proof.
  rewrite (auto_encoding_thresholds reference_pandas defaults [] _ "city"
             (ObjCol [OStr "b"; OStr "a"]));
    [reflexivity | intros l _; apply Permutation_refl
     | reflexivity | reflexivity | reflexivity].
Defined.

(** ** Datetime extraction: the other cases *)

(** The loop of [_convert_datetime] when one column is converted and the
    others are not dates. *)
Lemma convert_loop_single (P : Pandas) (self : AutoClean) (df out : DataFrame)
  (c : string) :
  set_iter_ok P ->
  py_truthy (extract_datetime self) = true ->
  NoDup (columns df) ->
  In c (non_numeric_columns df) ->
  Modules.convert_one self c df = (out, None) ->
  (forall x d, x <> c -> getitem df x = Some d -> is_number d = false ->
               (exists e, to_datetime d = Raise e) /\ getitem out x = Some d) ->
  Modules._convert_datetime self df = Ok out.
Proof.
  intros Hset Htruthy Hnd Hc Hrun Hothers.
  assert (Hperm : Permutation (set_iter (non_numeric_columns df))
                    (non_numeric_columns df)).
  { apply Hset. unfold non_numeric_columns. now apply NoDup_selected. }
  assert (Hin : In c (set_iter (non_numeric_columns df))).
  { exact (Permutation_in c (Permutation_sym Hperm) Hc). }
  assert (Hnd' : NoDup (set_iter (non_numeric_columns df))).
  { apply (Permutation_NoDup (Permutation_sym Hperm)).
    unfold non_numeric_columns. now apply NoDup_selected. }
  assert (Hfail : forall x,
             In x (set_iter (non_numeric_columns df)) -> x <> c ->
             Modules.convert_one self x df = (df, None) /\
             Modules.convert_one self x out = (out, None)).
  { intros x Hx Hxc.
    apply (Permutation_in x Hperm) in Hx.
    apply (non_numeric_columns_spec df x Hnd) in Hx.
    destruct Hx as [d [Hd Hnum]].
    destruct (Hothers x d Hxc Hd Hnum) as [[e He] Hxd].
    split.
    - exact (convert_one_fails self x df d e Hd He).
    - exact (convert_one_fails self x out d e Hxd He). }
  destruct (in_split c _ Hin) as [pre [post Hsplit]].
  unfold Modules._convert_datetime, run, Modules._convert_datetime_stmt.
  rewrite Htruthy. unfold eval. cbv beta iota.
  rewrite Hsplit in *.
  assert (Hpre : ~ In c pre).
  { intros H. apply NoDup_remove_2 in Hnd'. apply Hnd'. apply in_or_app. now left. }
  assert (Hpost : ~ In c post).
  { intros H. apply NoDup_remove_2 in Hnd'. apply Hnd'. apply in_or_app. now right. }
  rewrite for_each_app.
  rewrite (seq_eq _ _ df df).
  - simpl for_each. rewrite (seq_eq _ _ df out Hrun).
    rewrite for_each_unchanged; [reflexivity|].
    intros x Hx. apply Hfail.
    + apply in_or_app. right. now right.
    + intros ->. contradiction.
  - apply for_each_unchanged. intros x Hx. apply Hfail.
    + apply in_or_app. now left.
    + intros ->. contradiction.
Qed.

(** X7: Columns that do not read as dates are left alone: when no column that
    is not numeric can be converted, [_convert_datetime] returns the frame
    unchanged (no derived column is added), whatever the granularity. *)
Theorem convert_datetime_no_dates :
  forall (P : Pandas) (self : AutoClean) (df : DataFrame),
    set_iter_ok P ->
    NoDup (columns df) ->
    (forall c d, getitem df c = Some d -> is_number d = false ->
                 exists e, to_datetime d = Raise e) ->
    Modules._convert_datetime self df = Ok df.
Proof.
  intros P self df Hset Hnd Hfail.
  unfold Modules._convert_datetime, run, Modules._convert_datetime_stmt.
  destruct (py_truthy (extract_datetime self)); [|reflexivity].
  unfold eval. rewrite for_each_unchanged; [reflexivity|].
  intros c Hc.
  apply (Permutation_in c (Hset _ (NoDup_selected _ df Hnd))) in Hc.
  apply (non_numeric_columns_spec df c Hnd) in Hc.
  destruct Hc as [d [Hd Hnum]]. destruct (Hfail c d Hd Hnum) as [e He].
  exact (convert_one_fails self c df d e Hd He).
Qed.

Lemma convert_datetime_no_dates_witness :
  Modules._convert_datetime (P := reference_pandas) defaults
    [mkSeries "n" (IntCol [1; 2]%Z); mkSeries "city" (ObjCol [OStr "b"; OStr "a"])]
  = Ok [mkSeries "n" (IntCol [1; 2]%Z);
        mkSeries "city" (ObjCol [OStr "b"; OStr "a"])].
Proof.
  apply (convert_datetime_no_dates reference_pandas).
  - intros l _. apply Permutation_refl.
  - constructor; [simpl; intros [H | []]; discriminate H|].
    constructor; [simpl; tauto | constructor].
  - intros c d. cbn [getitem col_name col_data].
    destruct (String.eqb "n" c); [intros [= <-]; discriminate|].
    destruct (String.eqb "city" c); [|discriminate].
    intros [= <-] _. exists ValueError. reflexivity.
Defined.

(** *** Granularities coarser than the second *)

(** The check of the extracted columns changes nothing when there is no
    [Sec] column: reading it raises, and the handler passes. *)
Lemma cleanup_without_seconds (df : DataFrame) (ts : list datetime) :
  getitem df "Sec" = None ->
  getitem df "Hour" = None \/ getitem df "Hour" = Some (IntCol (map dt_hour ts)) ->
  getitem df "Minute" = None \/
  getitem df "Minute" = Some (IntCol (map dt_minute ts)) ->
  getitem df "Day" = Some (IntCol (map dt_day ts)) ->
  (ts <> [] -> forallb (fun z => (z =? 0)%Z) (map dt_day ts) = false) ->
  try_except Modules.cleanup df = (df, None).
Proof.
  intros Hsec Hhour Hminute Hday Hdays.
  unfold try_except, Modules.cleanup. unfold eval at 1.
  unfold all_zero at 1 2 3, column. rewrite Hsec.
  assert (Helse :
            fst (eval (fun df0 =>
                         Modules.and_then (all_zero df0 "Day")
                           (Modules.and_then (all_zero df0 "Month")
                              (all_zero df0 "Year")))
                   (fun no_date =>
                      if no_date then
                        drop_column "Day" >> drop_column "Month" >> drop_column "Year"
                      else skip) df) = df \/ ts = []).
  { destruct ts as [|t ts']; [now right|]. left.
    unfold eval. rewrite (all_zero_IntCol df "Day" _ Hday).
    rewrite Hdays by discriminate. reflexivity. }
  destruct Hhour as [-> | ->]; [reflexivity|]. cbn [bind Modules.and_then].
  destruct (forallb (fun z => (z =? 0)%Z) (map dt_hour ts)) eqn:Eh.
  - destruct Hminute as [-> | ->]; [reflexivity|]. cbn [bind Modules.and_then].
    destruct (forallb (fun z => (z =? 0)%Z) (map dt_minute ts)) eqn:Em;
      [reflexivity|].
    destruct Helse as [-> | ->]; [reflexivity | discriminate Em].
  - destruct Helse as [-> | ->]; [reflexivity | discriminate Eh].
Qed.

Ltac run_stmt :=
  lazymatch goal with
  | |- (_ >> _) _ = _ => erewrite seq_eq; [| run_stmt]; run_stmt
  | |- Modules.extract _ _ _ _ = _ => eapply extract_eq; read_column
  | |- skip _ = _ => reflexivity
  | |- _ => idtac
  end.

Section CoarserGranularity.

Context {P : Pandas}.

Hypothesis parse_ok : parse_iso_ok P.

Variable self : AutoClean.
Variable c g : string.
Variable strs : list string.
Variable ts : list datetime.
Variable df : DataFrame.

Hypothesis granularity : extract_datetime self = PStr g.
Hypothesis coarse : In g ["D"; "M"; "Y"; "h"; "m"]%string.
Hypothesis source : getitem df c = Some (ObjCol (map OStr strs)).
Hypothesis parsed : Forall2 (fun s t => parse_iso s = Some t) strs ts.
Hypothesis no_derived : forall n, In n derived_names -> getitem df n = None.

Lemma source_not_derived : ~ In c derived_names.
Proof. intros H. apply no_derived in H. congruence. Qed.

Lemma convert_one_coarse :
  exists out : DataFrame,
    Modules.convert_one self c df = (out, None) /\
    getitem out c = Some (DateCol (map Some ts)) /\
    getitem out "Day" = Some (IntCol (map dt_day ts)) /\
    getitem out "Month"
    = (if existsb (String.eqb g) ["M"; "Y"; "h"; "m"]%string
       then Some (IntCol (map dt_month ts)) else None) /\
    getitem out "Year"
    = (if existsb (String.eqb g) ["Y"; "h"; "m"]%string
       then Some (IntCol (map dt_year ts)) else None) /\
    getitem out "Hour"
    = (if existsb (String.eqb g) ["h"; "m"]%string
       then Some (IntCol (map dt_hour ts)) else None) /\
    getitem out "Minute"
    = (if String.eqb g "m" then Some (IntCol (map dt_minute ts)) else None) /\
    getitem out "Sec" = None /\
    (forall n : string,
        n <> c -> ~ In n derived_names -> getitem out n = getitem df n).
Proof.
  pose proof source_not_derived as Hc.
  pose proof (no_derived "Day" ltac:(simpl; tauto)) as HDay.
  pose proof (no_derived "Month" ltac:(simpl; tauto)) as HMonth.
  pose proof (no_derived "Year" ltac:(simpl; tauto)) as HYear.
  pose proof (no_derived "Hour" ltac:(simpl; tauto)) as HHour.
  pose proof (no_derived "Minute" ltac:(simpl; tauto)) as HMinute.
  pose proof (no_derived "Sec" ltac:(simpl; tauto)) as HSec.
  assert (Hdays : ts <> [] -> forallb (fun z => (z =? 0)%Z) (map dt_day ts) = false).
  { intros Hne. destruct parsed as [|s t strs' ts' Hst _]; [contradiction|].
    simpl. now rewrite (parse_iso_day s t Hst). }
  assert (Hfirst :
            eval (fun df0 => d <- column df0 c ;; to_datetime d)
              (fun l => assign c (DateCol l)) df
            = (setitem df c (DateCol (map Some ts)), None)).
  { unfold eval, column. rewrite source. cbv beta iota delta [bind].
    now rewrite (to_datetime_iso parse_ok strs ts parsed). }
  unfold Modules.convert_one. rewrite granularity.
  destruct coarse as [<- | [<- | [<- | [<- | [<- | []]]]]];
    repeat match goal with
      | |- context [py_in ?a ?b] =>
          let v := eval vm_compute in (py_in a b) in change (py_in a b) with v
      end;
    cbv iota;
    (eexists; split;
     [ eapply try_except_eq; rewrite (seq_eq _ _ _ _ Hfirst); run_stmt;
       apply (cleanup_without_seconds _ ts);
       [ read_column
       | first [ left; read_column; fail | right; read_column; fail ]
       | first [ left; read_column; fail | right; read_column; fail ]
       | read_column
       | exact Hdays ]
     | cbn [existsb String.eqb Ascii.eqb Bool.eqb orb];
       repeat split; try (intros n Hn1 Hn2); read_column ]).
Qed.

End CoarserGranularity.



(** ** Validation *)

Lemma guard_Ok (c : bool) (e : exn) (k : result unit) :
  ((if c then Raise e else Ok tt) ;;; k) = Ok tt <-> c = false /\ k = Ok tt.
Proof.
  destruct c; simpl; split; try tauto; try discriminate.
  intros [H _]. discriminate H.
Qed.

Lemma str_in_spec (v : pyval) (names : list string) :
  str_in v names = true <-> exists s, v = PStr s /\ In s names.
Proof.
  destruct v as [| b | z | f | s | l]; simpl;
    try (split; [discriminate | intros [s0 [H _]]; discriminate H]).
  rewrite existsb_exists. split.
  - intros [x [Hx Hs]]. apply String.eqb_eq in Hs. subst x. eauto.
  - intros [s0 [[= <-] Hin]]. exists s. split; [exact Hin | apply String.eqb_refl].
Qed.

Lemma py_in_spec (v : pyval) (names : list string) :
  py_in v names = true <-> exists s, v = PStr s /\ In s names.
Proof.
  unfold py_in. rewrite existsb_exists. split.
  - intros [x [Hx Hs]]. apply is_str_eq in Hs. eauto.
  - intros [s [-> Hin]]. exists s. split; [exact Hin|].
    unfold is_str. simpl. apply String.eqb_refl.
Qed.

(** A parameter passes its check when it equals [False] or is one of the
    names. *)
Lemma method_check (member : bool) (v : pyval) (names : list string) :
  (member = true <-> exists s, v = PStr s /\ In s names) ->
  (AutoClean.not_False v && negb member = false <->
   py_eq v (PBool false) = true \/ exists s, v = PStr s /\ In s names).
Proof.
  intros Hm. unfold AutoClean.not_False.
  destruct (py_eq v (PBool false)) eqn:E; simpl.
  - split; auto.
  - rewrite negb_false_iff, Hm. split; [auto|].
    intros [H | H]; [discriminate H | exact H].
Qed.

(** X9: What validation accepts, for a configuration whose [encode_categ] is a
    list: each of [missings_num], [missings_categ], [outliers] and
    [extract_datetime] equals [False] or is one of its names,
    [outlier_param] is a number, and the second element of a two-element
    [encode_categ] is a list.  Nothing is asked of the encoding method, nor
    of a list of another length. *)
Theorem validate_params_accepts :
  forall (self : AutoClean) (enc : list pyval),
    encode_categ self = PList enc ->
    (AutoClean._validate_params self = Ok tt <->
     (py_eq (missings_num self) (PBool false) = true \/
      exists s, missings_num self = PStr s /\
                In s ["knn"; "mean"; "median"; "mode"; "delete"]%string) /\
     (py_eq (missings_categ self) (PBool false) = true \/
      exists s, missings_categ self = PStr s /\ In s ["mode"; "delete"]%string) /\
     (py_eq (outliers self) (PBool false) = true \/
      exists s, outliers self = PStr s /\ In s ["winz"; "delete"]%string) /\
     (length enc = 2%nat -> exists targets, nth_error enc 1 = Some (PList targets)) /\
     (exists k, py_number (outlier_param self) = Some k) /\
     (py_eq (extract_datetime self) (PBool false) = true \/
      exists s, extract_datetime self = PStr s /\
                In s ["D"; "M"; "Y"; "h"; "m"; "s"]%string)).
Proof.
  intros self enc Henc. unfold AutoClean._validate_params.
  rewrite !guard_Ok, Henc. cbn [py_len bind is_list negb andb].
  rewrite andb_false_r.
  rewrite (method_check _ _ _ (str_in_spec (missings_num self) _)).
  rewrite (method_check _ _ _ (str_in_spec (missings_categ self) _)).
  rewrite (method_check _ _ _ (str_in_spec (outliers self) _)).
  assert (Hsecond :
            ((if (length enc =? 2)%nat
              then second <- py_item (PList enc) 1 ;;
                   (if negb (is_list second) then Raise ValueError else Ok tt)
              else Ok tt) = Ok tt)
            <-> (length enc = 2%nat ->
                 exists targets, nth_error enc 1 = Some (PList targets))).
  { destruct (Nat.eqb_spec (length enc) 2) as [E | E].
    - cbn [py_item]. destruct (nth_error enc 1) as [x|] eqn:Ex; cbn [bind].
      + destruct x as [| b | z | f | s | l]; simpl;
          try (split; [discriminate | intros H; destruct (H E) as [t [=]]]).
        split; eauto.
      + split; [discriminate | intros H; destruct (H E) as [t [=]]].
    - split; [intros _ H; contradiction | reflexivity]. }
  assert (Hparam :
            forall k : result unit,
              (match outlier_param self with
               | PBool _ | PInt _ | PFloat _ => Ok tt
               | _ => Raise ValueError
               end ;;; k) = Ok tt
              <-> (exists x, py_number (outlier_param self) = Some x) /\ k = Ok tt).
  { intros k. destruct (outlier_param self) as [| b | z | f | s | l]; simpl;
      try (split; [discriminate | intros [[x [=]] _]]);
      (split; [intros H; split; [eauto | exact H] | tauto]). }
  assert (Hlast :
            (if AutoClean.not_False (extract_datetime self) &&
                negb (py_in (extract_datetime self)
                        ["D"; "M"; "Y"; "h"; "m"; "s"]%string)
             then Raise ValueError else Ok tt) = Ok tt
            <-> (py_eq (extract_datetime self) (PBool false) = true \/
                 exists s, extract_datetime self = PStr s /\
                           In s ["D"; "M"; "Y"; "h"; "m"; "s"]%string)).
  { rewrite <- (method_check _ _ _ (py_in_spec (extract_datetime self) _)).
    destruct (AutoClean.not_False (extract_datetime self) && _);
      split; congruence. }
  set (rest := (match outlier_param self with
                | PBool _ | PInt _ | PFloat _ => Ok tt
                | _ => Raise ValueError
                end ;;; _)).
  assert (Hrest : rest = Ok tt <->
                  (exists x, py_number (outlier_param self) = Some x) /\
                  (py_eq (extract_datetime self) (PBool false) = true \/
                   exists s, extract_datetime self = PStr s /\
                             In s ["D"; "M"; "Y"; "h"; "m"; "s"]%string)).
  { unfold rest. rewrite Hparam, Hlast. reflexivity. }
  clearbody rest.
  destruct (if (length enc =? 2)%nat
            then second <- py_item (PList enc) 1 ;;
                 (if negb (is_list second) then Raise ValueError else Ok tt)
            else Ok tt) as [[]|e] eqn:Es; cbn [bind].
  - rewrite Hrest. intuition.
  - split; [intros (_ & _ & _ & H); discriminate H|].
    intros (_ & _ & _ & H & _).
    apply Hsecond in H. discriminate H.
Qed.

Lemma validate_params_accepts_witness :
  AutoClean._validate_params defaults = Ok tt.
Proof.
  apply (proj2 (validate_params_accepts defaults [PStr "auto"] eq_refl)).
  split; [right; exists "knn"%string; simpl; tauto|].
  split; [right; exists "mode"%string; simpl; tauto|].
  split; [right; exists "winz"%string; simpl; tauto|].
  split; [simpl; discriminate|].
  split; [eexists; reflexivity|].
  right. exists "s"%string. simpl. tauto.
Defined.

(** X10: An [encode_categ] that is not a list, in a configuration whose first
    three parameters pass their checks: [False], [None] or a number has no
    length, and validation raises [TypeError] (encoding cannot be switched
    off by [encode_categ=False]); a string of two characters or more, such
    as ['onehot'] or ['auto'] without the brackets, is rejected with
    [ValueError]. *)
Theorem validate_params_encode_not_list :
  forall self : AutoClean,
    (py_eq (missings_num self) (PBool false) = true \/
     exists s, missings_num self = PStr s /\
               In s ["knn"; "mean"; "median"; "mode"; "delete"]%string) ->
    (py_eq (missings_categ self) (PBool false) = true \/
     exists s, missings_categ self = PStr s /\ In s ["mode"; "delete"]%string) ->
    (py_eq (outliers self) (PBool false) = true \/
     exists s, outliers self = PStr s /\ In s ["winz"; "delete"]%string) ->
    match encode_categ self with
    | PList _ => True
    | PStr s =>
        (2 <= String.length s)%nat ->
        AutoClean._validate_params self = Raise ValueError
    | _ => AutoClean._validate_params self = Raise TypeError
    end.
Proof.
  intros self H1 H2 H3.
  apply (method_check _ _ _ (str_in_spec (missings_num self) _)) in H1.
  apply (method_check _ _ _ (str_in_spec (missings_categ self) _)) in H2.
  apply (method_check _ _ _ (str_in_spec (outliers self) _)) in H3.
  unfold AutoClean._validate_params. rewrite H1, H2, H3. cbn [bind].
  destruct (encode_categ self) as [| b | z | f | s | l]; try reflexivity;
    try exact I.
  intros Hlen. cbn [py_len bind is_list negb].
  destruct s as [|a [|b s]]; simpl in Hlen; try lia.
  destruct s as [|c s].
  - (* two characters: the second one is not a list *)
    reflexivity.
  - (* more: the first character is not a method *)
    cbn [String.length Nat.ltb Nat.leb andb py_item String.get bind].
    replace (AutoClean.not_False (PStr (String a ""))) with true by reflexivity.
    replace (py_in (PStr (String a "")) ["auto"; "onehot"; "label"]%string)
      with false; [reflexivity|].
    unfold py_in, is_str. simpl.
    now repeat destruct (Ascii.eqb a _).
Qed.

Lemma validate_params_encode_not_list_witness :
  AutoClean._validate_params
    {| missings_num := PStr "knn"; missings_categ := PStr "mode";
       encode_categ := PBool false;
       extract_datetime := PStr "s"; outliers := PStr "winz";
       outlier_param := PFloat (Fin (3 # 2)) |}
  = Raise TypeError.
Proof.
  apply (validate_params_encode_not_list
           {| missings_num := PStr "knn"; missings_categ := PStr "mode";
              encode_categ := PBool false;
              extract_datetime := PStr "s"; outliers := PStr "winz";
              outlier_param := PFloat (Fin (3 # 2)) |}).
  - right. exists "knn"%string. simpl. tauto.
  - right. exists "mode"%string. simpl. tauto.
  - right. exists "winz"%string. simpl. tauto.
Defined.

(** ** Missing values: the numeric stage *)

Lemma equals_False_falsy (v : pyval) :
  py_eq v (PBool false) = true -> py_truthy v = false.
Proof.
  destruct v as [| b | z | f | s | l]; simpl; try discriminate.
  - destruct b; [discriminate | reflexivity].
  - unfold feqb, of_int. intros H. apply Qeq_bool_iff in H.
    unfold Qeq in H. simpl in H. replace z with 0%Z by lia. reflexivity.
  - intros ->. reflexivity.
Qed.

(** A loop of protected bodies never raises, and keeps what each body
    keeps. *)
Lemma for_each_protected {A : Type} (Inv : DataFrame -> Prop)
  (body : A -> stmt) (l : list A) :
  (forall x df, Inv df -> Inv (fst (body x df))) ->
  forall df, Inv df ->
    exists out, for_each l (fun x => try_except (body x)) df = (out, None) /\ Inv out.
Proof.
  intros Hbody. induction l as [|x t IH]; intros df Hdf; simpl.
  - exists df. split; [reflexivity | exact Hdf].
  - unfold seq_, try_except at 1. apply IH. now apply Hbody.
Qed.

Lemma columns_assign (c : string) (d d0 : coldata) (df : DataFrame) :
  getitem df c = Some d0 -> columns (setitem df c d) = columns df.
Proof. intros H. apply columns_setitem. now apply getitem_columns with d0. Qed.

Lemma impute_num_columns (imp : imputer) (c : string) (df : DataFrame) :
  columns (fst (Modules.impute_num imp c df)) = columns df.
Proof.
  unfold Modules.impute_num, eval, column.
  destruct (getitem df c) as [d|] eqn:Hd; [|reflexivity]. cbn [bind].
  destruct (fit_transform imp d) as [imputed|e]; [|reflexivity].
  destruct (all_integral d).
  - unfold seq_, assign. rewrite getitem_setitem_same. cbn [bind].
    destruct (astype_int imputed) as [d2|e]; cbn [fst].
    + rewrite setitem_setitem. now apply columns_assign with d.
    + now apply columns_assign with d.
  - unfold assign. cbn [fst]. now apply columns_assign with d.
Qed.

Lemma columns_dropna (df : DataFrame) : columns (dropna df) = columns df.
Proof. unfold dropna, columns. rewrite map_map. reflexivity. Qed.

(** X11: After validation the numeric stage always returns a frame, with the
    columns of its input: a failure of the imputer on a column is caught,
    and the method is one the stage knows. *)
Theorem missings_num_never_raises :
  forall (self : AutoClean) (df : DataFrame),
    AutoClean._validate_params self = Ok tt ->
    exists out : DataFrame,
      Modules._check_missings_num self df = Ok out /\
      columns out = columns df.
Proof.
  intros self df Hvalid.
  assert (Hm : py_eq (missings_num self) (PBool false) = true \/
               exists s, missings_num self = PStr s /\
                         In s ["knn"; "mean"; "median"; "mode"; "delete"]%string).
  { unfold AutoClean._validate_params in Hvalid.
    apply guard_Ok in Hvalid. destruct Hvalid as [H _].
    now apply (method_check _ _ _ (str_in_spec (missings_num self) _)) in H. }
  unfold Modules._check_missings_num, run, Modules._check_missings_num_stmt.
  destruct Hm as [Hfalse | [s [Hs Hin]]].
  { rewrite (equals_False_falsy _ Hfalse). exists df. now split. }
  rewrite Hs.
  assert (Himpute : forall imp,
             exists out,
               eval (fun df0 => Ok (numeric_columns df0))
                 (fun cols => for_each cols (fun col_name =>
                    try_except (Modules.impute_num imp col_name))) df
               = (out, None) /\ columns out = columns df).
  { intros imp. unfold eval.
    apply (for_each_protected (fun x => columns x = columns df)); [|reflexivity].
    intros c df0 H0. now rewrite impute_num_columns. }
  destruct Hin as [<- | [<- | [<- | [<- | [<- | []]]]]];
    (replace (py_truthy (PStr _)) with true by reflexivity);
    unfold eval at 1; cbn [upper]; unfold eval at 1;
    (destruct (count_missings df =? 0)%nat; cbn [negb];
     [exists df; now split|]);
    repeat match goal with
      | |- context [is_str ?a ?b] =>
          let v := eval vm_compute in (is_str a b) in change (is_str a b) with v
      end; cbv iota.
  - destruct (Himpute (KNNImputer 3)) as [out [Hrun Hcols]].
    exists out. now rewrite Hrun.
  - destruct (Himpute (SimpleImputer mean)) as [out [Hrun Hcols]].
    exists out. now rewrite Hrun.
  - destruct (Himpute (SimpleImputer median)) as [out [Hrun Hcols]].
    exists out. now rewrite Hrun.
  - destruct (Himpute (SimpleImputer most_frequent_)) as [out [Hrun Hcols]].
    exists out. now rewrite Hrun.
  - exists (dropna df). split; [reflexivity | apply columns_dropna].
Qed.

Lemma missings_num_never_raises_witness :
  exists out : DataFrame,
    Modules._check_missings_num defaults example_frame
    = Ok out /\
    columns out = ["x"]%string.
Proof.
  exact (missings_num_never_raises defaults example_frame
           eq_refl).
Defined.

(** *** Deletion of the rows with a missing value *)

Lemma select_map {A B : Type} (f : A -> B) (mask : list bool) (l : list A) :
  select mask (map f l) = map f (select mask l).
Proof.
  revert l. induction mask as [|b mask IH]; intros [|x l]; simpl; trivial.
  destruct b; simpl; now rewrite IH.
Qed.

Lemma isna_select_rows (mask : list bool) (d : coldata) :
  isna (select_rows mask d) = select mask (isna d).
Proof. destruct d; simpl; now rewrite select_map. Qed.

Lemma count_true_select (mask flags : list bool) :
  (forall i, nth i mask false = true -> nth i flags false = false) ->
  count_true (select mask flags) = 0%nat.
Proof.
  unfold count_true.
  revert flags. induction mask as [|b mask IH]; intros [|x flags] H; simpl; trivial.
  assert (Htail : forall i, nth i mask false = true -> nth i flags false = false).
  { intros i Hi. exact (H (S i) Hi). }
  destruct b; [|now apply IH].
  pose proof (H 0%nat eq_refl) as Hx. simpl in Hx. subst x. simpl. now apply IH.
Qed.

Lemma nth_map_seq (g : nat -> bool) (n i : nat) :
  nth i (map g (seq 0 n)) false = true -> g i = true.
Proof.
  intros H. destruct (Nat.lt_ge_cases i n) as [Hlt | Hge].
  - rewrite (nth_indep _ false (g 0%nat)) in H by now rewrite length_map, length_seq.
    rewrite (map_nth g (seq 0 n) 0%nat i) in H. now rewrite seq_nth in H.
  - rewrite nth_overflow in H; [discriminate|].
    now rewrite length_map, length_seq.
Qed.

Lemma count_missings_zero (df : DataFrame) :
  (forall s, In s df -> count_true (isna (col_data s)) = 0%nat) ->
  count_missings df = 0%nat.
Proof.
  unfold count_missings. induction df as [|s df IH]; intros H; simpl; [reflexivity|].
  rewrite (H s) by now left. rewrite IH; [reflexivity|].
  intros s' Hs'. apply H. now right.
Qed.

(** No missing value is left after [dropna]. *)
Lemma count_missings_dropna (df : DataFrame) : count_missings (dropna df) = 0%nat.
Proof.
  apply count_missings_zero. intros s Hs. unfold dropna in Hs.
  apply in_map_iff in Hs. destruct Hs as [s0 [<- Hs0]]. cbn [col_data].
  rewrite isna_select_rows. apply count_true_select.
  intros i Hi. apply nth_map_seq in Hi. apply negb_true_iff in Hi.
  unfold row_has_na in Hi.
  destruct (nth i (isna (col_data s0)) false) eqn:E; [|reflexivity].
  assert (Hex : existsb (fun s => nth i (isna (col_data s)) false) df = true).
  { apply existsb_exists. now exists s0. }
  congruence.
Qed.

(** X12: The method ['delete'] of the numeric stage leaves no missing value in
    the frame, in any column: a row is deleted for a missing value in a
    categorical column as well.  The columns are kept. *)
Theorem missings_num_delete_leaves_none :
  forall (self : AutoClean) (df : DataFrame),
    missings_num self = PStr "delete" ->
    exists out : DataFrame,
      Modules._check_missings_num self df = Ok out /\
      columns out = columns df /\
      count_missings out = 0%nat.
Proof.
  intros self df Hm.
  unfold Modules._check_missings_num, run, Modules._check_missings_num_stmt.
  rewrite Hm. replace (py_truthy (PStr "delete")) with true by reflexivity.
  unfold eval at 1. cbn [upper]. unfold eval at 1.
  destruct (count_missings df =? 0)%nat eqn:E; cbn [negb].
  - exists df. apply Nat.eqb_eq in E. now repeat split.
  - repeat match goal with
      | |- context [is_str ?a ?b] =>
          let v := eval vm_compute in (is_str a b) in change (is_str a b) with v
      end; cbv iota.
    exists (dropna df). split; [reflexivity|].
    split; [apply columns_dropna | apply count_missings_dropna].
Qed.

Lemma missings_num_delete_leaves_none_witness :
  exists out : DataFrame,
    Modules._check_missings_num
      {| missings_num := PStr "delete"; missings_categ := PStr "mode";
         encode_categ := PList [PStr "auto"];
         extract_datetime := PStr "s"; outliers := PStr "winz";
         outlier_param := PFloat (Fin (3 # 2)) |}
      [mkSeries "x" (FloatCol [Fin 1; Fin 2; NaN]);
       mkSeries "city" (ObjCol [ONaN; OStr "a"; OStr "b"])]
    = Ok out /\
    columns out = ["x"; "city"]%string /\
    count_missings out = 0%nat.
Proof.
  apply (missings_num_delete_leaves_none
           {| missings_num := PStr "delete"; missings_categ := PStr "mode";
              encode_categ := PList [PStr "auto"];
              extract_datetime := PStr "s"; outliers := PStr "winz";
              outlier_param := PFloat (Fin (3 # 2)) |}).
  reflexivity.
Defined.

(** *** Imputation of the numeric columns *)

Lemma length_fillna (v : float) (l : list float) :
  length (fillna v l) = length l.
Proof. unfold fillna. apply length_map. Qed.

Lemma nth_error_fillna (v : float) (l : list float) (i : nat) (q : Q) :
  nth_error l i = Some (Fin q) -> nth_error (fillna v l) i = Some (Fin q).
Proof.
  intros H. unfold fillna.
  now rewrite (map_nth_error _ _ _ H).
Qed.

Lemma existsb_isnan_fillna (q : Q) (l : list float) :
  existsb isnan (fillna (Fin q) l) = false.
Proof.
  unfold fillna. induction l as [|x l IH]; simpl; [reflexivity|].
  rewrite IH. now destruct x.
Qed.

Lemma median_of_finite (obs : list Q) :
  obs <> [] -> exists q, median_of obs = Fin q.
Proof.
  intros Hne. unfold median_of.
  assert (Hlen : (0 < length obs)%nat) by (destruct obs; simpl; [contradiction | lia]).
  rewrite sorted_map_Fin.
  assert (Hhalf : (length obs / 2 < length obs)%nat) by (apply Nat.div_lt; lia).
  rewrite !nth_map_Fin by (rewrite length_spec_sort; lia).
  destruct (Nat.even (length obs)); simpl; eauto.
Qed.

(** What the imputer returns on a float column with an observed value. *)
Lemma fit_transform_observed (imp : imputer) (l : list float) :
  finite_values l <> [] ->
  exists q, fit_transform imp (FloatCol l) = Ok (FloatCol (fillna (Fin q) l)).
Proof.
  intros Hne. unfold fit_transform.
  destruct (finite_values l) as [|q0 obs] eqn:E; [contradiction|].
  destruct imp as [n | [ | | ]]; eauto.
  - destruct (median_of_finite (q0 :: obs)) as [q Hq]; [discriminate|].
    rewrite Hq. eauto.
  - simpl. eauto.
Qed.

Lemma imputed_from_same (d : coldata) :
  existsb isnan (fv d) = false -> imputed_from d d.
Proof.
  intros H. split; [reflexivity|]. split; [|split; trivial].
  intros i q Hq. exists q. split; [exact Hq | reflexivity].
Qed.

Lemma imputed_from_unobserved (d : coldata) :
  finite_values (fv d) = [] -> imputed_from d d.
Proof.
  intros H. split; [reflexivity|]. split; [|split; [congruence | trivial]].
  intros i q Hq. exists q. split; [exact Hq | reflexivity].
Qed.

Lemma fv_FloatCol (l : list float) : fv (FloatCol l) = l.
Proof. reflexivity. Qed.

(** One column of the loop: the protected body writes a column imputed
    from the one it read. *)
Lemma impute_num_column (imp : imputer) (c : string) (df : DataFrame)
  (d : coldata) :
  getitem df c = Some d -> is_number d = true ->
  exists d',
    try_except (Modules.impute_num imp c) df = (setitem df c d', None) /\
    is_number d' = true /\ imputed_from d d'.
Proof.
  intros Hd Hnum. unfold try_except, Modules.impute_num.
  unfold eval at 1. unfold column at 1. rewrite Hd. cbn [bind].
  destruct d as [l | l | l | l | l]; try discriminate.
  - (* int64: nothing is missing *)
    exists (IntCol l). split; [|split; [reflexivity|]].
    2:{ apply imputed_from_same. rewrite fv_IntCol.
        apply existsb_isnan_map_of_int. }
    destruct l as [|z l]; [simpl; now rewrite (setitem_getitem df c _ Hd)|].
    assert (Hcast : forall imputed,
               astype_int imputed = Ok (IntCol (z :: l)) ->
               fst ((eval (fun df0 => column df0 c)
                       (fun d0 =>
                          if all_integral d0 then
                            assign c imputed >>
                            eval (fun df0 => d1 <- column df0 c ;; astype_int d1)
                              (fun d2 => assign c d2)
                          else assign c imputed)) df)
               = setitem df c (IntCol (z :: l))).
    { intros imputed Hi. unfold eval, column. rewrite Hd. cbn [all_integral].
      unfold seq_, assign. rewrite getitem_setitem_same. cbn [bind].
      rewrite Hi. cbn [fst]. apply setitem_setitem. }
    destruct imp as [n | [ | | ]]; cbn [fit_transform]; f_equal; apply Hcast;
      try reflexivity;
      cbn [astype_int]; rewrite existsb_isnan_map_of_int, map_trunc_of_int;
      reflexivity.
  - (* float64 *)
    destruct (finite_values l) as [|q0 obs] eqn:Eobs.
    + exists (FloatCol l). split; [|split; [reflexivity|]].
      * unfold fit_transform. rewrite Eobs. cbn [fst].
        now rewrite (setitem_getitem df c _ Hd).
      * now apply imputed_from_unobserved.
    + destruct (fit_transform_observed imp l) as [q Hq]; [congruence|].
      rewrite Hq. unfold eval at 1. unfold column at 1. rewrite Hd.
      cbn [all_integral].
      destruct (forallb integral l) eqn:Eint.
      * exists (IntCol (map trunc (fillna (Fin q) l))).
        split; [|split; [reflexivity|]].
        -- unfold seq_, assign, eval, column. rewrite getitem_setitem_same.
           cbn [bind astype_int]. rewrite existsb_isnan_fillna. cbn [fst].
           now rewrite setitem_setitem.
        -- unfold imputed_from. rewrite fv_IntCol, fv_FloatCol.
           split; [now rewrite !length_map, length_fillna|].
           split; [|split; [intros _; apply existsb_isnan_map_of_int | congruence]].
           intros i x Hx. exists (inject_Z (Qtrunc x)). split.
           ++ apply (nth_error_fillna (Fin q)) in Hx as Hx'.
              rewrite (map_nth_error of_int i _ (map_nth_error trunc i _ Hx')). reflexivity.
           ++ apply Qintegral_trunc.
              apply nth_error_In in Hx.
              exact (proj1 (forallb_forall _ _) Eint _ Hx).
      * exists (FloatCol (fillna (Fin q) l)).
        split; [reflexivity|]. split; [reflexivity|].
        unfold imputed_from. rewrite !fv_FloatCol.
        split; [apply length_fillna|].
        split; [|split; [intros _; apply existsb_isnan_fillna | congruence]].
        intros i x Hx. exists x. split; [now apply nth_error_fillna | reflexivity].
Qed.

Lemma count_true_isnan (l : list float) :
  count_true (map isnan l) = 0%nat -> existsb isnan l = false.
Proof.
  unfold count_true. induction l as [|x l IH]; simpl; [reflexivity|].
  destruct (isnan x); simpl; [discriminate | exact IH].
Qed.

Lemma count_missings_In (df : DataFrame) (s : Series) :
  count_missings df = 0%nat -> In s df -> count_true (isna (col_data s)) = 0%nat.
Proof.
  unfold count_missings. induction df as [|s0 df IH]; simpl; [tauto|].
  intros H [-> | Hin]; [lia | apply IH; [lia | exact Hin]].
Qed.

(** A frame without missing value has no NaN in its numeric columns. *)
Lemma no_missing_no_nan (df : DataFrame) (c : string) (d : coldata) :
  count_missings df = 0%nat -> getitem df c = Some d -> is_number d = true ->
  existsb isnan (fv d) = false.
Proof.
  intros H0 Hd Hnum.
  pose proof (count_missings_In df _ H0 (getitem_Some_In df c d Hd)) as Hs.
  destruct d as [l | l | l | l | l]; try discriminate.
  - rewrite fv_IntCol. apply existsb_isnan_map_of_int.
  - apply count_true_isnan. exact Hs.
Qed.



(** ** Missing values: the categorical stage *)

Section MostFrequent.

Variable A : Type.
Variable cmp : A -> A -> comparison.
Variable l : list A.

Lemma better_spec (best x : A) :
  (better cmp l best x = x \/ better cmp l best x = best) /\
  (count_of cmp best l <= count_of cmp (better cmp l best x) l)%nat /\
  (count_of cmp x l <= count_of cmp (better cmp l best x) l)%nat.
Proof.
  unfold better.
  destruct (Nat.ltb_spec (count_of cmp best l) (count_of cmp x l)) as [Hlt | Hge].
  - repeat split; auto; lia.
  - destruct (Nat.eqb_spec (count_of cmp best l) (count_of cmp x l)) as [Heq | Hne].
    + destruct (cmp x best); repeat split; auto; lia.
    + repeat split; auto; lia.
Qed.

Lemma fold_better (t : list A) (best : A) :
  In best l -> incl t l ->
  In (fold_left (better cmp l) t best) l /\
  (count_of cmp best l <= count_of cmp (fold_left (better cmp l) t best) l)%nat /\
  (forall x, In x t ->
     (count_of cmp x l <= count_of cmp (fold_left (better cmp l) t best) l)%nat).
Proof.
  revert best. induction t as [|x t IH]; intros best Hbest Hincl; simpl.
  - repeat split; auto. intros x [].
  - destruct (better_spec best x) as (Hcase & Hb & Hx).
    assert (Hin : In (better cmp l best x) l).
    { destruct Hcase as [-> | ->]; [apply Hincl; now left | exact Hbest]. }
    destruct (IH (better cmp l best x) Hin) as (Hr & Hle & Hall).
    { intros y Hy. apply Hincl. now right. }
    split; [exact Hr|]. split; [lia|].
    intros y [<- | Hy]; [lia | now apply Hall].
Qed.

End MostFrequent.

(** The value the imputer fills in occurs in the column, and no value
    occurs more often. *)
Lemma most_frequent_max (A : Type) (cmp : A -> A -> comparison) (l : list A) (m : A) :
  most_frequent cmp l = Some m ->
  In m l /\ forall x, In x l -> (count_of cmp x l <= count_of cmp m l)%nat.
Proof.
  unfold most_frequent. destruct l as [|h t]; [discriminate|].
  intros [= <-].
  destruct (fold_better A cmp (h :: t) t h) as (Hin & Hh & Hall).
  { now left. }
  { intros y Hy. now right. }
  change (fold_left _ t h) with (fold_left (better cmp (h :: t)) t h).
  split; [exact Hin|]. intros x [<- | Hx]; [exact Hh | now apply Hall].
Qed.

Lemma count_of_strings (s : string) (l : list string) :
  count_of String_as_OT.compare s l = count_occ string_dec l s.
Proof.
  unfold count_of. induction l as [|h t IH]; simpl; [reflexivity|].
  destruct (string_dec h s) as [-> | Hne].
  - replace (String_as_OT.compare s s) with Eq; [simpl; now rewrite IH|].
    symmetry.
    now apply (cmp_Eq string String_as_OT.compare string_lt
                 String_as_OT.lt_strorder string_cmp_spec).
  - destruct (String_as_OT.compare s h) eqn:E; [|exact IH | exact IH].
    apply (cmp_Eq string String_as_OT.compare string_lt
             String_as_OT.lt_strorder string_cmp_spec) in E. congruence.
Qed.

Lemma most_frequent_string (l : list obj) :
  strings_of l <> [] ->
  exists m, most_frequent String_as_OT.compare (strings_of l) = Some m /\
            In (OStr m) l /\
            forall s, (count_occ string_dec (strings_of l) s
                       <= count_occ string_dec (strings_of l) m)%nat.
Proof.
  intros Hne.
  destruct (most_frequent String_as_OT.compare (strings_of l)) as [m|] eqn:E.
  2:{ unfold most_frequent in E. destruct (strings_of l); [contradiction | discriminate]. }
  exists m. split; [reflexivity|].
  destruct (most_frequent_max _ _ _ _ E) as [Hin Hmax].
  split; [now apply In_strings_of|].
  intros s. destruct (in_dec string_dec s (strings_of l)) as [Hs | Hs].
  - rewrite <- !count_of_strings. now apply Hmax.
  - rewrite (proj1 (count_occ_not_In string_dec _ _) Hs). lia.
Qed.

Lemma impute_categ_column (c : string) (df : DataFrame) (l : list obj) :
  getitem df c = Some (ObjCol l) -> strings_of l <> [] ->
  exists l',
    Modules.impute_categ c df = (setitem df c (ObjCol l'), None) /\
    mode_filled l l'.
Proof.
  intros Hd Hne.
  destruct (most_frequent_string l Hne) as [m (Hm & Hin & Hmax)].
  exists (map (fun o => match o with ONaN => OStr m | OStr _ => o end) l).
  split.
  - unfold Modules.impute_categ, eval, column. rewrite Hd.
    cbn [bind fit_transform]. now rewrite Hm.
  - exists m. auto.
Qed.

Lemma count_true_missing_cells (l : list obj) (m : string) :
  count_true (isna (ObjCol l)) = 0%nat ->
  map (fun o => match o with ONaN => OStr m | OStr _ => o end) l = l.
Proof.
  unfold count_true. cbn [isna].
  induction l as [|o l IH]; simpl; [reflexivity|].
  destruct o as [|s]; simpl; [discriminate|].
  intros H. now rewrite IH.
Qed.



(** X15: The method ['delete'] of the categorical stage leaves no missing
    value in the frame, in any column, numeric ones included.  The columns
    are kept. *)
Theorem missings_categ_delete_leaves_none :
  forall (P : Pandas) (self : AutoClean) (df : DataFrame),
    missings_categ self = PStr "delete" ->
    exists out : DataFrame,
      Modules._check_missings_categ self df = Ok out /\
      columns out = columns df /\
      count_missings out = 0%nat.
Proof.
  intros P self df Hm.
  unfold Modules._check_missings_categ, run, Modules._check_missings_categ_stmt.
  rewrite Hm. replace (py_truthy (PStr "delete")) with true by reflexivity.
  unfold eval at 1. cbn [upper]. unfold eval at 1.
  destruct (count_missings df =? 0)%nat eqn:E; cbn [negb].
  - exists df. apply Nat.eqb_eq in E. now repeat split.
  - replace (is_str (PStr "delete") "mode") with false by reflexivity.
    replace (is_str (PStr "delete") "delete") with true by reflexivity.
    exists (dropna df). split; [reflexivity|].
    split; [apply columns_dropna | apply count_missings_dropna].
Qed.

Lemma missings_categ_delete_leaves_none_witness :
  exists out : DataFrame,
    Modules._check_missings_categ (P := reference_pandas)
      {| missings_num := PStr "knn"; missings_categ := PStr "delete";
         encode_categ := PList [PStr "auto"];
         extract_datetime := PStr "s"; outliers := PStr "winz";
         outlier_param := PFloat (Fin (3 # 2)) |}
      [mkSeries "x" (FloatCol [Fin 1; Fin 2; NaN]);
       mkSeries "city" (ObjCol [ONaN; OStr "a"; OStr "b"])]
    = Ok out /\
    columns out = ["x"; "city"]%string /\
    count_missings out = 0%nat.
Proof.
  apply (missings_categ_delete_leaves_none reference_pandas
           {| missings_num := PStr "knn"; missings_categ := PStr "delete";
              encode_categ := PList [PStr "auto"];
              extract_datetime := PStr "s"; outliers := PStr "winz";
              outlier_param := PFloat (Fin (3 # 2)) |}).
  reflexivity.
Defined.

(** ** Outliers: the method ['delete'] *)

Lemma remove_nth_nil {A : Type} (p : nat) : remove_nth p (@nil A) = [].
Proof. now destruct p. Qed.

Lemma remove_nth_select {A : Type} (m1 m2 : list bool) (l : list A) :
  remove_nth (count_true m1) (select (m1 ++ true :: m2) l)
  = select (m1 ++ false :: m2) l.
Proof.
  unfold count_true. revert l.
  induction m1 as [|b m1 IH]; intros [|x l]; simpl; trivial.
  - apply remove_nth_nil.
  - destruct b; simpl; now rewrite IH.
Qed.

Lemma position_select (m1 m2 : list bool) (a n j : nat) :
  (length m1 < n)%nat -> j = (a + length m1)%nat ->
  position j (select (m1 ++ true :: m2) (seq a n)) = Some (count_true m1).
Proof.
  unfold count_true. revert a n.
  induction m1 as [|b m1 IH]; intros a [|n] Hlt Hj; simpl in *; try lia.
  - replace (a =? j)%nat with true by (symmetry; apply Nat.eqb_eq; lia).
    reflexivity.
  - destruct b; simpl.
    + replace (a =? j)%nat with false by (symmetry; apply Nat.eqb_neq; lia).
      rewrite (IH (S a) n) by lia. reflexivity.
    + apply IH; lia.
Qed.

Lemma remove_row_select (m1 m2 : list bool) (d : coldata) :
  remove_row (count_true m1) (select_rows (m1 ++ true :: m2) d)
  = select_rows (m1 ++ false :: m2) d.
Proof. destruct d; simpl; now rewrite remove_nth_select. Qed.

Lemma select_all {A : Type} (n : nat) (l : list A) :
  (length l <= n)%nat -> select (repeat true n) l = l.
Proof.
  revert l. induction n as [|n IH]; intros [|x l] H; simpl in *; trivial; try lia.
  rewrite IH; [reflexivity | lia].
Qed.

Lemma select_rows_all (n : nat) (d : coldata) :
  (nrows_of d <= n)%nat -> select_rows (repeat true n) d = d.
Proof. destruct d; simpl; intros H; now rewrite select_all. Qed.

Lemma select_filter {A : Type} (p : A -> bool) (l : list A) :
  select (map p l) l = filter p l.
Proof.
  induction l as [|x l IH]; simpl; [reflexivity|].
  destruct (p x); now rewrite IH.
Qed.

Lemma fv_select_rows (mask : list bool) (d : coldata) :
  fv (select_rows mask d) = select mask (fv d).
Proof.
  destruct d as [l | l | l | l | l]; try reflexivity; try (now destruct mask).
  rewrite !fv_IntCol. cbn [select_rows]. rewrite fv_IntCol.
  symmetry. apply select_map.
Qed.

Lemma getitem_map_data (f : coldata -> coldata) (df : DataFrame) (c : string) :
  getitem (map (fun s => mkSeries (col_name s) (f (col_data s))) df) c
  = option_map f (getitem df c).
Proof.
  induction df as [|s df IH]; simpl; [reflexivity|].
  destruct (String.eqb (col_name s) c); [reflexivity | exact IH].
Qed.

Section DeletionLoop.

Variables lb ub : float.
Variable df : DataFrame.

(** The rows of the frame selected by a mask. *)
Let rows (mask : list bool) : DataFrame :=
  map (fun s => mkSeries (col_name s) (select_rows mask (col_data s))) df.

Let within (v : float) : bool := negb (flt v lb || flt ub v).

Let step (acc : result (list nat * DataFrame)) (row : nat * float) :=
  let '(row_index, row_val) := row in
  st <- acc ;;
  if flt row_val lb || flt ub row_val
  then drop (fst st) (snd st) row_index
  else Ok st.

(** The state of the loop after the values [done]: the rows of [done]
    outside the bounds are gone, the rows to come are all there. *)
Lemma deletion_loop (todo done : list float) :
  fold_left step (combine (seq (length done) (length todo)) todo)
    (Ok (select (map within done ++ repeat true (length todo))
           (seq 0 (length done + length todo)),
         rows (map within done ++ repeat true (length todo))))
  = Ok (select (map within (done ++ todo)) (seq 0 (length done + length todo)),
        rows (map within (done ++ todo))).
Proof.
  revert done. induction todo as [|v todo IH]; intros done.
  - simpl. now rewrite !app_nil_r.
  - cbn [length seq combine fold_left repeat].
    assert (Hnext :
              step (Ok (select (map within done ++ true :: repeat true (length todo))
                          (seq 0 (length done + S (length todo))),
                        rows (map within done ++ true :: repeat true (length todo))))
                (length done, v)
              = Ok (select (map within (done ++ [v]) ++ repeat true (length todo))
                      (seq 0 (length (done ++ [v]) + length todo)),
                    rows (map within (done ++ [v]) ++ repeat true (length todo)))).
    { rewrite map_app, <- app_assoc, length_app. cbn [map app length].
      replace (length done + 1 + length todo)%nat
        with (length done + S (length todo))%nat by lia.
      unfold step. cbn [bind fst snd].
      assert (Hw : within v = negb (flt v lb || flt ub v)) by reflexivity.
      rewrite !Hw.
      destruct (flt v lb || flt ub v); cbn [negb]; [|reflexivity].
      unfold drop.
      rewrite (position_select (map within done) (repeat true (length todo)) 0
                 (length done + S (length todo)) (length done))
        by (rewrite ?length_map; lia).
      rewrite remove_nth_select. f_equal. f_equal.
      unfold rows. rewrite map_map. apply map_ext. intros s. cbn [col_name col_data].
      now rewrite remove_row_select. }
    rewrite Hnext.
    replace (S (length done)) with (length (done ++ [v]))
      by (rewrite length_app; simpl; lia).
    rewrite (IH (done ++ [v])).
    rewrite <- app_assoc, length_app. cbn [app length].
    now replace (length done + 1 + length todo)%nat
      with (length done + S (length todo))%nat by lia.
Qed.

Lemma delete_outliers_eq (c : string) (d : coldata) (vals : list float) :
  getitem df c = Some d -> float_values d = Some vals ->
  Forall (fun s => nrows_of (col_data s) = length vals) df ->
  Modules.delete_outliers c lb ub df = (rows (map within vals), None).
Proof.
  intros Hd Hvals Hrect.
  unfold Modules.delete_outliers, eval, Modules.rows_of, column.
  rewrite Hd. cbn [bind]. rewrite Hvals. unfold rebind, enumerate.
  assert (Hn : nrows df = length vals).
  { destruct df as [|s rest]; [discriminate|].
    inversion Hrect; subst. assumption. }
  rewrite Hn.
  pose proof (deletion_loop vals []) as Hloop.
  cbn [length map app Nat.add] in Hloop.
  rewrite select_all in Hloop by now rewrite length_seq.
  assert (Hall : rows (repeat true (length vals)) = df).
  { unfold rows. rewrite <- (map_id df) at 2. apply map_ext_in.
    intros s Hs. rewrite select_rows_all; [now destruct s|].
    rewrite (proj1 (Forall_forall _ _) Hrect s Hs). lia. }
  rewrite Hall in Hloop. unfold step in Hloop. rewrite Hloop. reflexivity.
Qed.

End DeletionLoop.



(** ** Bounds: where they lie *)

Lemma sorted_nth_le (xs : list Q) (i j : nat) :
  Sorted Qle xs -> (i <= j)%nat -> (j < length xs)%nat ->
  nth i xs 0 <= nth j xs 0.
Proof.
  intros Hs. apply Sorted_StronglySorted in Hs; [|exact Qle_trans].
  revert i j. induction Hs as [|x t Ht IH Hall]; intros i j Hij Hj; simpl in *.
  - lia.
  - destruct i as [|i], j as [|j]; try lia.
    + apply Qle_refl.
    + apply (proj1 (Forall_forall _ _) Hall). apply nth_In. lia.
    + apply IH; lia.
Qed.

Section Quantiles.

Variable xs : list Q.

Hypothesis xs_sorted : Sorted Qle xs.
Hypothesis xs_nonempty : xs <> [].

Lemma quantile_position (p : Q) :
  0 <= p -> p <= 1 ->
  (0 <= Qfloor (p * inject_Z (Z.of_nat (length xs) - 1))
   <= Z.of_nat (length xs) - 1)%Z.
Proof.
  intros H0 H1.
  assert (Hn : 0 <= inject_Z (Z.of_nat (length xs) - 1)).
  { change 0 with (inject_Z 0). rewrite <- Zle_Qle.
    destruct xs; [contradiction | simpl length; lia]. }
  split.
  - rewrite <- (Qfloor_Z 0). apply Qfloor_resp_le. now apply Qmult_le_0_compat.
  - rewrite <- (Qfloor_Z (Z.of_nat (length xs) - 1)) at 2. apply Qfloor_resp_le.
    rewrite <- (Qmult_1_l (inject_Z _)) at 2. now apply Qmult_le_compat_r.
Qed.

(** A quantile lies between its two neighbours in the sorted data. *)
Lemma quantile_between (p : Q) :
  0 <= p -> p <= 1 ->
  let n := Z.of_nat (length xs) in
  let lo := Qfloor (p * inject_Z (n - 1)) in
  nth (Z.to_nat lo) xs 0 <= spec_quantile xs p /\
  spec_quantile xs p <= nth (Z.to_nat (Z.min (lo + 1) (n - 1))) xs 0.
Proof.
  intros H0 H1 n lo.
  destruct (quantile_position p H0 H1) as [Hlo Hhi]. fold n in Hlo, Hhi. fold lo in Hlo, Hhi.
  unfold spec_quantile. fold n. fold lo.
  set (a := nth (Z.to_nat lo) xs 0).
  set (b := nth (Z.to_nat (Z.min (lo + 1) (n - 1))) xs 0).
  assert (Hab : a <= b).
  { apply sorted_nth_le; [exact xs_sorted | lia | unfold n in *; lia]. }
  pose proof (Qfloor_le (p * inject_Z (n - 1))) as Hf0.
  pose proof (Qlt_floor (p * inject_Z (n - 1))) as Hf1.
  fold lo in Hf0, Hf1.
  rewrite inject_Z_plus in Hf1. change (inject_Z 1) with 1 in Hf1.
  set (h := p * inject_Z (n - 1)) in *.
  split; nra.
Qed.

Lemma quantile_monotone (p p' : Q) :
  0 <= p -> p <= p' -> p' <= 1 ->
  spec_quantile xs p <= spec_quantile xs p'.
Proof.
  intros H0 Hpp H1.
  assert (H0' : 0 <= p') by lra. assert (H1' : p <= 1) by lra.
  destruct (quantile_between p H0 H1') as [_ Hup].
  destruct (quantile_between p' H0' H1) as [Hdown _].
  destruct (quantile_position p H0 H1') as [Hlo Hhi].
  destruct (quantile_position p' H0' H1) as [Hlo' Hhi'].
  cbv zeta in Hup, Hdown.
  set (n := Z.of_nat (length xs)) in *.
  assert (Hn : 0 <= inject_Z (n - 1)).
  { change 0 with (inject_Z 0). rewrite <- Zle_Qle. lia. }
  assert (Hh : p * inject_Z (n - 1) <= p' * inject_Z (n - 1)).
  { now apply Qmult_le_compat_r. }
  pose proof (Qfloor_resp_le _ _ Hh) as Hfl.
  set (lo := Qfloor (p * inject_Z (n - 1))) in *.
  set (lo' := Qfloor (p' * inject_Z (n - 1))) in *.
  destruct (Z.eq_dec lo lo') as [E | E].
  - unfold spec_quantile. fold n. fold lo. fold lo'. rewrite <- E.
    set (a := nth (Z.to_nat lo) xs 0).
    set (b := nth (Z.to_nat (Z.min (lo + 1) (n - 1))) xs 0).
    assert (Hab : a <= b).
    { apply sorted_nth_le; [exact xs_sorted | lia | unfold n in *; lia]. }
    nra.
  - apply Qle_trans with (nth (Z.to_nat (Z.min (lo + 1) (n - 1))) xs 0);
      [exact Hup|].
    apply Qle_trans with (nth (Z.to_nat lo') xs 0); [|exact Hdown].
    apply sorted_nth_le; [exact xs_sorted | lia | unfold n in *; lia].
Qed.

End Quantiles.

(** X17: For a numeric column without missing value and a multiplier [k >= 0],
    the bounds bracket the quartiles: [lb <= Q1 <= Q3 <= ub].  A value
    between the quartiles is therefore never an outlier. *)
Theorem bounds_bracket_quartiles :
  forall (self : AutoClean) (df : DataFrame) (c : string) (d : coldata)
         (vals : list float) (k : Q),
    getitem df c = Some d ->
    float_values d = Some vals ->
    vals <> [] ->
    existsb isnan vals = false ->
    py_number (outlier_param self) = Some (Fin k) ->
    0 <= k ->
    exists lb ub q1 q3 : Q,
      Modules._compute_bounds self df c = Ok (Fin lb, Fin ub) /\
      percentile (sorted vals) 25 = Ok (Fin q1) /\
      percentile (sorted vals) 75 = Ok (Fin q3) /\
      lb <= q1 /\ q1 <= q3 /\ q3 <= ub /\
      (forall v : Q, q1 <= v -> v <= q3 ->
         flt (Fin v) (Fin lb) = false /\ flt (Fin ub) (Fin v) = false).
Proof.
  intros self df c d vals k Hd Hvals Hne Hnan Hk Hk0.
  assert (Hs : sorted vals = map Fin (spec_sort (finite_values vals))).
  { rewrite <- sorted_map_Fin. now rewrite map_Fin_finite_values. }
  set (xs := spec_sort (finite_values vals)) in *.
  assert (Hxs : xs <> []).
  { intros E. apply (f_equal (@length Q)) in E. unfold xs in E.
    rewrite length_spec_sort in E.
    apply (f_equal (@length float)) in Hs. rewrite length_sorted, length_map in Hs.
    fold xs in Hs. unfold xs in Hs. rewrite length_spec_sort in Hs.
    destruct vals; [contradiction | simpl in *; lia]. }
  assert (Hsorted : Sorted Qle xs) by apply spec_sort_Sorted.
  destruct (percentile_sorted_finite xs 25 Hxs Hsorted) as [q1 [Hq1 Eq1]]; [lra | lra |].
  destruct (percentile_sorted_finite xs 75 Hxs Hsorted) as [q3 [Hq3 Eq3]]; [lra | lra |].
  assert (Hq : q1 <= q3).
  { rewrite Eq1, Eq3.
    apply quantile_monotone; trivial; apply Qle_bool_imp_le; reflexivity. }
  exists (q1 - k * (q3 - q1)), (q3 + k * (q3 - q1)), q1, q3.
  split; [|split; [|split]].
  - unfold Modules._compute_bounds, column. rewrite Hd. cbn [bind].
    rewrite Hvals, Hs, Hq1, Hq3. cbn [bind]. rewrite Hk. reflexivity.
  - now rewrite Hs.
  - now rewrite Hs.
  - assert (Hiqr : 0 <= k * (q3 - q1)) by nra.
    split; [lra|]. split; [exact Hq|]. split; [lra|].
    intros v Hv1 Hv3. unfold flt.
    split; apply negb_false_iff; apply Qle_bool_iff; lra.
Qed.

Lemma bounds_bracket_quartiles_witness :
  exists lb ub q1 q3 : Q,
    Modules._compute_bounds defaults [mkSeries "x" (IntCol [1; 2; 3; 5; 100]%Z)] "x"
    = Ok (Fin lb, Fin ub) /\
    percentile (sorted (map of_int [1; 2; 3; 5; 100]%Z)) 25 = Ok (Fin q1) /\
    percentile (sorted (map of_int [1; 2; 3; 5; 100]%Z)) 75 = Ok (Fin q3) /\
    lb <= q1 /\ q1 <= q3 /\ q3 <= ub /\
    (forall v : Q, q1 <= v -> v <= q3 ->
       flt (Fin v) (Fin lb) = false /\ flt (Fin ub) (Fin v) = false).
Proof.
  apply (bounds_bracket_quartiles defaults
           [mkSeries "x" (IntCol [1; 2; 3; 5; 100]%Z)] "x"
           (IntCol [1; 2; 3; 5; 100]%Z) (map of_int [1; 2; 3; 5; 100]%Z) (3 # 2));
    try reflexivity.
  - discriminate.
  - discriminate.
Defined.

(** ** The type normalizer *)

(** X18: A float column of whole numbers with a missing value is left as it
    is: the cast to integer fails on the missing value, and the failure is
    only logged. *)
Theorem round_values_keeps_incomplete_column :
  forall (df : DataFrame) (c : string) (l : list float),
    NoDup (columns df) ->
    getitem df c = Some (FloatCol l) ->
    forallb integral l = true ->
    existsb isnan l = true ->
    exists out : DataFrame,
      Modules._round_values df = Ok out /\
      getitem out c = Some (FloatCol l).
Proof.
  intros df c l Hnd Hc Hint Hnan.
  destruct (round_values_columns df Hnd) as [out (Hrun & _ & Hcols)].
  exists out. split; [exact Hrun|].
  rewrite (Hcols c _ Hc). cbn [is_number].
  unfold normalized. cbn [all_integral astype_int]. now rewrite Hint, Hnan.
Qed.

Lemma round_values_keeps_incomplete_column_witness :
  exists out : DataFrame,
    Modules._round_values [mkSeries "x" (FloatCol [Fin 1; NaN; Fin 3])] = Ok out /\
    getitem out "x" = Some (FloatCol [Fin 1; NaN; Fin 3]).
Proof.
  apply (round_values_keeps_incomplete_column
           [mkSeries "x" (FloatCol [Fin 1; NaN; Fin 3])] "x" [Fin 1; NaN; Fin 3]);
    try reflexivity.
  constructor; [simpl; tauto | constructor].
Defined.

(** Rounding to the nearest integer moves a number by a half at most. *)
Lemma rint_near (q : Q) :
  inject_Z (rint q) - (1 # 2) <= q /\ q <= inject_Z (rint q) + (1 # 2).
Proof.
  unfold rint.
  pose proof (Qfloor_le q) as Hlo. pose proof (Qlt_floor q) as Hhi.
  rewrite inject_Z_plus in Hhi. change (inject_Z 1) with 1 in Hhi.
  destruct (Qcompare (q - inject_Z (Qfloor q)) (1 # 2)) eqn:E.
  - apply Qeq_alt in E.
    destruct (Z.even (Qfloor q));
      rewrite ?inject_Z_plus; change (inject_Z 1) with 1; split; lra.
  - apply Qlt_alt in E. split; lra.
  - apply Qgt_alt in E. rewrite inject_Z_plus. change (inject_Z 1) with 1.
    split; lra.
Qed.

Lemma round_float_near (q : Q) :
  exists z : Z,
    round_float 2 (Fin q) = Fin (z # 100) /\
    q - (1 # 200) <= z # 100 /\ z # 100 <= q + (1 # 200).
Proof.
  exists (rint (q * inject_Z 100)). split; [reflexivity|].
  destruct (rint_near (q * inject_Z 100)) as [Hlo Hhi].
  set (z := rint (q * inject_Z 100)) in *.
  assert (Hz : z # 100 == inject_Z z * (1 # 100)).
  { unfold Qeq, inject_Z, Qmult. simpl. lia. }
  change (inject_Z 100) with 100 in *.
  rewrite Hz. split; lra.
Qed.



(** ** Frames that need no cleaning *)

Lemma validated_methods (self : AutoClean) :
  AutoClean._validate_params self = Ok tt ->
  (py_eq (missings_num self) (PBool false) = true \/
   exists s, missings_num self = PStr s /\
             In s ["knn"; "mean"; "median"; "mode"; "delete"]%string) /\
  (py_eq (missings_categ self) (PBool false) = true \/
   exists s, missings_categ self = PStr s /\ In s ["mode"; "delete"]%string).
Proof.
  unfold AutoClean._validate_params. intros H.
  apply guard_Ok in H. destruct H as [H1 H].
  apply guard_Ok in H. destruct H as [H2 _].
  apply (method_check _ _ _ (str_in_spec (missings_num self) _)) in H1.
  apply (method_check _ _ _ (str_in_spec (missings_categ self) _)) in H2.
  now split.
Qed.

(** A stage for missing values whose method passed validation returns a
    frame without missing value as it is. *)
Lemma missings_num_clean (self : AutoClean) (df : DataFrame) :
  (py_eq (missings_num self) (PBool false) = true \/
   exists s, missings_num self = PStr s /\
             In s ["knn"; "mean"; "median"; "mode"; "delete"]%string) ->
  count_missings df = 0%nat ->
  Modules._check_missings_num self df = Ok df.
Proof.
  intros Hnum H0.
  unfold Modules._check_missings_num, run, Modules._check_missings_num_stmt.
  destruct Hnum as [Hfalse | [s [Hs Hin]]].
  - now rewrite (equals_False_falsy _ Hfalse).
  - rewrite Hs. destruct (py_truthy (PStr s)); [|reflexivity].
    unfold eval. cbn [upper]. now rewrite H0.
Qed.

Lemma missings_categ_clean {P : Pandas} (self : AutoClean) (df : DataFrame) :
  (py_eq (missings_categ self) (PBool false) = true \/
   exists s, missings_categ self = PStr s /\ In s ["mode"; "delete"]%string) ->
  count_missings df = 0%nat ->
  Modules._check_missings_categ self df = Ok df.
Proof.
  intros Hcat H0.
  unfold Modules._check_missings_categ, run, Modules._check_missings_categ_stmt.
  destruct Hcat as [Hfalse | [s [Hs Hin]]].
  - now rewrite (equals_False_falsy _ Hfalse).
  - rewrite Hs. destruct (py_truthy (PStr s)); [|reflexivity].
    unfold eval. cbn [upper]. now rewrite H0.
Qed.

(** X20: After validation, a frame without missing value passes the two
    stages for missing values unchanged, whatever the methods. *)
Theorem no_missing_value_unchanged :
  forall (P : Pandas) (self : AutoClean) (df : DataFrame),
    AutoClean._validate_params self = Ok tt ->
    count_missings df = 0%nat ->
    Modules._check_missings_num self df = Ok df /\
    Modules._check_missings_categ self df = Ok df.
Proof.
  intros P self df Hvalid H0.
  destruct (validated_methods self Hvalid) as [Hnum Hcat].
  split.
  - now apply missings_num_clean.
  - now apply missings_categ_clean.
Qed.

Lemma no_missing_value_unchanged_witness :
  Modules._check_missings_num defaults [mkSeries "x" (FloatCol [Fin 1; Fin 2])]
  = Ok [mkSeries "x" (FloatCol [Fin 1; Fin 2])] /\
  Modules._check_missings_categ (P := reference_pandas) defaults
    [mkSeries "x" (FloatCol [Fin 1; Fin 2])]
  = Ok [mkSeries "x" (FloatCol [Fin 1; Fin 2])].
Proof.
  exact (no_missing_value_unchanged reference_pandas defaults
           [mkSeries "x" (FloatCol [Fin 1; Fin 2])] eq_refl eq_refl).
Defined.

Lemma int_frame_no_missing (df : DataFrame) :
  Forall (fun s => exists l, col_data s = IntCol l) df -> count_missings df = 0%nat.
Proof.
  intros H. apply count_missings_zero. intros s Hs.
  destruct (proj1 (Forall_forall _ _) H s Hs) as [l ->].
  unfold count_true. cbn [isna]. induction l; simpl; trivial.
Qed.

Lemma int_frame_numeric (df : DataFrame) :
  Forall (fun s => exists l, col_data s = IntCol l) df ->
  non_numeric_columns df = [].
Proof.
  unfold non_numeric_columns. induction 1 as [|s df [l Hl] _ IH]; simpl; trivial.
  now rewrite Hl.
Qed.

Lemma int_frame_normalized (df : DataFrame) :
  NoDup (columns df) ->
  Forall (fun s => exists l, col_data s = IntCol l) df ->
  Modules._round_values df = Ok df.
Proof.
  intros Hnd Hint.
  destruct (round_values_columns df Hnd) as [out (Hrun & Hcols & Hdata)].
  rewrite Hrun. f_equal. apply frame_ext.
  - now rewrite Hcols.
  - exact Hcols.
  - intros c. destruct (getitem df c) as [d|] eqn:Hd.
    + rewrite (Hdata c d Hd).
      destruct (proj1 (Forall_forall _ _) Hint _ (getitem_Some_In df c d Hd))
        as [l Hl].
      cbn [col_data] in Hl. subst d. cbn [is_number].
      now rewrite normalized_IntCol.
    + apply getitem_None. rewrite Hcols. intros Hin.
      destruct (getitem_In df c Hin) as [d Hd']. congruence.
Qed.

(** X21: The pipeline returns an integer frame as it is when outliers are not
    handled: for a validated configuration with [outliers] equal to
    [False] and the encoding ["auto"], [__init__] on a frame of int64
    columns yields that frame. *)
Theorem clean_integer_frame_unchanged :
  forall (P : Pandas) (self : AutoClean) (more : list pyval) (df : DataFrame),
    set_iter_ok P ->
    AutoClean._validate_params self = Ok tt ->
    py_eq (outliers self) (PBool false) = true ->
    encode_categ self = PList (PStr "auto" :: more) ->
    NoDup (columns df) ->
    Forall (fun s => exists l, col_data s = IntCol l) df ->
    AutoClean.__init__ self df = Ok df.
Proof.
  intros P self more df Hset Hvalid Hout Henc Hnd Hint.
  unfold AutoClean.__init__. rewrite Hvalid. cbn [bind].
  unfold AutoClean._clean_data.
  destruct (validated_methods self Hvalid) as [Hmn Hmc].
  pose proof (missings_num_clean self df Hmn (int_frame_no_missing df Hint)) as Hnum.
  pose proof (missings_categ_clean self df Hmc (int_frame_no_missing df Hint)) as Hcat.
  assert (Hmissing :
            (if negb (is_str (missings_categ self) "delete") &&
                is_str (missings_num self) "delete"
             then df0 <- Modules._check_missings_categ self df ;;
                  Modules._check_missings_num self df0
             else df0 <- Modules._check_missings_num self df ;;
                  Modules._check_missings_categ self df0) = Ok df).
  { destruct (negb _ && _); rewrite ?Hnum, ?Hcat; cbn [bind];
      rewrite ?Hnum, ?Hcat; reflexivity. }
  rewrite Hmissing. cbn [bind].
  assert (Houtliers : Modules._check_outliers self df = Ok df).
  { unfold Modules._check_outliers, run, Modules._check_outliers_stmt.
    now rewrite (equals_False_falsy _ Hout). }
  rewrite Houtliers. cbn [bind].
  rewrite (convert_datetime_numeric P self df Hset (int_frame_numeric df Hint)).
  cbn [bind].
  assert (Hencode : Modules._encode_categ self df = Ok df).
  { unfold Modules._encode_categ, run, Modules._encode_categ_stmt.
    unfold eval at 1. rewrite Henc. cbn [py_item nth_error].
    replace (py_truthy (PStr "auto")) with true by reflexivity.
    unfold eval at 1.
    replace (is_str (PStr "auto") "auto") with true by reflexivity.
    now rewrite (int_frame_numeric df Hint), (set_iter_nil P Hset). }
  rewrite Hencode. cbn [bind].
  now rewrite (int_frame_normalized df Hnd Hint).
Qed.

Lemma clean_integer_frame_unchanged_witness :
  AutoClean.__init__ (P := reference_pandas)
    {| missings_num := PStr "knn"; missings_categ := PStr "mode";
       encode_categ := PList [PStr "auto"];
       extract_datetime := PStr "s"; outliers := PBool false;
       outlier_param := PFloat (Fin (3 # 2)) |}
    [mkSeries "x" (IntCol [1; 2; 300]%Z); mkSeries "y" (IntCol [0; 0; 7]%Z)]
  = Ok [mkSeries "x" (IntCol [1; 2; 300]%Z); mkSeries "y" (IntCol [0; 0; 7]%Z)].
Proof.
  apply (clean_integer_frame_unchanged reference_pandas _ []).
  - intros l _. apply Permutation_refl.
  - reflexivity.
  - reflexivity.
  - reflexivity.
  - constructor; [simpl; intros [H | []]; discriminate H|].
    constructor; [simpl; tauto | constructor].
  - constructor; [eexists; reflexivity|].
    constructor; [eexists; reflexivity | constructor].
Defined.

(** X22: The type normalizer only touches float columns: it keeps the
    names and the order of the columns, and returns every column that is
    not a float column (int64 columns, and the columns that are not
    numeric) exactly as it was. *)
Theorem round_values_touches_floats_only :
  forall df : DataFrame,
    NoDup (columns df) ->
    exists out : DataFrame,
      Modules._round_values df = Ok out /\
      columns out = columns df /\
      (forall (c : string) (d : coldata),
          getitem df c = Some d ->
          (forall l, d <> FloatCol l) ->
          getitem out c = Some d).
Proof.
  intros df Hnd.
  destruct (round_values_columns df Hnd) as [out (Hrun & Hcols & Hdata)].
  exists out. split; [exact Hrun|]. split; [exact Hcols|].
  intros c d Hd Hfloat. rewrite (Hdata c d Hd).
  destruct d as [l | l | l | l | l]; cbn [is_number];
    rewrite ?normalized_IntCol; try reflexivity.
  now elim (Hfloat l).
Qed.

Lemma round_values_touches_floats_only_witness :
  exists out : DataFrame,
    Modules._round_values
      [mkSeries "n" (IntCol [1; 2]%Z); mkSeries "x" (FloatCol [Fin (1 # 3); Fin 2]);
       mkSeries "city" (ObjCol [OStr "b"; ONaN])]
    = Ok out /\
    columns out = ["n"; "x"; "city"]%string /\
    getitem out "n" = Some (IntCol [1; 2]%Z) /\
    getitem out "city" = Some (ObjCol [OStr "b"; ONaN]).
Proof.
  destruct (round_values_touches_floats_only
              [mkSeries "n" (IntCol [1; 2]%Z);
               mkSeries "x" (FloatCol [Fin (1 # 3); Fin 2]);
               mkSeries "city" (ObjCol [OStr "b"; ONaN])])
    as [out (Hrun & Hcols & Hkeep)].
  - constructor; [simpl; intros [H | [H | []]]; discriminate H|].
    constructor; [simpl; intros [H | []]; discriminate H|].
    constructor; [simpl; tauto | constructor].
  - exists out. split; [exact Hrun|]. split; [exact Hcols|].
    split; apply Hkeep; try reflexivity; discriminate.
Defined.

(** ** The order of the two stages for missing values *)

(** The method ['delete'] of either stage: rows are dropped when the frame
    has a missing value. *)
Lemma missings_num_delete_eq (self : AutoClean) (df : DataFrame) :
  missings_num self = PStr "delete" ->
  Modules._check_missings_num self df
  = Ok (if (count_missings df =? 0)%nat then df else dropna df).
Proof.
  intros Hm.
  unfold Modules._check_missings_num, run, Modules._check_missings_num_stmt.
  rewrite Hm. replace (py_truthy (PStr "delete")) with true by reflexivity.
  unfold eval at 1. cbn [upper]. unfold eval at 1.
  destruct (count_missings df =? 0)%nat; reflexivity.
Qed.

Lemma missings_categ_delete_eq {P : Pandas} (self : AutoClean) (df : DataFrame) :
  missings_categ self = PStr "delete" ->
  Modules._check_missings_categ self df
  = Ok (if (count_missings df =? 0)%nat then df else dropna df).
Proof.
  intros Hm.
  unfold Modules._check_missings_categ, run, Modules._check_missings_categ_stmt.
  rewrite Hm. replace (py_truthy (PStr "delete")) with true by reflexivity.
  unfold eval at 1. cbn [upper]. unfold eval at 1.
  destruct (count_missings df =? 0)%nat; reflexivity.
Qed.

Lemma deleted_has_no_missing (df : DataFrame) :
  (count_missings
     (if (count_missings df =? 0)%nat then df else dropna df) =? 0)%nat = true.
Proof.
  apply Nat.eqb_eq.
  destruct (count_missings df =? 0)%nat eqn:E.
  - now apply Nat.eqb_eq.
  - apply count_missings_dropna.
Qed.

(** C3 (amended): the missing-value handlers run in the order the rule
    states -- categorical handling first exactly when it is enabled, is not
    [delete] and numeric handling is [delete], numeric handling first
    otherwise -- followed by the other stages.  The order matters when
    categorical values are imputed and numeric handling deletes: with mode
    imputation and numeric deletion the two orders keep different rows.
    When both handlers delete, numeric handling comes first and the order
    does not matter: in either order the result is the same frame. *)
Theorem clean_data_ordering :
  (forall (P : Pandas) (self : AutoClean) (df : DataFrame),
      AutoClean._clean_data self df
      = (df1 <- handle_missing self (categorical_first self) df ;;
         later_stages self df1)) /\
  (forall (P : Pandas) (self : AutoClean) (df : DataFrame),
      missings_num self = PStr "delete" ->
      missings_categ self = PStr "delete" ->
      categorical_first self = false /\
      handle_missing self true df = handle_missing self false df) /\
  (let self := {| missings_num := PStr "delete";
                  missings_categ := PStr "mode";
                  encode_categ := PList [PStr "auto"];
                  extract_datetime := PStr "s";
                  outliers := PStr "winz";
                  outlier_param := PFloat (Fin (3 # 2)) |} in
   let df := [mkSeries "x" (FloatCol [Fin 1; NaN; Fin 3]);
              mkSeries "c" (ObjCol [OStr "a"; OStr "a"; ONaN])] in
   categorical_first self = true /\
   exists kept kept' : DataFrame,
     handle_missing (P := reference_pandas) self true df = Ok kept /\
     handle_missing (P := reference_pandas) self false df = Ok kept' /\
     nrows kept = 2%nat /\ nrows kept' = 1%nat).
Proof.
  split; [|split].
  - intros P self df. unfold AutoClean._clean_data, later_stages.
    assert (Hm : (if negb (is_str (missings_categ self) "delete") &&
                     is_str (missings_num self) "delete"
                  then
                    df0 <- Modules._check_missings_categ self df ;;
                    Modules._check_missings_num self df0
                  else
                    df0 <- Modules._check_missings_num self df ;;
                    Modules._check_missings_categ self df0)
                 = handle_missing self (categorical_first self) df).
    { unfold handle_missing, categorical_first.
      destruct (py_truthy (missings_categ self)) eqn:Et; [reflexivity|].
      simpl andb.
      destruct (negb (is_str (missings_categ self) "delete") &&
                is_str (missings_num self) "delete").
      - rewrite (missings_categ_disabled self df Et). simpl.
        transitivity (df0 <- Modules._check_missings_num self df ;; Ok df0).
        + now rewrite bind_Ok.
        + destruct (Modules._check_missings_num self df) as [df0|e]; simpl;
            [|reflexivity].
          now rewrite (missings_categ_disabled self df0 Et).
      - reflexivity. }
    rewrite Hm.
    destruct (handle_missing self (categorical_first self) df) as [df1|e];
      simpl; [|reflexivity].
    destruct (Modules._check_outliers self df1) as [df2|e]; simpl; [|reflexivity].
    destruct (Modules._convert_datetime self df2) as [df3|e]; simpl; [|reflexivity].
    destruct (Modules._encode_categ self df3) as [df4|e]; simpl; [|reflexivity].
    apply bind_Ok.
  - intros P self df Hnum Hcat. split.
    { unfold categorical_first. rewrite Hcat.
      replace (is_str (PStr "delete") "delete") with true by reflexivity.
      cbn [negb]. now rewrite andb_false_r. }
    unfold handle_missing.
    rewrite (missings_categ_delete_eq self df Hcat),
            (missings_num_delete_eq self df Hnum).
    cbn [bind].
    rewrite (missings_num_delete_eq self _ Hnum),
            (missings_categ_delete_eq self _ Hcat).
    now rewrite deleted_has_no_missing.
  - cbv zeta. split; [reflexivity|].
    eexists. eexists.
    split; [vm_compute; reflexivity|].
    split; [vm_compute; reflexivity|].
    split; reflexivity.
Qed.

Lemma clean_data_ordering_witness :
  handle_missing (P := reference_pandas)
    {| missings_num := PStr "delete"; missings_categ := PStr "delete";
       encode_categ := PList [PStr "auto"];
       extract_datetime := PStr "s"; outliers := PStr "winz";
       outlier_param := PFloat (Fin (3 # 2)) |}
    true
    [mkSeries "x" (FloatCol [Fin 1; NaN; Fin 3]);
     mkSeries "c" (ObjCol [OStr "a"; OStr "a"; ONaN])]
  = handle_missing (P := reference_pandas)
      {| missings_num := PStr "delete"; missings_categ := PStr "delete";
         encode_categ := PList [PStr "auto"];
         extract_datetime := PStr "s"; outliers := PStr "winz";
         outlier_param := PFloat (Fin (3 # 2)) |}
      false
      [mkSeries "x" (FloatCol [Fin 1; NaN; Fin 3]);
       mkSeries "c" (ObjCol [OStr "a"; OStr "a"; ONaN])].
Proof.
  apply (proj1 (proj2 clean_data_ordering) reference_pandas); reflexivity.
Defined.

(** C3 as stated fails: when both handlers delete, the order does not
    determine which rows survive.  On a frame with a numeric gap in one row
    and a categorical gap in another, categorical handling first and
    numeric handling first both keep the one complete row. *)
Lemma both_delete_same_rows_counterexample :
  exists kept : DataFrame,
    handle_missing (P := reference_pandas)
      {| missings_num := PStr "delete"; missings_categ := PStr "delete";
         encode_categ := PList [PStr "auto"];
         extract_datetime := PStr "s"; outliers := PStr "winz";
         outlier_param := PFloat (Fin (3 # 2)) |}
      true
      [mkSeries "x" (FloatCol [Fin 1; NaN; Fin 3]);
       mkSeries "c" (ObjCol [OStr "a"; OStr "a"; ONaN])]
    = Ok kept /\
    handle_missing (P := reference_pandas)
      {| missings_num := PStr "delete"; missings_categ := PStr "delete";
         encode_categ := PList [PStr "auto"];
         extract_datetime := PStr "s"; outliers := PStr "winz";
         outlier_param := PFloat (Fin (3 # 2)) |}
      false
      [mkSeries "x" (FloatCol [Fin 1; NaN; Fin 3]);
       mkSeries "c" (ObjCol [OStr "a"; OStr "a"; ONaN])]
    = Ok kept /\
    kept = [mkSeries "x" (FloatCol [Fin 1]); mkSeries "c" (ObjCol [OStr "a"])].
Proof.
  eexists. split; [vm_compute; reflexivity|].
  split; reflexivity.
Qed.
